(** * Cyber-Diagnostics-Lab: cache, scan orchestrator and risk engine

    A shallow embedding of the core of the scanner and the properties its
    specification states about it:
    - [core/risk_engine/calculate_risk.py]  (module [RiskEngine]),
    - [core/orchestrator.py]                (module [Orchestrator]),
    - [core/cache_manager.py]               (modules [Cache] and [APICallCacher]).

    Modelling conventions.
    - A Python [dict] whose iteration order matters is an association list
      with unique keys, updated in place by [dict_set] (module [PyDict]);
      the two cache tiers, which are only looked up by key, are [gmap]s.
    - Python floats are exact rationals ([Q]): the score arithmetic, the
      progress interpolation and the clock are carried out without
      rounding.  Every constant of the code is written as the same
      decimal.  Module [Binary64] repeats the score arithmetic on binary64
      floats for the concrete values.
    - Strings are byte strings; [lower] folds the ASCII letters only.
    - An exception is an explicit result: [None], or the [inl] of a sum. *)

From Stdlib Require Import QArith Qround ZArith Lia Lqa Bool.
From Stdlib Require Import Ascii String.
From Stdlib Require Import OrdersEx.
From Stdlib Require Floats.
From stdpp Require Import base option list gmap strings sorting.

Local Open Scope string_scope.
Local Open Scope list_scope.

(* [set_solver] clears hypotheses it has already consumed. *)
Set Warnings "-clear-no-such-hyp".

(** ** Python strings *)

Module PyStr.

(** [str.lower()], on the ASCII letters. *)
Definition lower_ascii (c : ascii) : ascii :=
  let n := nat_of_ascii c in
  if (65 <=? n)%nat && (n <=? 90)%nat then ascii_of_nat (n + 32) else c.

Fixpoint lower (s : string) : string :=
  match s with
  | EmptyString => EmptyString
  | String c t => String (lower_ascii c) (lower t)
  end.

(** [kw in text]: [kw] occurs in [text] as a contiguous substring. *)
Fixpoint contains (kw text : string) : bool :=
  String.prefix kw text ||
  match text with
  | EmptyString => false
  | String _ t => contains kw t
  end.

(** The characters [str.strip()] removes, in the ASCII range. *)
Definition is_space (c : ascii) : bool :=
  let n := nat_of_ascii c in
  ((9 <=? n)%nat && (n <=? 13)%nat) || ((28 <=? n)%nat && (n <=? 32)%nat).

Fixpoint lstrip (s : string) : string :=
  match s with
  | EmptyString => EmptyString
  | String c t => if is_space c then lstrip t else s
  end.

(** [rstrip]: a character is kept when something that is not a space
    follows it or it is not a space itself. *)
Fixpoint rstrip (s : string) : string :=
  match s with
  | EmptyString => EmptyString
  | String c t =>
      match rstrip t with
      | EmptyString => if is_space c then EmptyString else String c EmptyString
      | t' => String c t'
      end
  end.

Definition strip (s : string) : string := rstrip (lstrip s).

(** [s.split(sep)] for a one-character separator: the pieces between the
    separators, empty pieces included; never the empty list. *)
Fixpoint split_on (sep : ascii) (s : string) : list string :=
  match s with
  | EmptyString => [EmptyString]
  | String c t =>
      if Ascii.eqb c sep then EmptyString :: split_on sep t
      else match split_on sep t with
           | [] => [String c EmptyString]
           | piece :: pieces => String c piece :: pieces
           end
  end.

End PyStr.

(** ** Python dictionaries that are iterated: insertion-ordered *)

Module PyDict.
Section Dict.
Context {V : Type}.

Definition dict := list (string * V).

Fixpoint dict_get (k : string) (d : dict) : option V :=
  match d with
  | [] => None
  | (k', v) :: rest => if String.eqb k' k then Some v else dict_get k rest
  end.

(** [d[k] = v]: an existing key keeps its position, a new key goes last. *)
Fixpoint dict_set (k : string) (v : V) (d : dict) : dict :=
  match d with
  | [] => [(k, v)]
  | (k', v') :: rest =>
      if String.eqb k' k then (k', v) :: rest else (k', v') :: dict_set k v rest
  end.

Definition keys (d : dict) : list string := map fst d.
Definition values (d : dict) : list V := map snd d.

End Dict.
Arguments dict : clear implicits.
End PyDict.

(** ** The data exchanged between orchestrator and risk engine *)

(** A finding as a module emits it: every field is read with [.get], so
    each may be absent.  A field that is present holds a string, as in
    the findings the modules build; a value of another type, on which
    [.lower()] or [+] would raise, is not represented. *)
Record finding := Finding {
  title : option string;
  description : option string;
  severity : option string;
  remediation : option string
}.

(** The dictionaries stored in a results mapping.  Only the keys the core
    reads are kept. *)
Record result_dict := ResultDict {
  status : option string;
  error : option string;
  findings : option (list finding);
  technologies : option (list string)
}.

Record metadata := Metadata {
  md_target : string;
  md_scan_time : Q;
  md_duration_seconds : Q;
  md_modules_executed : list string;
  md_total_findings : nat
}.

Inductive value :=
| NotADict                        (* any value that is not a dict *)
| Dict (d : result_dict)
| Meta (m : metadata).

(** [r.get("findings")] for a dict [r], [None] when [r] is no dict or has
    no such key.  The metadata dict has no "findings" key. *)
Definition findings_of (v : value) : option (list finding) :=
  match v with
  | Dict d => findings d
  | _ => None
  end.


(** ** core/risk_engine/calculate_risk.py *)

Module RiskEngine.
Import PyStr PyDict.

(** The ten keys of [OWASP_CATEGORIES], in the order of the dict literal. *)
Inductive owasp := A01 | A02 | A03 | A04 | A05 | A06 | A07 | A08 | A09 | A10.

#[global] Instance owasp_eq_dec : EqDecision owasp.
Proof. solve_decision. Defined.

Definition all_codes : list owasp := [A01; A02; A03; A04; A05; A06; A07; A08; A09; A10].

Definition OWASP_CATEGORIES (c : owasp) : string :=
  match c with
  | A01 => "Broken Access Control"
  | A02 => "Cryptographic Failures"
  | A03 => "Injection"
  | A04 => "Insecure Design"
  | A05 => "Security Misconfiguration"
  | A06 => "Vulnerable and Outdated Components"
  | A07 => "Authentication Failures"
  | A08 => "Software and Data Integrity Failures"
  | A09 => "Logging and Monitoring Failures"
  | A10 => "Server-Side Request Forgery (SSRF)"
  end.

Definition SEVERITY_SCORES : dict Q :=
  [("critical", 9.0%Q); ("high", 7.0%Q); ("medium", 5.0%Q); ("low", 3.0%Q); ("info", 0.1%Q)].

(** A finding after [_extract_findings] has written its two extra keys.
    The code writes them into the finding itself; here the tagged finding
    is a new value, which is the same as long as no finding object is
    listed twice. *)
Record tagged := Tagged {
  raw : finding;
  module : string;
  cvss_score : Q
}.

(** [finding.get("severity", dflt).lower()] *)
Definition severity_lower (dflt : string) (f : finding) : string :=
  lower (default dflt (severity f)).

Record bucket := Bucket { b_findings : list tagged; b_count : nat }.

Record engine := Engine {
  scan_results : dict value;
  findings_list : list tagged;
  risk_summary : option Q;          (* the "overall_score" key, when set *)
  owasp_mapping : owasp -> bucket
}.

Definition __init__ (scan_results : dict value) : engine :=
  {| scan_results := scan_results;
     findings_list := [];
     risk_summary := None;
     owasp_mapping := fun _ => Bucket [] 0 |}.

Definition tag (module_key : string) (f : finding) : tagged :=
  {| raw := f;
     module := module_key;
     cvss_score := default 0%Q (dict_get (severity_lower "info" f) SEVERITY_SCORES) |}.

Fixpoint extract_items (items : list (string * value)) (acc : list tagged) : list tagged :=
  match items with
  | [] => acc
  | (module_key, module_result) :: rest =>
      if String.eqb module_key "metadata" then extract_items rest acc
      else match findings_of module_result with
           | Some fs => extract_items rest (acc ++ map (tag module_key) fs)
           | None => extract_items rest acc
           end
  end.

Definition _extract_findings (e : engine) : engine :=
  {| scan_results := scan_results e;
     findings_list := extract_items (scan_results e) (findings_list e);
     risk_summary := risk_summary e;
     owasp_mapping := owasp_mapping e |}.

(** The local [category_keywords] dict, in the order of its literal. *)
Definition category_keywords : list (owasp * list string) :=
  [ (A01, ["access"; "permission"; "authentication"; "authorization"; "broken auth"]);
    (A02, ["ssl"; "tls"; "encryption"; "cryptograph"; "certificate"; "password"]);
    (A03, ["injection"; "sql"; "command"; "ldap"; "xss"]);
    (A04, ["design"; "flaw"; "architecture"; "threat model"]);
    (A05, ["misconfiguration"; "config"; "default"; "debug"; "headers"; "ports"]);
    (A06, ["vulnerable"; "outdated"; "component"; "library"; "framework"; "version"; "cve"; "plugin"]);
    (A07, ["session"; "mfa"; "password"; "credential"; "factor authentication"]);
    (A08, ["integrity"; "signing"; "serialization"; "dependency"; "artifact"]);
    (A09, ["logging"; "monitoring"; "detection"; "alerting"]);
    (A10, ["ssrf"; "request forgery"; "redirect"]) ].

Definition finding_text (f : tagged) : string :=
  lower (default "" (title (raw f)) ++ " " ++ default "" (description (raw f))).

(** [any(keyword in finding_text for keyword in keywords)] *)
Definition any_keyword (keywords : list string) (text : string) : bool :=
  existsb (fun keyword => contains keyword text) keywords.

(** [mapping[code]["findings"].append(f); mapping[code]["count"] += 1] *)
Definition add_to (code : owasp) (f : tagged) (m : owasp -> bucket) : owasp -> bucket :=
  fun c =>
    if decide (c = code)
    then Bucket (b_findings (m c) ++ [f]) (b_count (m c) + 1)
    else m c.

(** The inner [for owasp_code, keywords in category_keywords.items()] loop
    with its [break]; the boolean is the flag [mapped]. *)
Fixpoint map_finding (cats : list (owasp * list string)) (text : string) (f : tagged)
    (m : owasp -> bucket) : (owasp -> bucket) * bool :=
  match cats with
  | [] => (m, false)
  | (owasp_code, keywords) :: rest =>
      if any_keyword keywords text then (add_to owasp_code f m, true)
      else map_finding rest text f m
  end.

Definition categorize_step (m : owasp -> bucket) (f : tagged) : owasp -> bucket :=
  let '(m', mapped) := map_finding category_keywords (finding_text f) f m in
  if negb mapped then add_to A05 f m' else m'.

Definition _categorize_by_owasp (e : engine) : engine :=
  {| scan_results := scan_results e;
     findings_list := findings_list e;
     risk_summary := risk_summary e;
     owasp_mapping := fold_left categorize_step (findings_list e) (fun _ => Bucket [] 0) |}.

(** Python's [min(a, b)]: the first argument unless the second is smaller. *)
Definition py_min (a b : Q) : Q := if Qle_bool a b then a else b.

Definition weight (severity : string) : Q :=
  if String.eqb severity "critical" then 1.5%Q else 1.0%Q.

Definition weighted_step (weighted_sum : Q) (f : tagged) : Q :=
  let severity := severity_lower "info" (raw f) in
  (weighted_sum + default 0%Q (dict_get severity SEVERITY_SCORES) * weight severity)%Q.

Definition _calculate_overall_score (e : engine) : engine :=
  let score :=
    match findings_list e with
    | [] => 0%Q
    | _ =>
        let weighted_sum := fold_left weighted_step (findings_list e) 0%Q in
        let average_score :=
          (weighted_sum / (inject_Z (Z.of_nat (length (findings_list e))) * 1.25))%Q in
        py_min average_score 10.0%Q
    end in
  {| scan_results := scan_results e;
     findings_list := findings_list e;
     risk_summary := Some score;
     owasp_mapping := owasp_mapping e |}.

Definition breakdown_step (breakdown : dict nat) (f : tagged) : dict nat :=
  let severity := severity_lower "info" (raw f) in
  match dict_get severity breakdown with
  | Some n => dict_set severity (n + 1) breakdown
  | None => breakdown
  end.

Definition _get_severity_breakdown (e : engine) : dict nat :=
  fold_left breakdown_step (findings_list e)
    [("critical", 0); ("high", 0); ("medium", 0); ("low", 0); ("info", 0)].

Record mapped_finding := MappedFinding {
  mf_title : string;
  mf_severity : string;
  mf_module : string
}.

Record mapped_category := MappedCategory {
  mc_name : string;
  mc_count : nat;
  mc_findings : list mapped_finding
}.

(** [{"title": f["title"], "severity": f["severity"], "module": f["module"]}]:
    subscripting a missing key raises [KeyError], here [None]. *)
Definition summarise (f : tagged) : option mapped_finding :=
  t ← title (raw f);
  s ← severity (raw f);
  Some (MappedFinding t s (module f)).

Definition mapped_of (e : engine) (code : owasp) : option (owasp * mapped_category) :=
  fs ← mapM summarise (take 3 (b_findings (owasp_mapping e code)));
  Some (code, MappedCategory (OWASP_CATEGORIES code) (b_count (owasp_mapping e code)) fs).

Definition _get_owasp_mapping (e : engine) : option (list (owasp * mapped_category)) :=
  mapM (mapped_of e) all_codes.

Definition _get_risk_level (e : engine) : string :=
  let score := default 0%Q (risk_summary e) in
  if Qle_bool 8 score then "Critical"
  else if Qle_bool 6 score then "High"
  else if Qle_bool 4 score then "Medium"
  else if Qle_bool 2 score then "Low"
  else "Minimal".

Record recommendation := Recommendation {
  priority : string;
  rec_finding : option string;
  action : string
}.

Definition _get_recommendations (e : engine) : list recommendation :=
  let critical_findings :=
    filter (fun f => severity_lower "" (raw f) = "critical") (findings_list e) in
  let high_findings :=
    filter (fun f => severity_lower "" (raw f) = "high") (findings_list e) in
  map (fun f => Recommendation "CRITICAL" (title (raw f))
                  (default "Address immediately" (remediation (raw f))))
      (take 5 critical_findings)
  ++
  map (fun f => Recommendation "HIGH" (title (raw f))
                  (default "Address as soon as possible" (remediation (raw f))))
      (take 5 high_findings).

Record report := Report {
  overall_score : Q;
  severity_breakdown : dict nat;
  owasp_report : list (owasp * mapped_category);
  risk_level : string;
  recommendations : list recommendation
}.

(** [RiskEngine(scan_results).calculate_risk()]; [None] stands for the
    [KeyError] of [_get_owasp_mapping]. *)
Definition calculate_risk (scan_results : dict value) : option report :=
  let e := _calculate_overall_score (_categorize_by_owasp (_extract_findings (__init__ scan_results))) in
  mapping ← _get_owasp_mapping e;
  Some {| overall_score := default 0%Q (risk_summary e);
          severity_breakdown := _get_severity_breakdown e;
          owasp_report := mapping;
          risk_level := _get_risk_level e;
          recommendations := _get_recommendations e |}.

End RiskEngine.

(** ** core/orchestrator.py *)

Module Orchestrator.
Import PyStr PyDict.

(** The keys of the local [module_map] dict. *)
Definition module_map : list string :=
  ["identity_infra"; "security_config"; "threat_intel"; "web_app_risk"; "behavioral"].

Definition in_module_map (m : string) : bool :=
  existsb (String.eqb m) module_map.

(** What one construction and [execute] of a module class does, seen
    from the orchestrator.  The module classes are external: this record
    is all the orchestrator can observe of them. *)
Record execution := Execution {
  accepts_progress : bool;               (* 'progress_callback' in sig.parameters *)
  reports : list (Q * option string);    (* its calls of the sub-callback, in order *)
  outcome : string + value               (* [inl msg]: it raised, [str(e) = msg] *)
}.

(** The environment of one run: the technology detection, the behaviour
    of the module started at each loop index, and the clock. *)
Record world := World {
  tech_run : string + value;
  module_run : nat -> string -> execution;
  time_start : Q;
  time_end : Q
}.

Record orchestrator := ScanOrchestrator {
  target : string;
  selected_modules : string;
  selected_rules : string;
  results : dict value;
  start_time : Q;
  progress_log : list (Z * string);      (* the calls received by progress_callback *)
  executed : list string                 (* ghost: the modules started, in order *)
}.

Definition __init__ (w : world) (target selected_modules selected_rules : string) : orchestrator :=
  {| target := target;
     selected_modules := selected_modules;
     selected_rules := selected_rules;
     results := [];
     start_time := time_start w;
     progress_log := [];
     executed := [] |}.

(** [[m.strip() for m in selected_modules.split(",") if m.strip() in module_map]],
    the empty string giving the empty list. *)
Definition modules_to_run (selected_modules : string) : list string :=
  let pieces :=
    match selected_modules with
    | EmptyString => []
    | _ => split_on "," selected_modules
    end in
  map strip (List.filter (fun m => in_module_map (strip m)) pieces).

(** Python's [int(x)] on a float: truncation towards zero. *)
Definition py_int (x : Q) : Z := Z.quot (Qnum x) (Zpos (Qden x)).

Definition MODULES_START : Q := 5.
Definition MODULES_END : Q := 95.

(** [progress_callback(pct, msg)] when a callback was given. *)
Definition call_progress (has_callback : bool) (pct : Z) (msg : string)
    (log : list (Z * string)) : list (Z * string) :=
  if has_callback then log ++ [(pct, msg)] else log.

(** The closure returned by [make_sub_callback(m_key, s_pct, e_pct)]. *)
Definition sub_callback (has_callback : bool) (m_key : string) (s_pct e_pct : Q)
    (module_internal_pct : Q) (status_msg : option string)
    (log : list (Z * string)) : list (Z * string) :=
  let overall_pct := py_int (s_pct + (module_internal_pct / 100.0) * (e_pct - s_pct))%Q in
  let msg :=
    match status_msg with
    | None | Some EmptyString => m_key
    | Some status_msg => (m_key ++ ": " ++ status_msg)%string
    end in
  call_progress has_callback overall_pct msg log.

Definition error_result (msg : string) : value :=
  Dict {| status := Some "error"; error := Some msg; findings := Some []; technologies := None |}.

(** The calls of the sub-callback that a module makes: none when its
    [execute] does not take a [progress_callback]. *)
Definition delivered_reports (run : execution) : list (Q * option string) :=
  if accepts_progress run then reports run else [].

(** What the [try] / [except] around a module leaves under its key: the
    raw result of [execute], or the error record. *)
Definition stored_result (run : execution) : value :=
  match outcome run with
  | inr result => result
  | inl msg => error_result msg
  end.

(** The body of [for index, module_key in enumerate(modules_to_run)]. *)
Definition run_module (w : world) (has_callback : bool) (module_range_size : Q)
    (index : nat) (module_key : string) (o : orchestrator) : orchestrator :=
  let start_pct := (MODULES_START + inject_Z (Z.of_nat index) * module_range_size)%Q in
  let end_pct := (MODULES_START + inject_Z (Z.of_nat (index + 1)) * module_range_size)%Q in
  let sub_cb := sub_callback has_callback module_key start_pct end_pct in
  let log0 := sub_cb 0%Q (Some "Starting...") (progress_log o) in
  let run := module_run w index module_key in
  let log1 :=
    fold_left (fun log '(pct, msg) => sub_cb pct msg log) (delivered_reports run) log0 in
  {| target := target o;
     selected_modules := selected_modules o;
     selected_rules := selected_rules o;
     results := dict_set module_key (stored_result run) (results o);
     start_time := start_time o;
     progress_log := sub_cb 100%Q (Some "Completed") log1;
     executed := executed o ++ [module_key] |}.

Fixpoint run_modules (w : world) (has_callback : bool) (module_range_size : Q)
    (index : nat) (modules : list string) (o : orchestrator) : orchestrator :=
  match modules with
  | [] => o
  | module_key :: rest =>
      run_modules w has_callback module_range_size (S index) rest
        (run_module w has_callback module_range_size index module_key o)
  end.

Definition with_results_log (o : orchestrator) (r : dict value) (log : list (Z * string)) :=
  {| target := target o;
     selected_modules := selected_modules o;
     selected_rules := selected_rules o;
     results := r;
     start_time := start_time o;
     progress_log := log;
     executed := executed o |}.

(** [len(r.get("findings", [])) if isinstance(r, dict) else 0] *)
Definition findings_count (r : value) : nat :=
  length (default [] (findings_of r)).

(** [run_scan(progress_callback)]; the returned mapping is [results] of
    the final state. *)
Definition run_scan (w : world) (has_callback : bool) (o : orchestrator) : orchestrator :=
  let modules := modules_to_run (selected_modules o) in
  let total_modules := length modules in
  let log0 := call_progress has_callback 0 "Detecting Tech Stack" (progress_log o) in
  let tech :=
    match tech_run w with
    | inr r => r
    | inl msg =>
        Dict {| status := None; error := Some msg; findings := None; technologies := Some [] |}
    end in
  let o1 := with_results_log o (dict_set "tech_stack" tech (results o))
              (call_progress has_callback 5 "Tech Stack Detected" log0) in
  let module_range_size :=
    if (0 <? total_modules)%nat
    then ((MODULES_END - MODULES_START) / inject_Z (Z.of_nat total_modules))%Q
    else 0%Q in
  let o2 := run_modules w has_callback module_range_size 0 modules o1 in
  let log2 := call_progress has_callback 95 "Finalizing results..." (progress_log o2) in
  let meta :=
    Meta {| md_target := target o2;
            md_scan_time := start_time o2;
            md_duration_seconds := (time_end w - start_time o2)%Q;
            md_modules_executed := keys (results o2);
            md_total_findings := list_sum (map findings_count (values (results o2))) |} in
  with_results_log o2 (dict_set "metadata" meta (results o2))
    (call_progress has_callback 100 "Scan Complete" log2).

End Orchestrator.

(** ** core/cache_manager.py: CacheManager *)

Module Cache.
Section CacheManager.

(** The cached values, their JSON text, and [json.dumps] / [json.loads];
    [None] is the exception either may raise. *)
Context {V S : Type}.
Variable dumps : V -> option S.
Variable loads : S -> option V.

(** An entry of [self.memory_cache].  The entry written by [get] when it
    promotes a row has no 'created_at' key. *)
Record mem_entry := MemEntry {
  me_data : V;
  me_expires_at : Q;
  me_created_at : option Q;
  me_hit_count : nat
}.

(** A row of the SQLite table [cache], without its primary key. *)
Record row := Row {
  r_data : S;
  r_ttl_seconds : Q;
  r_created_at : Q;
  r_expires_at : Q;
  r_hit_count : nat
}.

Record cache := CacheManager {
  memory_cache : gmap string mem_entry;
  db : gmap string row
}.

Definition __init__ : cache := {| memory_cache := ∅; db := ∅ |}.

(** [a > b] on timestamps. *)
Definition gt (a b : Q) : bool := negb (Qle_bool a b).

(** [set(cache_key, data, ttl_seconds)] at clock reading [now].  [db_ok]
    tells whether the SQLite block runs without raising; the memory tier
    is written before that block is entered. *)
Definition set (c : cache) (cache_key : string) (data : V) (ttl_seconds : Q)
    (now : Q) (db_ok : bool) : bool * cache :=
  let created_at := now in
  let expires_at := (created_at + ttl_seconds)%Q in
  let memory :=
    <[cache_key := MemEntry data expires_at (Some created_at) 0]> (memory_cache c) in
  if db_ok then
    match dumps data with
    | Some text =>
        (true, {| memory_cache := memory;
                  db := <[cache_key := Row text ttl_seconds created_at expires_at 0]> (db c) |})
    | None => (false, {| memory_cache := memory; db := db c |})
    end
  else (false, {| memory_cache := memory; db := db c |}).

(** [set] once more, with the sum [created_at + ttl_seconds] left to
    [add].  Clock readings and expiry times are binary64 numbers, and
    the sum the code stores is the rounded one: a [ttl_seconds] far below
    the resolution of the clock is absorbed.  With the exact sum for
    [add] this is [set]. *)
Definition set_rounded (add : Q -> Q -> Q) (c : cache) (cache_key : string) (data : V)
    (ttl_seconds : Q) (now : Q) (db_ok : bool) : bool * cache :=
  let created_at := now in
  let expires_at := add created_at ttl_seconds in
  let memory :=
    <[cache_key := MemEntry data expires_at (Some created_at) 0]> (memory_cache c) in
  if db_ok then
    match dumps data with
    | Some text =>
        (true, {| memory_cache := memory;
                  db := <[cache_key := Row text ttl_seconds created_at expires_at 0]> (db c) |})
    | None => (false, {| memory_cache := memory; db := db c |})
    end
  else (false, {| memory_cache := memory; db := db c |}).

(** The database half of [get], entered after a miss in memory. *)
Definition get_db (memory : gmap string mem_entry) (database : gmap string row)
    (cache_key : string) (current_time : Q) (db_ok : bool) : option V * cache :=
  if db_ok then
    match database !! cache_key with
    | Some r =>
        if gt (r_expires_at r) current_time then
          match loads (r_data r) with
          | Some data =>
              (Some data,
               {| memory_cache :=
                    <[cache_key := MemEntry data (r_expires_at r) None (r_hit_count r + 1)]> memory;
                  db := <[cache_key := Row (r_data r) (r_ttl_seconds r) (r_created_at r)
                                          (r_expires_at r) (r_hit_count r + 1)]> database |})
          | None => (None, {| memory_cache := memory; db := database |})
          end
        else (None, {| memory_cache := memory; db := delete cache_key database |})
    | None => (None, {| memory_cache := memory; db := database |})
    end
  else (None, {| memory_cache := memory; db := database |}).

(** [get(cache_key)] at clock reading [now]. *)
Definition get (c : cache) (cache_key : string) (now : Q) (db_ok : bool) : option V * cache :=
  let current_time := now in
  match memory_cache c !! cache_key with
  | Some entry =>
      if gt (me_expires_at entry) current_time then
        (Some (me_data entry),
         {| memory_cache :=
              <[cache_key := MemEntry (me_data entry) (me_expires_at entry)
                                      (me_created_at entry) (me_hit_count entry + 1)]>
                (memory_cache c);
            db := db c |})
      else get_db (delete cache_key (memory_cache c)) (db c) cache_key current_time db_ok
  | None => get_db (memory_cache c) (db c) cache_key current_time db_ok
  end.

Definition delete_key (c : cache) (cache_key : string) (db_ok : bool) : cache :=
  {| memory_cache := delete cache_key (memory_cache c);
     db := if db_ok then delete cache_key (db c) else db c |}.

Definition clear (c : cache) (db_ok : bool) : cache :=
  {| memory_cache := ∅; db := if db_ok then ∅ else db c |}.

Definition cleanup_expired (c : cache) (now : Q) (db_ok : bool) : cache :=
  {| memory_cache := filter (fun kv => gt (me_expires_at kv.2) now = true) (memory_cache c);
     db := if db_ok
           then filter (fun kv => gt (r_expires_at kv.2) now = true) (db c)
           else db c |}.

Record stats := Stats {
  total_entries : nat;
  valid_entries : nat;
  expired_entries : Z;
  total_hits : nat;
  memory_entries : nat
}.

(** [get_stats()]; [None] is the empty dict returned on an exception. *)
Definition get_stats (c : cache) (now : Q) (db_ok : bool) : option stats :=
  if db_ok then
    let total := size (db c) in
    let valid := size (filter (fun kv => gt (r_expires_at kv.2) now = true) (db c)) in
    Some {| total_entries := total;
            valid_entries := valid;
            expired_entries := Z.of_nat total - Z.of_nat valid;
            total_hits := map_fold (fun _ r acc => r_hit_count r + acc) 0 (db c);
            memory_entries := size (memory_cache c) |}
  else None.

End CacheManager.
End Cache.

(** ** core/cache_manager.py: APICallCacher._generate_cache_key *)

Module APICallCacher.
Section Key.

(** Parameter values, [json.dumps] of the sorted item list, the [<] of
    two values and [hashlib.md5(...).hexdigest()] are external. *)
Context {V : Type}.
Variable json_dumps : list (string * V) -> string.
Variable value_lt : V -> V -> bool.
Variable md5_hexdigest : string -> string.

(** [a < b] on [str]: lexicographic on the character codes. *)
Definition str_lt (a b : string) : bool :=
  match String_as_OT.compare a b with Lt => true | _ => false end.

(** [a < b] on the pairs of [params.items()]: first components first. *)
Definition item_lt (a b : string * V) : bool :=
  str_lt a.1 b.1 || (String.eqb a.1 b.1 && value_lt a.2 b.2).

(** [sorted]: a stable sort that compares with [<] only. *)
Fixpoint insert_item (x : string * V) (l : list (string * V)) : list (string * V) :=
  match l with
  | [] => [x]
  | y :: l' => if item_lt y x then y :: insert_item x l' else x :: y :: l'
  end.

Definition sorted (l : list (string * V)) : list (string * V) :=
  foldr insert_item [] l.

(** [params] is [None] or a dict, given by its items in insertion order. *)
Definition _generate_cache_key (url : string) (params : option (list (string * V)))
    (method : string) : string :=
  let key_string := (method ++ ":" ++ url)%string in
  let key_string :=
    match params with
    | None | Some [] => key_string
    | Some items => (key_string ++ ":" ++ json_dumps (sorted items))%string
    end in
  md5_hexdigest key_string.

End Key.
End APICallCacher.

(** ** The score arithmetic in IEEE binary64

    [_calculate_overall_score] once more, on the lower-cased severities
    of the findings and with the kernel's binary64 floats in place of
    rationals.  It is used to check that the values the rational model
    gives at the concrete inputs below are those of the floats. *)

Module Binary64.
Import Floats.

#[warnings="-inexact-float"]
Definition SEVERITY_SCORES : PyDict.dict float :=
  [("critical", 9.0%float); ("high", 7.0%float); ("medium", 5.0%float);
   ("low", 3.0%float); ("info", 0.1%float)].

(** [float(n)] for a length [n]. *)
Definition float_of_nat (n : nat) : float :=
  PrimFloat.of_uint63 (Uint63.of_Z (Z.of_nat n)).

(** [SEVERITY_SCORES.get(severity, 0) * weight]; the default is the
    integer 0, which the product turns into 0.0. *)
Definition weighted (severity : string) : float :=
  let weight := if String.eqb severity "critical" then 1.5%float else 1.0%float in
  (default 0%float (PyDict.dict_get severity SEVERITY_SCORES) * weight)%float.

(** [min(a, b)] *)
Definition py_min (a b : float) : float := if PrimFloat.ltb b a then b else a.

Definition overall_score (severities : list string) : float :=
  match severities with
  | [] => 0%float
  | _ =>
      let weighted_sum :=
        fold_left (fun ws severity => (ws + weighted severity)%float) severities 0%float in
      let average_score :=
        (weighted_sum / (float_of_nat (length severities) * 1.25))%float in
      py_min average_score 10.0%float
  end.

(** [_get_risk_level]; [score >= 8] on a float and an integer. *)
Definition _get_risk_level (score : float) : string :=
  if PrimFloat.leb 8%float score then "Critical"
  else if PrimFloat.leb 6%float score then "High"
  else if PrimFloat.leb 4%float score then "Medium"
  else if PrimFloat.leb 2%float score then "Low"
  else "Minimal".

End Binary64.

(** ** core/orchestrator.py: get_findings_by_severity *)

Module OrchestratorFindings.
Import PyStr PyDict Orchestrator.

(** [{"module": module_key, **finding}], for a finding that has no
    "module" key of its own. *)
Record listed := Listed {
  l_module : string;
  l_finding : finding
}.

Definition empty_by_severity : dict (list listed) :=
  [("critical", []); ("high", []); ("medium", []); ("low", []); ("info", [])].

(** The body of [for finding in module_result.get("findings", [])]. *)
Definition list_finding (module_key : string) (findings_by_severity : dict (list listed))
    (f : finding) : dict (list listed) :=
  let severity := lower (default "info" (severity f)) in
  match dict_get severity findings_by_severity with
  | Some l => dict_set severity (l ++ [Listed module_key f]) findings_by_severity
  | None => findings_by_severity
  end.

(** The loop over [self.results.items()].  [module_result.get] is called
    without a type test: on a value that is no dict it raises
    [AttributeError], here [None]. *)
Fixpoint list_items (items : list (string * value))
    (findings_by_severity : dict (list listed)) : option (dict (list listed)) :=
  match items with
  | [] => Some findings_by_severity
  | (module_key, module_result) :: rest =>
      if String.eqb module_key "metadata" then list_items rest findings_by_severity
      else match module_result with
           | NotADict => None
           | _ =>
               list_items rest
                 (fold_left (list_finding module_key)
                            (default [] (findings_of module_result))
                            findings_by_severity)
           end
  end.

Definition get_findings_by_severity (o : orchestrator) : option (dict (list listed)) :=
  list_items (results o) empty_by_severity.

End OrchestratorFindings.

(** ** core/scanner.py: WebSecurityScanner *)

Module WebSecurityScanner.
Import PyDict.

(** The scanner object.  What a module's [execute] returns is taken to be
    a dict, as the three modules of the repository return. *)
Record scanner := Scanner {
  target : string;
  results : dict result_dict;
  total_findings : list finding;
  start_time : option Q;
  end_time : option Q
}.

Definition __init__ (target : string) : scanner :=
  {| target := target; results := []; total_findings := [];
     start_time := None; end_time := None |}.

(** One pass of [scan] as the outside world decides it: the futures in
    the order [as_completed] yields them, each with the name
    [futures[future]] and what [future.result()] gives ([None] when it
    raises), and the two readings of the clock. *)
Record run := Run {
  completed : list (string * option result_dict);
  time_start : Q;
  time_end : Q
}.

(** The names given to the three futures. *)
Definition module_names : list string :=
  ["Web App Risk"; "Security Config"; "OWASP Coverage"].

(** The loop over [as_completed(futures)]: a result is stored under its
    name, an exception is printed and leaves nothing. *)
Definition collect (completed : list (string * option result_dict))
    (results : dict result_dict) : dict result_dict :=
  fold_left (fun acc c => match c.2 with
                          | Some result => dict_set c.1 result acc
                          | None => acc
                          end)
            completed results.

Definition _consolidate_findings (s : scanner) : scanner :=
  {| target := target s; results := results s;
     total_findings :=
       fold_left (fun acc kv => match findings kv.2 with
                                | Some fs => acc ++ fs
                                | None => acc
                                end)
                 (results s) (total_findings s);
     start_time := start_time s; end_time := end_time s |}.

(** [f.get('severity') == name]: the stored string itself is compared. *)
Definition has_severity (name : string) (f : finding) : bool :=
  match severity f with
  | Some s => String.eqb s name
  | None => false
  end.

Definition with_severity (name : string) (fs : list finding) : list finding :=
  List.filter (has_severity name) fs.

Definition _calculate_risk_score (critical high medium : list finding) : nat :=
  let score := length critical * 10 + length high * 5 + length medium * 2 in
  Nat.min score 100.

Record recommendation := Recommendation {
  priority : string;
  action : string;
  items : nat
}.

Definition _generate_recommendations (critical high : list finding) : list recommendation :=
  let recommendations := [] in
  let recommendations :=
    match critical with
    | [] => recommendations
    | _ => recommendations ++
           [Recommendation "CRITICAL" "Address all critical findings immediately"
              (length critical)]
    end in
  let recommendations :=
    match high with
    | [] => recommendations
    | _ => recommendations ++
           [Recommendation "HIGH" "Address high severity findings within 24 hours"
              (length high)]
    end in
  recommendations.

(** "scan_duration" holds the number that the report prints with two
    decimals and the word seconds. *)
Record scan_summary := ScanSummary {
  ss_target : string;
  ss_scan_duration : Q;
  ss_total_findings : nat;
  ss_critical : nat;
  ss_high : nat;
  ss_medium : nat;
  ss_low : nat;
  ss_info : nat;
  ss_risk_score : nat
}.

Record report := Report {
  summary : scan_summary;
  findings_by_severity : dict (list finding);
  modules : dict result_dict;
  recommendations : list recommendation
}.

(** [self.end_time - self.start_time] raises [TypeError] while either is
    still [None]; that is the [None] returned here. *)
Definition _generate_final_report (s : scanner) : option report :=
  let critical := with_severity "critical" (total_findings s) in
  let high := with_severity "high" (total_findings s) in
  let medium := with_severity "medium" (total_findings s) in
  let low := with_severity "low" (total_findings s) in
  let info := with_severity "info" (total_findings s) in
  match end_time s, start_time s with
  | Some end_time, Some start_time =>
      let duration := (end_time - start_time)%Q in
      Some {| summary :=
                {| ss_target := target s;
                   ss_scan_duration := duration;
                   ss_total_findings := length (total_findings s);
                   ss_critical := length critical;
                   ss_high := length high;
                   ss_medium := length medium;
                   ss_low := length low;
                   ss_info := length info;
                   ss_risk_score := _calculate_risk_score critical high medium |};
              findings_by_severity :=
                [("critical", critical); ("high", high); ("medium", medium);
                 ("low", low); ("info", info)];
              modules := results s;
              recommendations := _generate_recommendations critical high |}
  | _, _ => None
  end.

(** [scan()]: neither [results] nor [total_findings] is reset. *)
Definition scan (s : scanner) (w : run) : option report * scanner :=
  let s := {| target := target s;
              results := collect (completed w) (results s);
              total_findings := total_findings s;
              start_time := Some (time_start w);
              end_time := Some (time_end w) |} in
  let s := _consolidate_findings s in
  (_generate_final_report s, s).

End WebSecurityScanner.

(** ** core/scanner_integration.py: MasterSecurityScanner *)

Module MasterSecurityScanner.
Import PyDict.

Record scanner := Scanner {
  target : string;
  findings_all : list finding;          (* self.findings *)
  modules_results : dict result_dict
}.

Definition __init__ (target : string) : scanner :=
  {| target := target; findings_all := []; modules_results := [] |}.

(** What the three [execute] calls give, [None] for an exception, and
    the text of [datetime.now().isoformat()]. *)
Record run := Run {
  web_app_risk : option result_dict;
  security_config : option result_dict;
  owasp_coverage : option result_dict;
  timestamp : string
}.

(** The two statements after each [execute()]. *)
Definition store (name : string) (module_results : result_dict) (s : scanner) : scanner :=
  {| target := target s;
     findings_all := findings_all s ++ default [] (findings module_results);
     modules_results := dict_set name module_results (modules_results s) |}.

Definition has_severity (name : string) (f : finding) : bool :=
  match severity f with
  | Some s => String.eqb s name
  | None => false
  end.

Record severity_summary := SeveritySummary {
  critical : nat;
  high : nat;
  medium : nat;
  low : nat;
  info : nat
}.

Definition _get_severity_summary (s : scanner) : severity_summary :=
  {| critical := length (List.filter (has_severity "critical") (findings_all s));
     high := length (List.filter (has_severity "high") (findings_all s));
     medium := length (List.filter (has_severity "medium") (findings_all s));
     low := length (List.filter (has_severity "low") (findings_all s));
     info := length (List.filter (has_severity "info") (findings_all s)) |}.

Record organized_module := OrganizedModule {
  om_status : option string;
  om_findings_count : nat;
  om_findings : list finding
}.

Definition _organize_findings_by_module (s : scanner) : dict organized_module :=
  fold_left (fun organized kv =>
               dict_set kv.1
                 {| om_status := status kv.2;
                    om_findings_count := length (default [] (findings kv.2));
                    om_findings := default [] (findings kv.2) |}
                 organized)
            (modules_results s) [].

Record scan_metadata := ScanMetadata {
  sm_target : string;
  sm_timestamp : string;
  sm_total_findings : nat;
  sm_modules_executed : list string
}.

(** The report without its "owasp_coverage" entry, a copy of counts out
    of the analyzer's own report, which is not part of this model. *)
Record report := Report {
  scan_metadata_of : scan_metadata;
  severity_summary_of : severity_summary;
  findings_by_module : dict organized_module;
  all_findings : list finding
}.

Definition generate_final_report (s : scanner) (timestamp : string) : report :=
  {| scan_metadata_of :=
       {| sm_target := target s;
          sm_timestamp := timestamp;
          sm_total_findings := length (findings_all s);
          sm_modules_executed := keys (modules_results s) |};
     severity_summary_of := _get_severity_summary s;
     findings_by_module := _organize_findings_by_module s;
     all_findings := findings_all s |}.

(** [execute_full_scan()] has no exception handler: when a module raises,
    the call raises and the scanner stays as the modules before it left
    it. *)
Definition execute_full_scan (s : scanner) (w : run) : option report * scanner :=
  match web_app_risk w with
  | None => (None, s)
  | Some web_app_results =>
      let s := store "web_app_risk" web_app_results s in
      match security_config w with
      | None => (None, s)
      | Some security_results =>
          let s := store "security_config" security_results s in
          match owasp_coverage w with
          | None => (None, s)
          | Some owasp_results =>
              let s := store "owasp_coverage" owasp_results s in
              (Some (generate_final_report s (timestamp w)), s)
          end
      end
  end.

End MasterSecurityScanner.

(** ** core/cache_manager.py: APICallCacher.get_cached_response and
       post_cached_response *)

Module APICallCacherRequests.
Section Requests.

(** Response bodies, response headers, parameter values and JSON texts.
    The cache is taken to hold, under the keys of this class, only what
    this class stored: result dicts. *)
Context {B H P S : Type}.

(** The result dict of a request. *)
Record result := Result {
  status_code : Z;
  data : B;
  headers : H;
  _from_cache : bool;
  timestamp : string
}.

Variable dumps : result -> option S.
Variable loads : S -> option result.
Variable json_dumps : list (string * P) -> string.
Variable value_lt : P -> P -> bool.
Variable md5_hexdigest : string -> string.

(** What the HTTP call does: it raises, or it answers with a status
    code, a body ([None] when decoding it raises) and headers. *)
Inductive http :=
| Raises
| Answers (status : Z) (body : option B) (hdrs : H).

(** What one call meets outside: the clock and the database at the
    lookup, the HTTP call, the text of [datetime.now().isoformat()], and
    the clock and the database at the store. *)
Record world := World {
  lookup_time : Q;
  lookup_db_ok : bool;
  request : http;
  stamp : string;
  store_time : Q;
  store_db_ok : bool
}.

(** [cached_data['_from_cache'] = True].  The dict returned by [get] is
    the one the memory tier holds, so the assignment shows there too. *)
Definition mark (r : result) : result :=
  {| status_code := status_code r; data := data r; headers := headers r;
     _from_cache := true; timestamp := timestamp r |}.

Definition mark_entry (e : Cache.mem_entry) : Cache.mem_entry :=
  Cache.MemEntry (mark (Cache.me_data e)) (Cache.me_expires_at e)
                 (Cache.me_created_at e) (Cache.me_hit_count e).

(** The body shared by the two methods, from the lookup on. *)
Definition cached_call (c : Cache.cache) (cache_key : string) (ttl_seconds : Q)
    (w : world) : option result * Cache.cache :=
  match Cache.get loads c cache_key (lookup_time w) (lookup_db_ok w) with
  | (Some cached_data, c) =>
      (Some (mark cached_data),
       {| Cache.memory_cache := alter mark_entry cache_key (Cache.memory_cache c);
          Cache.db := Cache.db c |})
  | (None, c) =>
      match request w with
      | Raises => (None, c)
      | Answers status body hdrs =>
          if Z.eqb status 200 then
            match body with
            | None => (None, c)
            | Some body =>
                let result :=
                  {| status_code := status; data := body; headers := hdrs;
                     _from_cache := false; timestamp := stamp w |} in
                (Some result,
                 (Cache.set dumps c cache_key result ttl_seconds
                            (store_time w) (store_db_ok w)).2)
            end
          else (None, c)
      end
  end.

Definition get_cached_response (c : Cache.cache) (url : string)
    (params : option (list (string * P))) (ttl_seconds : Q) (w : world)
    : option result * Cache.cache :=
  let cache_key :=
    APICallCacher._generate_cache_key json_dumps value_lt md5_hexdigest url params "GET" in
  cached_call c cache_key ttl_seconds w.

Definition post_cached_response (c : Cache.cache) (url : string)
    (data : option (list (string * P))) (ttl_seconds : Q) (w : world)
    : option result * Cache.cache :=
  let cache_key :=
    APICallCacher._generate_cache_key json_dumps value_lt md5_hexdigest url data "POST" in
  cached_call c cache_key ttl_seconds w.

End Requests.
End APICallCacherRequests.

(** * Properties *)

(** Closed comparisons of rationals. *)
Ltac Qclosed :=
  first [ apply Qle_bool_imp_le; vm_compute; reflexivity
        | vm_compute; congruence ].

(** Closed comparisons of string literals. *)
Ltac eqb_closed :=
  repeat match goal with
         | |- context [String.eqb ?x ?y] =>
             let b := eval vm_compute in (String.eqb x y) in
             change (String.eqb x y) with b
         end.

(** ** Risk engine *)

Section RiskEngineFacts.
Import PyStr PyDict RiskEngine.

(** The findings a results mapping contains, as the modules emitted them:
    those of every entry but "metadata", in order. *)
Definition contained_findings (scan_results : dict value) : list finding :=
  flat_map (fun '(module_key, module_result) =>
              if String.eqb module_key "metadata" then []
              else default [] (findings_of module_result))
           scan_results.

(** The severity the engine works with: missing means "info", and case
    is folded. *)
Definition normalized (f : finding) : string := severity_lower "info" f.

(** The keys [_get_owasp_mapping] subscripts without a default. *)
Definition has_keys (f : finding) : Prop :=
  is_Some (title f) /\ is_Some (severity f).

(** The contribution of one finding of severity [s] to [weighted_sum]. *)
Definition term (s : string) : Q :=
  (default 0 (dict_get s SEVERITY_SCORES) * weight s)%Q.

(** [sum] of a list of rationals. *)
Definition Qsum (l : list Q) : Q := fold_right Qplus 0%Q l.

(** The score of section 4.3 step 2 of the specification, as a function
    of the severities of the findings. *)
Definition score_formula (sevs : list string) : Q :=
  match sevs with
  | [] => 0%Q
  | _ => py_min (Qsum (map term sevs) / (inject_Z (Z.of_nat (length sevs)) * 1.25))%Q 10.0%Q
  end.

(** The number of findings whose normalized severity is [s]. *)
Definition count_severity (s : string) (sevs : list string) : nat :=
  length (filter (fun s' => s' = s) sevs).

(** The first category, in the order of [category_keywords], one of whose
    keywords occurs in [text]. *)
Definition first_match (text : string) : option owasp :=
  fst <$> List.find (fun '(_, keywords) => any_keyword keywords text) category_keywords.

Definition category_of (f : tagged) : owasp :=
  default A05 (first_match (finding_text f)).

(** The engine after the three passes of [calculate_risk]. *)
Definition analysed (scan_results : dict value) : engine :=
  _calculate_overall_score (_categorize_by_owasp (_extract_findings (__init__ scan_results))).

(** The risk level as a function of the score. *)
Definition level_of (score : Q) : string :=
  if Qle_bool 8 score then "Critical"
  else if Qle_bool 6 score then "High"
  else if Qle_bool 4 score then "Medium"
  else if Qle_bool 2 score then "Low"
  else "Minimal".

(** The five keys of [SEVERITY_SCORES] and of the breakdown. *)
Definition buckets : list string := ["critical"; "high"; "medium"; "low"; "info"].

(** Sample inputs. *)
Definition sample_finding (t sev : string) : finding :=
  {| title := Some t; description := Some ""; severity := Some sev; remediation := None |}.

Definition module_result (fs : list finding) : value :=
  Dict {| status := Some "ok"; error := None; findings := Some fs; technologies := None |}.

Definition tech_stack_entry : string * value :=
  ("tech_stack",
   Dict {| status := None; error := None; findings := None; technologies := Some ["nginx"] |}).

Definition metadata_entry : string * value :=
  ("metadata", Meta (Metadata "example.org" 0 1 ["tech_stack"] 0)).

Definition no_findings : dict value :=
  [tech_stack_entry; ("security_config", module_result []); metadata_entry].

Definition one_critical : dict value :=
  [tech_stack_entry;
   ("security_config", module_result [sample_finding "Expired TLS certificate" "critical"]);
   metadata_entry].

(** Three modules returning 1 critical, 2 high and 1 medium finding. *)
Definition three_stubs : dict value :=
  [tech_stack_entry;
   ("identity_infra", module_result [sample_finding "Default admin password" "critical"]);
   ("security_config", module_result [sample_finding "Missing headers" "high";
                                      sample_finding "Debug mode enabled" "high"]);
   ("web_app_risk", module_result [sample_finding "Open redirect" "medium"]);
   metadata_entry].

Definition one_unknown_severity : dict value :=
  [("threat_intel", module_result [sample_finding "Listed on a blocklist" "severe"])].

Definition one_high : dict value :=
  [("web_app_risk", module_result [sample_finding "SQL injection" "high"])].

Lemma extract_items_app items acc :
  extract_items items acc = acc ++ extract_items items [].
Proof.
  revert acc. induction items as [|[k v] items IH]; intros acc; simpl.
  - by rewrite app_nil_r.
  - destruct (String.eqb k "metadata"); [apply IH|].
    destruct (findings_of v) as [fs|]; [|apply IH].
    rewrite (IH (acc ++ _)), (IH (map _ fs)). by rewrite app_assoc.
Qed.

Lemma extract_items_raw items :
  map raw (extract_items items []) = contained_findings items.
Proof.
  induction items as [|[k v] items IH]; simpl; [done|].
  destruct (String.eqb k "metadata"); [done|].
  destruct (findings_of v) as [fs|]; simpl; [|done].
  rewrite extract_items_app, map_app, IH. f_equal.
  rewrite map_map. simpl. by rewrite map_id.
Qed.

Lemma extract_items_normalized items :
  map (fun f => normalized (raw f)) (extract_items items []) =
  map normalized (contained_findings items).
Proof. by rewrite <- extract_items_raw, map_map. Qed.

Lemma term_bounds s :
  (0 <= term s)%Q /\ (term s <= 13.5)%Q /\ (s <> "critical" -> (term s <= 7)%Q).
Proof.
  unfold term, weight, SEVERITY_SCORES. cbn [dict_get].
  rewrite (String.eqb_sym s "critical").
  destruct (String.eqb_spec "critical" s) as [<-|Hc]; cbn [default].
  { split; [Qclosed|]. split; [Qclosed|]. by intros []. }
  repeat (match goal with
          | |- context [String.eqb ?a s] => destruct (String.eqb a s)
          end; cbn [default]; [repeat split; intros; Qclosed|]).
  repeat split; intros; Qclosed.
Qed.

Lemma weighted_sum_eq l acc :
  (fold_left weighted_step l acc ==
   acc + Qsum (map term (map (fun f => normalized (raw f)) l)))%Q.
Proof.
  revert acc. induction l as [|f l IH]; intros acc; simpl.
  - ring.
  - rewrite IH. unfold weighted_step, term, normalized. ring.
Qed.

(** *** Categories *)

Lemma map_finding_spec cats text f m :
  map_finding cats text f m =
  match List.find (fun '(_, keywords) => any_keyword keywords text) cats with
  | Some (c, _) => (add_to c f m, true)
  | None => (m, false)
  end.
Proof.
  induction cats as [|[c k] cats IH]; simpl; [done|].
  by destruct (any_keyword k text).
Qed.

Lemma categorize_step_spec m f :
  categorize_step m f = add_to (category_of f) f m.
Proof.
  unfold categorize_step, category_of, first_match. rewrite map_finding_spec.
  by destruct (List.find _ _) as [[c k]|].
Qed.

Lemma categorize_fold l m c :
  fold_left categorize_step l m c =
  Bucket (b_findings (m c) ++ filter (fun f => category_of f = c) l)
         (b_count (m c) + length (filter (fun f => category_of f = c) l)).
Proof.
  revert m. induction l as [|f l IH]; intros m; simpl.
  - rewrite app_nil_r, Nat.add_0_r. by destruct (m c).
  - rewrite IH, categorize_step_spec, filter_cons. unfold add_to.
    destruct (decide (c = category_of f)) as [->|Hne].
    + rewrite decide_True by done. simpl. rewrite <- app_assoc. simpl.
      f_equal. lia.
    + by rewrite decide_False by done.
Qed.

Lemma owasp_mapping_analysed sr c :
  owasp_mapping (analysed sr) c =
  let l := filter (fun f => category_of f = c) (extract_items sr []) in
  Bucket l (length l).
Proof. unfold analysed. simpl. by rewrite categorize_fold. Qed.

(** *** Severity breakdown *)

Lemma count_severity_cons s s' sevs :
  count_severity s (s' :: sevs) =
  ((if String.eqb s s' then 1 else 0) + count_severity s sevs)%nat.
Proof.
  unfold count_severity. rewrite filter_cons.
  destruct (String.eqb_spec s s') as [->|Hne].
  - by rewrite decide_True.
  - by rewrite decide_False by congruence.
Qed.

Lemma breakdown_step_five a b c d e f :
  breakdown_step [("critical", a); ("high", b); ("medium", c); ("low", d); ("info", e)] f =
  let s := normalized (raw f) in
  [("critical", a + if String.eqb "critical" s then 1 else 0);
   ("high", b + if String.eqb "high" s then 1 else 0);
   ("medium", c + if String.eqb "medium" s then 1 else 0);
   ("low", d + if String.eqb "low" s then 1 else 0);
   ("info", e + if String.eqb "info" s then 1 else 0)]%nat.
Proof.
  unfold breakdown_step. fold (normalized (raw f)).
  generalize (normalized (raw f)) as s. intros s. cbn [dict_get dict_set].
  destruct (String.eqb_spec "critical" s) as [<-|?];
    [eqb_closed; by rewrite !Nat.add_0_r|].
  destruct (String.eqb_spec "high" s) as [<-|?];
    [cbn [dict_set]; eqb_closed; by rewrite !Nat.add_0_r|].
  destruct (String.eqb_spec "medium" s) as [<-|?];
    [cbn [dict_set]; eqb_closed; by rewrite !Nat.add_0_r|].
  destruct (String.eqb_spec "low" s) as [<-|?];
    [cbn [dict_set]; eqb_closed; by rewrite !Nat.add_0_r|].
  destruct (String.eqb_spec "info" s) as [<-|?];
    [cbn [dict_set]; eqb_closed; by rewrite !Nat.add_0_r|].
  by rewrite !Nat.add_0_r.
Qed.

Lemma breakdown_fold l a b c d e :
  fold_left breakdown_step l
    [("critical", a); ("high", b); ("medium", c); ("low", d); ("info", e)] =
  let sevs := map (fun f => normalized (raw f)) l in
  [("critical", a + count_severity "critical" sevs);
   ("high", b + count_severity "high" sevs);
   ("medium", c + count_severity "medium" sevs);
   ("low", d + count_severity "low" sevs);
   ("info", e + count_severity "info" sevs)]%nat.
Proof.
  revert a b c d e. induction l as [|f l IH]; intros a b c d e.
  - simpl. unfold count_severity. simpl. by rewrite !Nat.add_0_r.
  - cbn [fold_left]. rewrite breakdown_step_five. cbv zeta. rewrite IH.
    cbn [map]. cbv zeta. rewrite !count_severity_cons.
    by rewrite !Nat.add_assoc.
Qed.

Lemma breakdown_analysed sr :
  _get_severity_breakdown (analysed sr) =
  let sevs := map normalized (contained_findings sr) in
  [("critical", count_severity "critical" sevs);
   ("high", count_severity "high" sevs);
   ("medium", count_severity "medium" sevs);
   ("low", count_severity "low" sevs);
   ("info", count_severity "info" sevs)].
Proof.
  unfold _get_severity_breakdown, analysed. simpl findings_list.
  rewrite breakdown_fold. cbv zeta. by rewrite extract_items_normalized.
Qed.

(** *** Score *)

Lemma py_min_le_r a b : (py_min a b <= b)%Q.
Proof.
  unfold py_min. destruct (Qle_bool a b) eqn:E.
  - by apply Qle_bool_iff.
  - apply Qle_refl.
Qed.

Lemma py_min_le_l a b : (py_min a b <= a)%Q.
Proof.
  unfold py_min. destruct (Qle_bool a b) eqn:E.
  - apply Qle_refl.
  - destruct (Qlt_le_dec b a) as [Hlt|Hle]; [by apply Qlt_le_weak|].
    apply Qle_bool_iff in Hle. congruence.
Qed.

Lemma py_min_ge a b c : (c <= a)%Q -> (c <= b)%Q -> (c <= py_min a b)%Q.
Proof. unfold py_min. by destruct (Qle_bool a b). Qed.

Lemma py_min_comp a a' b : (a == a')%Q -> (py_min a b == py_min a' b)%Q.
Proof.
  intros E. unfold py_min. rewrite <- E.
  by destruct (Qle_bool a b).
Qed.

Lemma inject_length_succ {A} (x : A) l :
  (inject_Z (Z.of_nat (length (x :: l))) == inject_Z (Z.of_nat (length l)) + 1)%Q.
Proof.
  cbn [length]. rewrite Nat2Z.inj_succ. unfold Z.succ.
  by rewrite inject_Z_plus.
Qed.

Lemma inject_length_nonneg {A} (l : list A) :
  (0 <= inject_Z (Z.of_nat (length l)))%Q.
Proof. unfold Qle. simpl. lia. Qed.

Lemma Qsum_term_bounds sevs :
  (0 <= Qsum (map term sevs))%Q /\
  (Qsum (map term sevs) <= 13.5 * inject_Z (Z.of_nat (length sevs)))%Q /\
  (Forall (fun s => s <> "critical") sevs ->
   (Qsum (map term sevs) <= 7 * inject_Z (Z.of_nat (length sevs)))%Q).
Proof.
  induction sevs as [|s sevs (IH0 & IH1 & IH2)].
  - simpl. repeat split; intros; Qclosed.
  - destruct (term_bounds s) as (T0 & T1 & T2).
    cbn [map Qsum fold_right]. fold (Qsum (map term sevs)).
    rewrite inject_length_succ.
    split; [|split].
    + lra.
    + lra.
    + intros Hall. apply Forall_cons in Hall as [Hs Hall].
      specialize (IH2 Hall). specialize (T2 Hs). lra.
Qed.

(** The average of a non-empty list of findings lies between 0 and 10.8,
    and below 5.6 without a critical finding. *)
Lemma average_bounds s sevs :
  let avg := (Qsum (map term (s :: sevs)) /
              (inject_Z (Z.of_nat (length (s :: sevs))) * 1.25))%Q in
  (0 <= avg)%Q /\
  (Forall (fun s => s <> "critical") (s :: sevs) -> (avg <= 5.6)%Q).
Proof.
  intros avg. subst avg.
  destruct (Qsum_term_bounds (s :: sevs)) as (B0 & B1 & B2).
  pose proof (inject_length_succ s sevs) as HS.
  pose proof (inject_length_nonneg sevs) as HN.
  set (n := inject_Z (Z.of_nat (length (s :: sevs)))) in *.
  assert (0 < n * 1.25)%Q as Hpos by lra.
  split.
  - apply Qle_shift_div_l; [done|]. lra.
  - intros Hall. specialize (B2 Hall).
    apply Qle_shift_div_r; [done|]. lra.
Qed.

Lemma score_formula_bounds sevs :
  (0 <= score_formula sevs)%Q /\ (score_formula sevs <= 10)%Q /\
  (Forall (fun s => s <> "critical") sevs -> (score_formula sevs <= 5.6)%Q).
Proof.
  destruct sevs as [|s sevs]; [simpl; repeat split; intros; Qclosed|].
  destruct (average_bounds s sevs) as [A0 A1].
  cbn [score_formula]. repeat split.
  - apply py_min_ge; [done | Qclosed].
  - eapply Qle_trans; [apply py_min_le_r | Qclosed].
  - intros Hall. eapply Qle_trans; [apply py_min_le_l | by apply A1].
Qed.

Lemma score_analysed sr :
  (default 0 (risk_summary (analysed sr)) ==
   score_formula (map normalized (contained_findings sr)))%Q.
Proof.
  unfold analysed, _calculate_overall_score. cbn [risk_summary default].
  cbn [findings_list _categorize_by_owasp _extract_findings __init__ scan_results].
  rewrite <- extract_items_normalized.
  destruct (extract_items sr []) as [|f l] eqn:E; [done|].
  cbn [map score_formula]. apply py_min_comp.
  rewrite weighted_sum_eq. cbn [map length]. rewrite length_map.
  by rewrite Qplus_0_l.
Qed.

Lemma level_of_comp a b : (a == b)%Q -> level_of a = level_of b.
Proof.
  intros E. unfold level_of.
  assert (forall c, Qle_bool c a = Qle_bool c b) as H by (intros c; by rewrite E).
  by rewrite !H.
Qed.

Lemma level_analysed sr :
  _get_risk_level (analysed sr) =
  level_of (score_formula (map normalized (contained_findings sr))).
Proof.
  rewrite <- (level_of_comp _ _ (score_analysed sr)). done.
Qed.

(** *** When [calculate_risk] returns *)

Lemma calculate_risk_Some sr r :
  calculate_risk sr = Some r ->
  overall_score r = default 0%Q (risk_summary (analysed sr)) /\
  severity_breakdown r = _get_severity_breakdown (analysed sr) /\
  risk_level r = _get_risk_level (analysed sr).
Proof.
  unfold calculate_risk. fold (analysed sr).
  destruct (_get_owasp_mapping (analysed sr)); simpl; [|done].
  by intros [= <-].
Qed.

Lemma calculate_risk_returns sr :
  Forall has_keys (contained_findings sr) -> is_Some (calculate_risk sr).
Proof.
  intros Hk. unfold calculate_risk. fold (analysed sr).
  assert (is_Some (_get_owasp_mapping (analysed sr))) as [m ->]; [|by eexists].
  apply mapM_is_Some, Forall_forall. intros c _. unfold compose, mapped_of.
  rewrite owasp_mapping_analysed. cbv zeta. cbn [b_findings b_count].
  assert (is_Some (mapM summarise
            (take 3 (filter (fun f => category_of f = c) (extract_items sr [])))))
    as [fs ->]; [|by eexists].
  apply mapM_is_Some, Forall_take, Forall_forall. intros f Hf.
  apply list_elem_of_filter in Hf as [_ Hf].
  rewrite <- extract_items_raw in Hk.
  rewrite Forall_forall in Hk. specialize (Hk (raw f)).
  destruct Hk as [[t Ht] [sv Hs]]; [by apply list_elem_of_fmap_2|].
  unfold compose, summarise. rewrite Ht, Hs. by eexists.
Qed.

(** *** Claims *)

(** C1. With no finding in the results, [calculate_risk] returns
    overall_score 0 and risk_level "Minimal".  With exactly one finding,
    of severity "critical" (and carrying the title the report quotes), it
    returns overall_score 10.0, the cap of 9.0*1.5/1.25, and risk_level
    "Critical". *)
Theorem calculate_risk_empty_and_single_critical :
  (forall sr, contained_findings sr = [] ->
     exists r, calculate_risk sr = Some r /\
               overall_score r = 0%Q /\ risk_level r = "Minimal") /\
  (forall sr f, contained_findings sr = [f] ->
     severity f = Some "critical" -> is_Some (title f) ->
     exists r, calculate_risk sr = Some r /\
               (overall_score r == 10.0)%Q /\
               (overall_score r == py_min (9.0 * 1.5 / 1.25) 10)%Q /\
               risk_level r = "Critical").
Proof.
  split.
  - intros sr Hnil.
    destruct (calculate_risk_returns sr) as [r Hr]; [by rewrite Hnil|].
    exists r. split; [done|].
    destruct (calculate_risk_Some sr r Hr) as (Hs & _ & Hl).
    rewrite Hl, level_analysed, Hnil. split; [|done].
    rewrite Hs. unfold analysed, _calculate_overall_score. simpl.
    assert (extract_items sr [] = []) as ->; [|done].
    apply (f_equal (@length _)) in Hnil.
    rewrite <- extract_items_raw, length_map in Hnil.
    by destruct (extract_items sr []).
  - intros sr f Hone Hsev Htitle.
    destruct (calculate_risk_returns sr) as [r Hr].
    { rewrite Hone. apply Forall_singleton. split; [done|]. rewrite Hsev. by eexists. }
    exists r. split; [done|].
    destruct (calculate_risk_Some sr r Hr) as (Hs & _ & Hl).
    assert (map normalized (contained_findings sr) = ["critical"]) as Hn.
    { rewrite Hone. cbn [map]. unfold normalized, severity_lower. by rewrite Hsev. }
    rewrite Hl, level_analysed, Hs, score_analysed, Hn.
    repeat split; by vm_compute.
Qed.

Lemma calculate_risk_empty_and_single_critical_witness :
  (exists r, calculate_risk no_findings = Some r /\
             overall_score r = 0%Q /\ risk_level r = "Minimal") /\
  (exists r, calculate_risk one_critical = Some r /\
             (overall_score r == 10.0)%Q /\
             (overall_score r == py_min (9.0 * 1.5 / 1.25) 10)%Q /\
             risk_level r = "Critical").
Proof.
  split.
  - apply (proj1 calculate_risk_empty_and_single_critical no_findings).
    reflexivity.
  - apply (proj2 calculate_risk_empty_and_single_critical one_critical
             (sample_finding "Expired TLS certificate" "critical")).
    + reflexivity.
    + reflexivity.
    + eexists. reflexivity.
Defined.

Lemma Qsum_Permutation l l' : l ≡ₚ l' -> (Qsum l == Qsum l')%Q.
Proof.
  induction 1 as [|x l l' _ IH|x y l|l l' l'' _ IH1 _ IH2]; simpl.
  - reflexivity.
  - by rewrite IH.
  - ring.
  - by rewrite IH1.
Qed.

Lemma score_formula_Permutation sevs sevs' :
  sevs ≡ₚ sevs' -> (score_formula sevs == score_formula sevs')%Q.
Proof.
  intros HP. pose proof (Permutation_length HP) as Hlen.
  destruct sevs as [|s sevs], sevs' as [|s' sevs']; try done.
  cbn [score_formula]. apply py_min_comp.
  rewrite Hlen. rewrite (Qsum_Permutation _ _ (Permutation_map term HP)).
  reflexivity.
Qed.

Lemma count_severity_Permutation s sevs sevs' :
  sevs ≡ₚ sevs' -> count_severity s sevs = count_severity s sevs'.
Proof. intros HP. unfold count_severity. by rewrite HP. Qed.

(** C2 (amended). For results whose findings are one critical, two high
    and one medium finding, in any order and distribution over modules,
    [calculate_risk] returns severity_breakdown
    {critical:1, high:2, medium:1, low:0, info:0} and overall_score
    (9.0*1.5 + 7.0 + 7.0 + 5.0) / (4*1.25), which is 6.5. *)
Theorem calculate_risk_breakdown_and_score sr :
  map normalized (contained_findings sr) ≡ₚ ["critical"; "high"; "high"; "medium"] ->
  Forall has_keys (contained_findings sr) ->
  exists r, calculate_risk sr = Some r /\
    severity_breakdown r =
      [("critical", 1); ("high", 2); ("medium", 1); ("low", 0); ("info", 0)] /\
    (overall_score r == (9.0 * 1.5 + 7.0 + 7.0 + 5.0) / (4 * 1.25))%Q /\
    (overall_score r == 6.5)%Q.
Proof.
  intros HP Hk. destruct (calculate_risk_returns sr Hk) as [r Hr].
  exists r. split; [done|].
  destruct (calculate_risk_Some sr r Hr) as (Hs & Hb & _).
  rewrite Hb, breakdown_analysed, Hs, score_analysed. cbv zeta.
  rewrite !(count_severity_Permutation _ _ _ HP).
  rewrite (score_formula_Permutation _ _ HP).
  repeat split; by vm_compute.
Qed.

Lemma calculate_risk_breakdown_and_score_witness :
  exists r, calculate_risk three_stubs = Some r /\
    severity_breakdown r =
      [("critical", 1); ("high", 2); ("medium", 1); ("low", 0); ("info", 0)] /\
    (overall_score r == (9.0 * 1.5 + 7.0 + 7.0 + 5.0) / (4 * 1.25))%Q /\
    (overall_score r == 6.5)%Q.
Proof.
  apply (calculate_risk_breakdown_and_score three_stubs).
  - reflexivity.
  - repeat constructor; eexists; reflexivity.
Defined.

(** C2, as stated, fails: on three modules returning 1 critical, 2 high
    and 1 medium finding the returned overall_score is not 6.7. *)
Lemma calculate_risk_score_not_6_7 :
  exists r, calculate_risk three_stubs = Some r /\
    map normalized (contained_findings three_stubs) =
      ["critical"; "high"; "high"; "medium"] /\
    ~ (overall_score r == 6.7)%Q.
Proof.
  eexists. split; [reflexivity|]. split; [reflexivity|].
  by vm_compute.
Qed.

Lemma unknown_score s : s ∉ buckets -> dict_get s SEVERITY_SCORES = None.
Proof.
  intros Hs. unfold SEVERITY_SCORES. cbn [dict_get].
  repeat (match goal with
          | |- context [String.eqb ?a s] =>
              destruct (String.eqb_spec a s) as [<-|?];
              [exfalso; apply Hs; unfold buckets; set_solver|]
          end).
  done.
Qed.

Lemma counted_are_known sevs :
  (count_severity "critical" sevs + count_severity "high" sevs +
   count_severity "medium" sevs + count_severity "low" sevs +
   count_severity "info" sevs)%nat =
  length (filter (fun s => s ∈ buckets) sevs).
Proof.
  induction sevs as [|s sevs IH]; [done|].
  rewrite !count_severity_cons, filter_cons.
  destruct (decide (s ∈ buckets)) as [Hin|Hout].
  - cbn [length]. rewrite <- IH. clear IH. unfold buckets in Hin.
    repeat (apply elem_of_cons in Hin as [->|Hin]; [eqb_closed; cbv iota; lia|]).
    by apply elem_of_nil in Hin.
  - rewrite <- IH. clear IH.
    repeat (match goal with
            | |- context [String.eqb ?a s] =>
                destruct (String.eqb_spec a s) as [<-|?];
                [exfalso; apply Hout; unfold buckets; set_solver|]
            end).
    cbv iota. lia.
Qed.

(** C7 (amended). A finding whose severity, lower-cased, is none of the
    five buckets gets the derived base score 0, and is counted under no
    bucket of the returned severity_breakdown: each bucket counts the
    findings of exactly that severity, so the five counts add up to the
    number of findings of known severity. *)
Theorem unknown_severity_scored_zero_and_uncounted :
  (forall module_key f,
     normalized f ∉ buckets -> cvss_score (tag module_key f) = 0%Q) /\
  (forall sr r, calculate_risk sr = Some r ->
     let sevs := map normalized (contained_findings sr) in
     severity_breakdown r = map (fun b => (b, count_severity b sevs)) buckets /\
     list_sum (values (severity_breakdown r)) =
       length (filter (fun s => s ∈ buckets) sevs)).
Proof.
  split.
  - intros module_key f Hf. unfold tag. cbn [cvss_score].
    fold (normalized f). by rewrite unknown_score.
  - intros sr r Hr sevs.
    destruct (calculate_risk_Some sr r Hr) as (_ & Hb & _).
    rewrite Hb, breakdown_analysed. cbv zeta. fold sevs. split; [done|].
    rewrite <- counted_are_known. cbn [values map snd list_sum foldr]. lia.
Qed.

Lemma unknown_severity_scored_zero_and_uncounted_witness :
  cvss_score (tag "threat_intel" (sample_finding "Listed on a blocklist" "severe")) = 0%Q /\
  exists r, calculate_risk one_unknown_severity = Some r /\
    severity_breakdown r =
      [("critical", 0); ("high", 0); ("medium", 0); ("low", 0); ("info", 0)] /\
    list_sum (values (severity_breakdown r)) = 0.
Proof.
  split.
  - apply (proj1 unknown_severity_scored_zero_and_uncounted).
    vm_compute. intros H. repeat (apply elem_of_cons in H as [H|H]; [discriminate|]).
    by apply elem_of_nil in H.
  - eexists. split; [reflexivity|].
    apply (proj2 unknown_severity_scored_zero_and_uncounted one_unknown_severity).
    reflexivity.
Defined.

(** C7, as stated, fails: a single finding of severity "severe" leaves
    the "info" count of the returned breakdown at 0. *)
Lemma unknown_severity_not_counted_as_info :
  exists r, calculate_risk one_unknown_severity = Some r /\
    map severity (contained_findings one_unknown_severity) = [Some "severe"] /\
    dict_get "info" (severity_breakdown r) = Some 0 /\
    dict_get "info" (severity_breakdown r) <> Some 1.
Proof.
  eexists. split; [reflexivity|]. by repeat split.
Qed.

Lemma find_first {A} (P : A -> bool) pre x post :
  Forall (fun y => P y = false) pre -> P x = true ->
  List.find P (pre ++ x :: post) = Some x.
Proof.
  induction 1 as [|y pre Hy _ IH]; intros Hx; simpl.
  - by rewrite Hx.
  - rewrite Hy. by apply IH.
Qed.

Lemma find_nothing {A} (P : A -> bool) l :
  Forall (fun y => P y = false) l -> List.find P l = None.
Proof. induction 1 as [|y l Hy _ IH]; simpl; [done|]. by rewrite Hy. Qed.

Lemma category_counts_add_up l :
  list_sum (map (fun c => length (filter (fun f => category_of f = c) l)) all_codes) =
  length l.
Proof.
  induction l as [|f l IH]; [done|].
  unfold all_codes in *. cbn [map list_sum foldr] in *.
  rewrite !filter_cons.
  destruct (category_of f); simpl; lia.
Qed.

(** C8. After [_categorize_by_owasp] every finding sits in exactly one
    of the ten categories: the bucket of category [c] holds, in order,
    the findings whose category is [c], its count is their number, and
    the ten counts add up to the number of findings.  The category of a
    finding is a function of its text (title, a space, description, in
    lower case): the first category in the order of [category_keywords]
    one of whose keywords occurs in the text, whatever later categories
    match too, and A05 when none does. *)
Theorem category_assignment_first_match sr :
  let e := _categorize_by_owasp (_extract_findings (__init__ sr)) in
  (forall c,
     b_findings (owasp_mapping e c) =
       filter (fun f => category_of f = c) (findings_list e) /\
     b_count (owasp_mapping e c) = length (b_findings (owasp_mapping e c))) /\
  (forall f c, f ∈ findings_list e ->
     (f ∈ b_findings (owasp_mapping e c) <-> c = category_of f)) /\
  list_sum (map (fun c => b_count (owasp_mapping e c)) all_codes) =
    length (findings_list e) /\
  (forall c : owasp, c ∈ all_codes) /\
  (forall f g, finding_text f = finding_text g -> category_of f = category_of g) /\
  (forall f pre c keywords post,
     category_keywords = pre ++ (c, keywords) :: post ->
     Forall (fun ck => any_keyword ck.2 (finding_text f) = false) pre ->
     any_keyword keywords (finding_text f) = true ->
     category_of f = c) /\
  (forall f,
     Forall (fun ck => any_keyword ck.2 (finding_text f) = false) category_keywords ->
     category_of f = A05).
Proof.
  intros e.
  assert (forall c, owasp_mapping e c =
            Bucket (filter (fun f => category_of f = c) (findings_list e))
                   (length (filter (fun f => category_of f = c) (findings_list e))))
    as Hmap.
  { intros c. subst e. cbn [owasp_mapping _categorize_by_owasp].
    by rewrite categorize_fold. }
  repeat split.
  - by rewrite Hmap.
  - by rewrite Hmap.
  - rewrite Hmap. cbn [b_findings]. intros Hin.
    by apply list_elem_of_filter in Hin as [-> _].
  - intros ->. rewrite Hmap. cbn [b_findings]. by apply list_elem_of_filter.
  - rewrite <- (category_counts_add_up (findings_list e)).
    f_equal. apply map_ext. intros c. by rewrite Hmap.
  - intros c. unfold all_codes. destruct c; set_solver.
  - intros f g E. unfold category_of. by rewrite E.
  - intros f pre c keywords post Hsplit Hpre Hkw.
    unfold category_of, first_match. rewrite Hsplit.
    rewrite (find_first _ pre (c, keywords) post); [done| |done].
    eapply Forall_impl; [exact Hpre|]. by intros [c' k'].
  - intros f Hnone. unfold category_of, first_match.
    rewrite find_nothing; [done|].
    eapply Forall_impl; [exact Hnone|]. by intros [c' k'].
Qed.

(** A text with keywords of A01 ("access") and A03 ("sql", "injection")
    goes to A01, the earlier of the two. *)
Example first_match_wins :
  category_of (tag "web_app_risk"
                 (Finding (Some "SQL Injection") (Some "Grants ACCESS to all tables")
                          (Some "high") None)) = A01.
Proof. reflexivity. Qed.

(** C9. Whatever the results mapping holds, the overall_score that
    [calculate_risk] returns lies in [0, 10]; it returns whenever each
    finding has the "title" and "severity" keys the report quotes. *)
Theorem overall_score_in_range sr :
  (forall r, calculate_risk sr = Some r ->
     (0 <= overall_score r)%Q /\ (overall_score r <= 10)%Q) /\
  (Forall has_keys (contained_findings sr) -> is_Some (calculate_risk sr)).
Proof.
  split; [|apply calculate_risk_returns].
  intros r Hr. destruct (calculate_risk_Some sr r Hr) as (Hs & _ & _).
  rewrite Hs, score_analysed.
  destruct (score_formula_bounds (map normalized (contained_findings sr)))
    as (H0 & H10 & _).
  done.
Qed.

Lemma overall_score_in_range_witness :
  exists r, calculate_risk three_stubs = Some r /\
    (0 <= overall_score r)%Q /\ (overall_score r <= 10)%Q.
Proof.
  eexists. split; [reflexivity|].
  apply (proj1 (overall_score_in_range three_stubs)). reflexivity.
Defined.

Lemma level_of_below_6 score :
  (score <= 5.6)%Q -> level_of score ∈ ["Medium"; "Low"; "Minimal"].
Proof.
  intros Hle. unfold level_of.
  destruct (Qle_bool 8 score) eqn:E8; [apply Qle_bool_iff in E8; lra|].
  destruct (Qle_bool 6 score) eqn:E6; [apply Qle_bool_iff in E6; lra|].
  destruct (Qle_bool 4 score), (Qle_bool 2 score); set_solver.
Qed.

(** C10. Without a finding of severity "critical" (as the engine reads
    severities: lower-cased), the returned overall_score is at most
    7.0/1.25 = 5.6 and the risk_level is "Medium", "Low" or "Minimal",
    so neither "High" nor "Critical". *)
Theorem no_critical_score_and_level sr :
  Forall (fun f => normalized f <> "critical") (contained_findings sr) ->
  (forall r, calculate_risk sr = Some r ->
     (overall_score r <= 7.0 / 1.25)%Q /\ (overall_score r <= 5.6)%Q /\
     risk_level r ∈ ["Medium"; "Low"; "Minimal"] /\
     risk_level r <> "High" /\ risk_level r <> "Critical") /\
  (Forall has_keys (contained_findings sr) -> is_Some (calculate_risk sr)).
Proof.
  intros Hnc. split; [|apply calculate_risk_returns].
  intros r Hr. destruct (calculate_risk_Some sr r Hr) as (Hs & _ & Hl).
  destruct (score_formula_bounds (map normalized (contained_findings sr)))
    as (_ & _ & H56).
  assert (score_formula (map normalized (contained_findings sr)) <= 5.6)%Q as Hle.
  { apply H56. by apply Forall_fmap. }
  pose proof (level_of_below_6 _ Hle) as Hlev.
  rewrite Hl, level_analysed, Hs, score_analysed.
  split; [|split; [done|split; [done|]]].
  - eapply Qle_trans; [exact Hle|]. Qclosed.
  - split; intros E; rewrite E in Hlev;
      repeat (apply elem_of_cons in Hlev as [Hlev|Hlev]; [discriminate|]);
      by apply elem_of_nil in Hlev.
Qed.

Lemma no_critical_score_and_level_witness :
  exists r, calculate_risk one_high = Some r /\
    (overall_score r <= 7.0 / 1.25)%Q /\ (overall_score r <= 5.6)%Q /\
    risk_level r ∈ ["Medium"; "Low"; "Minimal"] /\
    risk_level r <> "High" /\ risk_level r <> "Critical".
Proof.
  eexists. split; [reflexivity|].
  apply (proj1 (no_critical_score_and_level one_high
                  ltac:(repeat constructor; by vm_compute))).
  reflexivity.
Defined.

End RiskEngineFacts.

Section Binary64Facts.
Import Floats.

(** In binary64 the two scores are the same: 10.0 exactly for one
    critical finding and, in every order of the four findings, 6.5. *)
Example binary64_single_critical :
  Binary64.overall_score ["critical"] = 10.0%float.
Proof. vm_compute. reflexivity. Qed.

Example binary64_three_stubs :
  Forall (fun sevs => Binary64.overall_score sevs = 6.5%float)
         (permutations ["critical"; "high"; "high"; "medium"]).
Proof. vm_compute. repeat constructor. Qed.

(** A time-to-live far below the resolution of the clock is absorbed by
    the sum that [set] stores: at the clock readings of these years, one
    hundredth of a microsecond added to the time gives the time. *)
#[warnings="-inexact-float"]
Example binary64_small_ttl_absorbed :
  (1700000000 + 0.00000001)%float = 1700000000%float.
Proof. vm_compute. reflexivity. Qed.

End Binary64Facts.

(** ** Orchestrator *)

Section OrchestratorFacts.
Import PyStr PyDict Orchestrator.

(** The percent values the callback received, in order. *)
Definition percents (o : orchestrator) : list Z := map fst (progress_log o).

(** A module reports its own progress as a non-decreasing sequence of
    values in [0, 100]. *)
Definition well_behaved (run : execution) : Prop :=
  Sorted Qle (map fst (delivered_reports run)) /\
  Forall (fun p => (0 <= p)%Q /\ (p <= 100)%Q) (map fst (delivered_reports run)).

(** The float passed to [int] by the sub-callback. *)
Definition interpolate (s_pct e_pct module_internal_pct : Q) : Q :=
  (s_pct + (module_internal_pct / 100.0) * (e_pct - s_pct))%Q.

(** [start_pct] of the module at [index]. *)
Definition slice_start (module_range_size : Q) (index : nat) : Q :=
  (MODULES_START + inject_Z (Z.of_nat index) * module_range_size)%Q.

(** The values one module contributes: its start, its own reports when
    [execute] takes the callback, and its end. *)
Definition module_percents (w : world) (sz : Q) (index : nat) (key : string) : list Z :=
  let s := slice_start sz index in
  let e := slice_start sz (index + 1) in
  let run := module_run w index key in
  py_int (interpolate s e 0) ::
  map (fun p => py_int (interpolate s e p)) (map fst (delivered_reports run))
  ++ [py_int (interpolate s e 100)].

(** Non-decreasing, and between [lo] and [hi]. *)
Definition ascending_within (lo hi : Z) (l : list Z) : Prop :=
  StronglySorted Z.le l /\ Forall (fun z => (lo <= z)%Z /\ (z <= hi)%Z) l.

(** [module_range_size] for [n] modules. *)
Definition range_size (n : nat) : Q :=
  if (0 <? n)%nat
  then ((MODULES_END - MODULES_START) / inject_Z (Z.of_nat n))%Q
  else 0%Q.

(** Every module raises "timeout"; technology detection succeeds. *)
Definition failing_world : world :=
  {| tech_run := inr NotADict;
     module_run := fun _ _ => Execution false [] (inl "timeout");
     time_start := 0; time_end := 1 |}.

(** The first module raises after reporting 40%; the others report 50%
    and return an empty result. *)
Definition mixed_world : world :=
  {| tech_run := inl "unreachable";
     module_run := fun index _ =>
       match index with
       | O => Execution true [(40%Q, Some "probing")] (inl "connection refused")
       | _ => Execution true [(50%Q, None)]
                (inr (Dict (ResultDict (Some "ok") None (Some []) None)))
       end;
     time_start := 0; time_end := 1 |}.

(** Every module reports 10, 55.5 and 100 and returns an empty result. *)
Definition steady_world : world :=
  {| tech_run := inr NotADict;
     module_run := fun _ _ =>
       Execution true [(10%Q, Some "connect"); (55.5%Q, None); (100%Q, Some "done")]
         (inr (Dict (ResultDict (Some "ok") None (Some []) None)));
     time_start := 0; time_end := 1 |}.

Lemma dict_get_set_eq {V} k (v : V) d : dict_get k (dict_set k v d) = Some v.
Proof.
  induction d as [|[k' v'] d IH]; simpl.
  - by rewrite String.eqb_refl.
  - destruct (String.eqb k' k) eqn:E; simpl; by rewrite E.
Qed.

Lemma dict_get_set_ne {V} k k' (v : V) d :
  k <> k' -> dict_get k' (dict_set k v d) = dict_get k' d.
Proof.
  intros Hne. induction d as [|[k0 v0] d IH]; simpl.
  - destruct (String.eqb_spec k k'); [done|done].
  - destruct (String.eqb_spec k0 k) as [->|]; simpl.
    + destruct (String.eqb_spec k k'); [done|done].
    + by rewrite IH.
Qed.

Lemma keys_dict_set_elem {V} x k (v : V) d :
  x ∈ keys (dict_set k v d) <-> x = k \/ x ∈ keys d.
Proof.
  unfold keys. induction d as [|[k' v'] d IH]; simpl.
  - set_solver.
  - destruct (String.eqb_spec k' k) as [->|]; simpl; set_solver.
Qed.

Lemma keys_dict_set_NoDup {V} k (v : V) d :
  NoDup (keys d) -> NoDup (keys (dict_set k v d)).
Proof.
  unfold keys. induction d as [|[k' v'] d IH]; simpl; intros Hnd.
  - apply NoDup_singleton.
  - apply NoDup_cons in Hnd as [Hk' Hnd].
    destruct (String.eqb_spec k' k) as [->|Hne]; simpl.
    + by apply NoDup_cons.
    + apply NoDup_cons. split; [|by apply IH].
      intros Hin. apply (keys_dict_set_elem k' k v d) in Hin as [?|?]; done.
Qed.

Lemma in_module_map_elem m : in_module_map m = true -> m ∈ module_map.
Proof.
  unfold in_module_map. intros H. apply existsb_exists in H as (x & Hx & E).
  apply String.eqb_eq in E as ->. by apply list_elem_of_In.
Qed.

Lemma modules_to_run_valid selected :
  Forall (fun m => m ∈ module_map) (modules_to_run selected).
Proof.
  unfold modules_to_run. apply Forall_forall. intros m Hm.
  apply list_elem_of_In, in_map_iff in Hm as (piece & <- & Hp).
  apply filter_In in Hp as [_ Hp]. by apply in_module_map_elem.
Qed.

(** *** The module loop *)

Lemma run_modules_executed w cb sz i ms o :
  executed (run_modules w cb sz i ms o) = executed o ++ ms.
Proof.
  revert i o. induction ms as [|m ms IH]; intros i o; simpl.
  - by rewrite app_nil_r.
  - rewrite IH. simpl. by rewrite <- app_assoc.
Qed.

Lemma run_modules_untouched w cb sz i ms o key :
  key ∉ ms ->
  dict_get key (results (run_modules w cb sz i ms o)) = dict_get key (results o).
Proof.
  revert i o. induction ms as [|m ms IH]; intros i o Hout; simpl; [done|].
  apply not_elem_of_cons in Hout as [Hne Hout].
  rewrite IH by done. simpl. by apply dict_get_set_ne.
Qed.

Lemma run_modules_last_run w cb sz i ms o j key :
  ms !! j = Some key -> key ∉ drop (S j) ms ->
  dict_get key (results (run_modules w cb sz i ms o)) =
  Some (stored_result (module_run w (i + j) key)).
Proof.
  revert i o j. induction ms as [|m ms IH]; intros i o j Hj Hlater; [done|].
  destruct j as [|j]; simpl in *.
  - injection Hj as ->. rewrite drop_0 in Hlater.
    rewrite run_modules_untouched by done. simpl.
    rewrite Nat.add_0_r. apply dict_get_set_eq.
  - rewrite (IH (S i) _ j) by done. do 3 f_equal. lia.
Qed.

Lemma run_modules_keys_elem w cb sz i ms o x :
  x ∈ keys (results (run_modules w cb sz i ms o)) <-> x ∈ ms \/ x ∈ keys (results o).
Proof.
  revert i o. induction ms as [|m ms IH]; intros i o; simpl.
  - set_solver.
  - rewrite IH. simpl. rewrite keys_dict_set_elem. set_solver.
Qed.

Lemma run_modules_keys_NoDup w cb sz i ms o :
  NoDup (keys (results o)) -> NoDup (keys (results (run_modules w cb sz i ms o))).
Proof.
  revert i o. induction ms as [|m ms IH]; intros i o Hnd; simpl; [done|].
  apply IH. simpl. by apply keys_dict_set_NoDup.
Qed.

(** *** The returned mapping *)

Lemma run_scan_keys w cb target selected rules x :
  x ∈ keys (results (run_scan w cb (__init__ w target selected rules))) <->
  x = "tech_stack" \/ x ∈ modules_to_run selected \/ x = "metadata".
Proof.
  unfold run_scan. simpl. rewrite keys_dict_set_elem, run_modules_keys_elem.
  simpl. set_solver.
Qed.

Lemma run_scan_keys_NoDup w cb target selected rules :
  NoDup (keys (results (run_scan w cb (__init__ w target selected rules)))).
Proof.
  unfold run_scan. simpl. apply keys_dict_set_NoDup, run_modules_keys_NoDup.
  simpl. apply NoDup_singleton.
Qed.

Lemma module_map_not_reserved m :
  m ∈ module_map -> m <> "tech_stack" /\ m <> "metadata".
Proof.
  unfold module_map. intros Hm.
  repeat (apply elem_of_cons in Hm as [->|Hm]; [done|]).
  by apply elem_of_nil in Hm.
Qed.

(** C3 (amended). Whatever the target and the selection, and whichever
    modules raise: every module of the filtered selection is started, in
    order; a module that raises leaves {status: "error", error: message,
    findings: []} under its id, and that record is in the returned mapping
    unless the same id is selected again later (the mapping holds, for
    each id, what its last run left); the returned mapping has
    one entry per distinct module id of the filtered selection and, with
    them, the two entries "tech_stack" and "metadata". *)
Theorem run_scan_isolates_failures w has_callback target selected rules :
  let o := run_scan w has_callback (__init__ w target selected rules) in
  let ms := modules_to_run selected in
  executed o = ms /\
  (forall sz i key msg o',
     outcome (module_run w i key) = inl msg ->
     dict_get key (results (run_module w has_callback sz i key o')) =
       Some (Dict {| status := Some "error"; error := Some msg;
                     findings := Some []; technologies := None |})) /\
  (forall i key msg,
     ms !! i = Some key -> outcome (module_run w i key) = inl msg ->
     key ∉ drop (S i) ms ->
     dict_get key (results o) =
       Some (Dict {| status := Some "error"; error := Some msg;
                     findings := Some []; technologies := None |})) /\
  (forall i key,
     ms !! i = Some key -> key ∉ drop (S i) ms ->
     dict_get key (results o) = Some (stored_result (module_run w i key))) /\
  keys (results o) ≡ₚ "tech_stack" :: remove_dups ms ++ ["metadata"] /\
  length (results o) = (length (remove_dups ms) + 2)%nat /\
  (NoDup ms -> length (results o) = (length ms + 2)%nat).
Proof.
  intros o ms.
  assert (forall x, x ∈ ms -> x <> "tech_stack" /\ x <> "metadata") as Hres.
  { intros x Hx. apply module_map_not_reserved.
    pose proof (modules_to_run_valid selected) as Hvalid.
    rewrite Forall_forall in Hvalid. by apply Hvalid. }
  assert (forall i key, ms !! i = Some key -> key ∉ drop (S i) ms ->
            dict_get key (results o) = Some (stored_result (module_run w i key)))
    as Hlast.
  { intros i key Hi Hlater. subst o. unfold run_scan. simpl.
    rewrite dict_get_set_ne.
    - fold ms. by rewrite (run_modules_last_run _ _ _ 0 ms _ i key).
    - apply list_elem_of_lookup_2 in Hi. destruct (Hres key Hi). done. }
  assert (keys (results o) ≡ₚ "tech_stack" :: remove_dups ms ++ ["metadata"]) as Hperm.
  { apply NoDup_Permutation.
    - apply run_scan_keys_NoDup.
    - apply NoDup_cons. split.
      + intros Hin. apply elem_of_app in Hin as [Hin|Hin].
        * apply (proj1 (elem_of_remove_dups _ _)) in Hin.
          destruct (Hres _ Hin). done.
        * by apply list_elem_of_singleton in Hin.
      + apply NoDup_app. split; [apply NoDup_remove_dups|].
        split; [|apply NoDup_singleton].
        intros x Hin Hx. apply (proj1 (elem_of_remove_dups _ _)) in Hin.
        apply list_elem_of_singleton in Hx as ->.
        destruct (Hres _ Hin). done.
    - intros x. subst o. rewrite run_scan_keys. fold ms.
      rewrite elem_of_cons, elem_of_app, elem_of_remove_dups, list_elem_of_singleton.
      done. }
  assert (length (results o) = (length (remove_dups ms) + 2)%nat) as Hlen.
  { apply Permutation_length in Hperm. unfold keys in Hperm.
    rewrite length_map in Hperm. rewrite Hperm. simpl. rewrite length_app. simpl. lia. }
  split; [|split; [|split; [|split; [done|split; [done|split; [done|]]]]]].
  - subst o. unfold run_scan. simpl. by rewrite run_modules_executed.
  - intros sz i key msg o' Hout. unfold run_module. cbn [results].
    rewrite dict_get_set_eq. unfold stored_result. by rewrite Hout.
  - intros i key msg Hi Hout Hlater. rewrite (Hlast i key Hi Hlater).
    unfold stored_result. by rewrite Hout.
  - intros Hnd. rewrite Hlen. f_equal.
    apply Permutation_length, NoDup_Permutation;
      [apply NoDup_remove_dups | done | apply elem_of_remove_dups].
Qed.

Lemma run_scan_isolates_failures_witness :
  let o := run_scan mixed_world true
             (__init__ mixed_world "example.org" "identity_infra, bogus ,threat_intel" "") in
  executed o = ["identity_infra"; "threat_intel"] /\
  dict_get "identity_infra" (results o) =
    Some (Dict {| status := Some "error"; error := Some "connection refused";
                  findings := Some []; technologies := None |}) /\
  length (results o) = 4.
Proof.
  pose proof (run_scan_isolates_failures mixed_world true "example.org"
                "identity_infra, bogus ,threat_intel" "") as H.
  cbv zeta in H. destruct H as (Hexec & _ & Herr & _ & _ & _ & Hlen).
  split; [exact Hexec|]. split.
  - apply (Herr 0 "identity_infra" "connection refused"); [reflexivity|reflexivity|].
    vm_compute. intros Hin. apply list_elem_of_singleton in Hin. discriminate.
  - apply Hlen. vm_compute. repeat constructor; set_solver.
Defined.

(** C3, as stated, fails: with the single module "identity_infra"
    selected (and raising), the returned mapping has three entries. *)
Lemma results_larger_than_selection :
  let o := run_scan failing_world false
             (__init__ failing_world "example.org" "identity_infra" "") in
  modules_to_run "identity_infra" = ["identity_infra"] /\
  keys (results o) = ["tech_stack"; "identity_infra"; "metadata"] /\
  length (results o) <> length (modules_to_run "identity_infra").
Proof. by vm_compute. Qed.

(** *** Progress *)

Lemma py_int_floor x : (0 <= x)%Q -> py_int x = Qfloor x.
Proof.
  destruct x as [n d]. unfold Qle, py_int. simpl. intros H.
  apply Z.quot_div_nonneg; lia.
Qed.

Lemma py_int_mono x y : (0 <= x)%Q -> (x <= y)%Q -> (py_int x <= py_int y)%Z.
Proof.
  intros Hx Hxy. rewrite !py_int_floor; [by apply Qfloor_resp_le| |done].
  by eapply Qle_trans.
Qed.

Lemma py_int_comp x y : (0 <= x)%Q -> (x == y)%Q -> py_int x = py_int y.
Proof.
  intros Hx E. rewrite !py_int_floor; [by apply Qfloor_comp| |done].
  by rewrite <- E.
Qed.

Lemma interpolate_mono s e p q :
  (s <= e)%Q -> (p <= q)%Q -> (interpolate s e p <= interpolate s e q)%Q.
Proof.
  intros Hse Hpq. unfold interpolate.
  assert (p / 100.0 <= q / 100.0)%Q as Hdiv.
  { unfold Qdiv. apply Qmult_le_compat_r; [done|Qclosed]. }
  assert (0 <= e - s)%Q by lra.
  apply Qplus_le_r. by apply Qmult_le_compat_r.
Qed.

Lemma interpolate_0 s e : (interpolate s e 0 == s)%Q.
Proof. unfold interpolate. field. Qed.

Lemma interpolate_100 s e : (interpolate s e 100 == e)%Q.
Proof. unfold interpolate. field. Qed.

Lemma slice_start_succ sz i :
  (slice_start sz (i + 1) == slice_start sz i + sz)%Q.
Proof.
  unfold slice_start. rewrite Nat2Z.inj_add, inject_Z_plus. simpl (inject_Z (Z.of_nat 1)).
  ring.
Qed.

Lemma slice_start_ge sz i : (0 <= sz)%Q -> (5 <= slice_start sz i)%Q.
Proof.
  intros Hsz. unfold slice_start, MODULES_START.
  assert (0 <= inject_Z (Z.of_nat i))%Q as Hi by (unfold Qle; simpl; lia).
  pose proof (Qmult_le_0_compat _ _ Hi Hsz). lra.
Qed.

Lemma fold_sub_callback_percents key s e rs log :
  map fst (fold_left (fun log '(pct, msg) => sub_callback true key s e pct msg log) rs log) =
  map fst log ++ map (fun p => py_int (interpolate s e p)) (map fst rs).
Proof.
  revert log. induction rs as [|[p m] rs IH]; intros log; simpl.
  - by rewrite app_nil_r.
  - rewrite IH, map_app. simpl. by rewrite <- app_assoc.
Qed.

Lemma run_module_percents w sz i key o :
  percents (run_module w true sz i key o) = percents o ++ module_percents w sz i key.
Proof.
  unfold percents, run_module, module_percents. cbn [progress_log].
  fold (slice_start sz i) (slice_start sz (i + 1)).
  unfold sub_callback at 1. unfold call_progress. rewrite map_app. cbn [map fst].
  fold (interpolate (slice_start sz i) (slice_start sz (i + 1)) 100).
  rewrite fold_sub_callback_percents. unfold sub_callback, call_progress.
  rewrite map_app. cbn [map fst].
  fold (interpolate (slice_start sz i) (slice_start sz (i + 1)) 0).
  by rewrite <- !app_assoc.
Qed.

Lemma ascending_within_app a b c l1 l2 :
  (a <= b)%Z -> (b <= c)%Z ->
  ascending_within a b l1 -> ascending_within b c l2 ->
  ascending_within a c (l1 ++ l2).
Proof.
  intros Hab Hbc [Hs1 B1] [Hs2 B2]. split.
  - apply StronglySorted_app_2; [|done|done].
    intros x1 x2 H1 H2. rewrite Forall_forall in B1, B2.
    destruct (B1 _ H1), (B2 _ H2). lia.
  - apply Forall_app. split.
    + eapply Forall_impl; [exact B1|]. simpl. lia.
    + eapply Forall_impl; [exact B2|]. simpl. lia.
Qed.

Lemma reports_ascending s e ps :
  (0 <= s)%Q -> (s <= e)%Q ->
  StronglySorted Qle ps -> Forall (fun p => (0 <= p)%Q /\ (p <= 100)%Q) ps ->
  ascending_within (py_int (interpolate s e 0)) (py_int (interpolate s e 100))
    (map (fun p => py_int (interpolate s e p)) ps).
Proof.
  intros Hs Hse Hsorted Hrange.
  assert (forall p, (0 <= p)%Q -> (0 <= interpolate s e p)%Q) as Hnn.
  { intros p Hp. eapply Qle_trans; [exact Hs|].
    rewrite <- (interpolate_0 s e) at 1. by apply interpolate_mono. }
  induction Hsorted as [|p ps Hsorted IH Hp]; simpl.
  - split; constructor.
  - apply Forall_cons in Hrange as [[Hp0 Hp100] Hrange].
    destruct (IH Hrange) as [Hsl B]. split.
    + apply SSorted_cons; [assumption|]. apply Forall_forall. intros z Hz.
      apply list_elem_of_fmap in Hz as (q & -> & Hq).
      rewrite Forall_forall in Hp.
      apply py_int_mono; [by apply Hnn|]. apply interpolate_mono; [done|].
      by apply Hp.
    + constructor; [|done]. split; apply py_int_mono.
      * apply Hnn. apply Qle_refl.
      * by apply interpolate_mono.
      * by apply Hnn.
      * by apply interpolate_mono.
Qed.

Lemma module_percents_ascending w sz i key :
  (0 <= sz)%Q -> well_behaved (module_run w i key) ->
  ascending_within (py_int (slice_start sz i)) (py_int (slice_start sz (i + 1)))
    (module_percents w sz i key).
Proof.
  intros Hsz [Hsorted Hrange]. unfold module_percents.
  set (s := slice_start sz i). set (e := slice_start sz (i + 1)).
  assert (5 <= s)%Q as Hs5 by (by apply slice_start_ge).
  assert (0 <= s)%Q as Hs by lra.
  assert (s <= e)%Q as Hse.
  { subst s e. rewrite slice_start_succ. lra. }
  assert (py_int (interpolate s e 0) = py_int s) as E0.
  { apply py_int_comp; [|apply interpolate_0]. rewrite interpolate_0. done. }
  assert (py_int (interpolate s e 100) = py_int e) as E100.
  { apply py_int_comp; [|apply interpolate_100]. rewrite interpolate_100. lra. }
  assert (py_int s <= py_int e)%Z as Hle by (by apply py_int_mono).
  rewrite <- E0, <- E100 in *.
  set (ps := map fst (delivered_reports (module_run w i key))) in *.
  assert (ascending_within (py_int (interpolate s e 0)) (py_int (interpolate s e 100))
            (map (fun p => py_int (interpolate s e p)) ps)) as [Hsl B].
  { apply reports_ascending; [done|done| |done].
    apply Sorted.Sorted_StronglySorted; [|done]. intros x y z. apply Qle_trans. }
  split.
  - constructor.
    + apply StronglySorted_app_2; [|done|repeat constructor].
      intros x1 x2 H1 H2. apply list_elem_of_singleton in H2 as ->.
      rewrite Forall_forall in B. by destruct (B _ H1).
    + apply Forall_app. split.
      * eapply Forall_impl; [exact B|]. simpl. lia.
      * by repeat constructor.
  - constructor; [lia|]. apply Forall_app. split; [done|].
    repeat constructor; lia.
Qed.

Lemma run_modules_percents w sz i ms o :
  (0 <= sz)%Q ->
  (forall j key, ms !! j = Some key -> well_behaved (module_run w (i + j) key)) ->
  exists l,
    percents (run_modules w true sz i ms o) = percents o ++ l /\
    ascending_within (py_int (slice_start sz i))
                     (py_int (slice_start sz (i + length ms))) l.
Proof.
  intros Hsz. revert i o. induction ms as [|m ms IH]; intros i o Hwb.
  - exists []. simpl. rewrite app_nil_r, Nat.add_0_r. split; [done|].
    split; constructor.
  - destruct (IH (S i) (run_module w true sz i m o)) as (l & Hl & Hasc).
    { intros j key Hj. replace (S i + j)%nat with (i + S j)%nat by lia.
      by apply Hwb. }
    pose proof (module_percents_ascending w sz i m Hsz) as Hm.
    specialize (Hwb 0%nat m eq_refl). rewrite Nat.add_0_r in Hwb.
    specialize (Hm Hwb).
    replace (i + 1)%nat with (S i) in Hm by lia.
    replace (i + length (m :: ms))%nat with (S i + length ms)%nat by (simpl; lia).
    exists (module_percents w sz i m ++ l). split.
    + simpl. rewrite Hl, run_module_percents. by rewrite <- app_assoc.
    + destruct Hm as [Hsm Bm], Hasc as [Hsl Bl].
      assert (py_int (slice_start sz i) <= py_int (slice_start sz (S i)))%Z.
      { apply py_int_mono.
        - pose proof (slice_start_ge sz i Hsz). lra.
        - replace (S i) with (i + 1)%nat by lia. rewrite slice_start_succ. lra. }
      assert (py_int (slice_start sz (S i)) <=
              py_int (slice_start sz (S i + length ms)))%Z.
      { apply py_int_mono.
        - pose proof (slice_start_ge sz (S i) Hsz). lra.
        - unfold slice_start. apply Qplus_le_r. apply Qmult_le_compat_r; [|done].
          unfold Qle. simpl. lia. }
      by apply (ascending_within_app _ (py_int (slice_start sz (S i)))).
Qed.

Lemma range_size_nonneg n : (0 <= range_size n)%Q.
Proof.
  unfold range_size. destruct (Nat.ltb_spec 0 n) as [Hn|_]; [|apply Qle_refl].
  apply Qle_shift_div_l.
  - unfold Qlt. simpl. lia.
  - unfold MODULES_END, MODULES_START. rewrite Qmult_0_l. Qclosed.
Qed.

Lemma slice_start_first sz : py_int (slice_start sz 0) = 5%Z.
Proof.
  rewrite (py_int_comp _ 5); [done| |].
  - unfold slice_start, MODULES_START. simpl (inject_Z _). rewrite Qmult_0_l. Qclosed.
  - unfold slice_start, MODULES_START. simpl (inject_Z _). ring.
Qed.

Lemma slice_start_last n : (py_int (slice_start (range_size n) n) <= 95)%Z.
Proof.
  pose proof (slice_start_ge (range_size n) n (range_size_nonneg n)) as Hge.
  unfold range_size in *. destruct (Nat.ltb_spec 0 n) as [Hn|Hn].
  - rewrite (py_int_comp _ 95); [done|lra|].
    unfold slice_start, MODULES_START, MODULES_END. field.
    intros E. unfold Qeq in E. simpl in E. lia.
  - replace n with 0%nat by lia. by rewrite slice_start_first.
Qed.

Lemma run_scan_percents w target selected rules :
  (forall i key,
     modules_to_run selected !! i = Some key -> well_behaved (module_run w i key)) ->
  exists l,
    percents (run_scan w true (__init__ w target selected rules)) =
      [0; 5]%Z ++ l ++ [95; 100]%Z /\
    ascending_within 5 95 l.
Proof.
  intros Hwb. set (ms := modules_to_run selected) in *.
  unfold run_scan. cbn [selected_modules __init__]. fold ms.
  fold (range_size (length ms)).
  set (o1 := with_results_log (__init__ w target selected rules) _ _).
  destruct (run_modules_percents w (range_size (length ms)) 0 ms o1
              (range_size_nonneg _)) as (l & Hl & [Hsl Bl]).
  { intros j key Hj. by apply Hwb. }
  exists l. split.
  - unfold percents in *. cbn [progress_log with_results_log call_progress].
    rewrite !map_app, Hl. subst o1. simpl. by rewrite <- !app_assoc.
  - split; [done|]. rewrite slice_start_first in Bl.
    pose proof (slice_start_last (length ms)) as Hlast. simpl in Bl.
    eapply Forall_impl; [exact Bl|]. simpl. lia.
Qed.

(** C4. If every module of the run reports its own progress as a
    non-decreasing sequence in [0, 100], the percent values the callback
    receives during [run_scan] are non-decreasing, the first is 0 and the
    last is 100: for every selection, empty or not. *)
Theorem progress_non_decreasing w target selected rules :
  (forall i key,
     modules_to_run selected !! i = Some key -> well_behaved (module_run w i key)) ->
  let o := run_scan w true (__init__ w target selected rules) in
  StronglySorted Z.le (percents o) /\
  Sorted Z.le (percents o) /\
  head (percents o) = Some 0%Z /\
  last (percents o) = Some 100%Z.
Proof.
  intros Hwb o.
  destruct (run_scan_percents w target selected rules Hwb) as (l & Hl & [Hsl Bl]).
  fold o in Hl.
  assert (StronglySorted Z.le (percents o)) as Hsorted.
  { rewrite Hl. rewrite Forall_forall in Bl.
    apply StronglySorted_app_2; [| repeat constructor; lia |].
    - intros x1 x2 H1 H2.
      assert (x1 <= 5)%Z.
      { repeat (apply elem_of_cons in H1 as [->|H1]; [lia|]).
        by apply elem_of_nil in H1. }
      apply elem_of_app in H2 as [H2|H2]; [destruct (Bl _ H2); lia|].
      repeat (apply elem_of_cons in H2 as [->|H2]; [lia|]).
      by apply elem_of_nil in H2.
    - apply StronglySorted_app_2; [|done|repeat constructor; lia].
      intros x1 x2 H1 H2. destruct (Bl _ H1).
      repeat (apply elem_of_cons in H2 as [->|H2]; [lia|]).
      by apply elem_of_nil in H2. }
  split; [done|]. split; [by apply StronglySorted_Sorted|].
  rewrite Hl. split; [done|].
  rewrite app_assoc. change [95; 100]%Z with ([95] ++ [100])%Z.
  rewrite app_assoc. apply last_snoc.
Qed.

Lemma progress_non_decreasing_witness :
  let o := run_scan steady_world true
             (__init__ steady_world "example.org"
                "identity_infra,security_config,threat_intel" "") in
  StronglySorted Z.le (percents o) /\
  Sorted Z.le (percents o) /\
  head (percents o) = Some 0%Z /\
  last (percents o) = Some 100%Z.
Proof.
  apply (progress_non_decreasing steady_world "example.org"
           "identity_infra,security_config,threat_intel" "").
  intros i key _. split.
  - simpl. repeat constructor; Qclosed.
  - simpl. repeat constructor; Qclosed.
Defined.

End OrchestratorFacts.

(** ** Cache *)

(** A cache of strings stored as themselves. *)
Definition empty_string_cache : Cache.cache (V := string) (S := string) := Cache.__init__.

Section CacheFacts.
Import Cache.
Context {V S : Type}.
Variable dumps : V -> option S.
Variable loads : S -> option V.

Lemma gt_true a b : (b < a)%Q -> gt a b = true.
Proof.
  intros Hlt. unfold gt. destruct (Qle_bool a b) eqn:E; [|done].
  apply Qle_bool_iff in E. lra.
Qed.

Lemma gt_false a b : (a <= b)%Q -> gt a b = false.
Proof. intros Hle. unfold gt. apply Qle_bool_iff in Hle. by rewrite Hle. Qed.

(** [set] always writes the memory tier, with expiry [now + ttl]. *)
Lemma set_memory c k v ttl t0 ok :
  memory_cache (set dumps c k v ttl t0 ok).2 !! k =
  Some (MemEntry v (t0 + ttl)%Q (Some t0) 0).
Proof.
  unfold set. destruct ok; [destruct (dumps v)|]; simpl; apply lookup_insert_eq.
Qed.

(** When [set] returns [True] both tiers hold the entry. *)
Lemma set_success c k v ttl t0 ok :
  (set dumps c k v ttl t0 ok).1 = true ->
  exists text,
    (set dumps c k v ttl t0 ok).2 =
    {| memory_cache := <[k := MemEntry v (t0 + ttl)%Q (Some t0) 0]> (memory_cache c);
       db := <[k := Row text ttl t0 (t0 + ttl)%Q 0]> (db c) |}.
Proof.
  unfold set. destruct ok; [destruct (dumps v) as [text|]|]; simpl; try done.
  intros _. by exists text.
Qed.

Lemma set_rounded_exact c k v ttl t0 ok :
  set_rounded dumps Qplus c k v ttl t0 ok = set dumps c k v ttl t0 ok.
Proof. reflexivity. Qed.

Lemma set_rounded_memory add c k v ttl t0 ok :
  memory_cache (set_rounded dumps add c k v ttl t0 ok).2 !! k =
  Some (MemEntry v (add t0 ttl) (Some t0) 0).
Proof.
  unfold set_rounded. destruct ok; [destruct (dumps v)|]; simpl; apply lookup_insert_eq.
Qed.

Lemma set_rounded_success add c k v ttl t0 ok :
  (set_rounded dumps add c k v ttl t0 ok).1 = true ->
  exists text,
    (set_rounded dumps add c k v ttl t0 ok).2 =
    {| memory_cache := <[k := MemEntry v (add t0 ttl) (Some t0) 0]> (memory_cache c);
       db := <[k := Row text ttl t0 (add t0 ttl) 0]> (db c) |}.
Proof.
  unfold set_rounded. destruct ok; [destruct (dumps v) as [text|]|]; simpl; try done.
  intros _. by exists text.
Qed.

(** C5. After [set(k, v, ttl)] at time [t0], with [expires_at] the sum
    of [t0] and [ttl] as [set] computes and stores it (exact or rounded):
    a [get(k)] while the clock is below [expires_at] returns [v],
    whatever the state of the database and whatever [set] returned.
    After a [set] that returned True, a [get(k)] once the clock has
    reached [expires_at] returns None and removes [k] from the memory
    tier; when that [get] reaches the database it leaves [k] in neither
    tier, so the statistics are those of the cache without [k].  The
    condition on [set] is needed: see [expired_get_serves_older_row]. *)
Theorem set_get_expiry add c k v ttl t0 t1 ok0 ok1 :
  let stored := set_rounded dumps add c k v ttl t0 ok0 in
  let expires_at := add t0 ttl in
  let c1 := stored.2 in
  ((t1 < expires_at)%Q -> (get loads c1 k t1 ok1).1 = Some v) /\
  ((expires_at <= t1)%Q -> stored.1 = true ->
     ((get loads c1 k t1 ok1).1 = None /\
      memory_cache (get loads c1 k t1 ok1).2 !! k = None) /\
     let c2 := (get loads c1 k t1 true).2 in
     (get loads c1 k t1 true).1 = None /\
     memory_cache c2 !! k = None /\
     db c2 !! k = None /\
     c2 = delete_key c k true /\
     (forall t2 st, get_stats c2 t2 true = Some st ->
        total_entries st = size (delete k (db c)) /\
        memory_entries st = size (delete k (memory_cache c)))).
Proof.
  intros stored expires_at c1. split.
  - intros Hbefore. unfold get. subst c1 stored. rewrite set_rounded_memory.
    cbn [me_expires_at]. by rewrite gt_true.
  - intros Hafter Hok.
    destruct (set_rounded_success add c k v ttl t0 ok0 Hok) as [text Hset].
    assert (get loads c1 k t1 true = (None, delete_key c k true)) as Hget.
    { subst c1 stored. rewrite Hset. unfold get, get_db, delete_key. cbn [memory_cache db].
      rewrite lookup_insert_eq. cbn [me_expires_at].
      rewrite gt_false by done.
      rewrite lookup_insert_eq. cbn [r_expires_at].
      rewrite gt_false by done.
      by rewrite !delete_insert_eq. }
    split.
    { destruct ok1; [rewrite Hget; split; [done|apply lookup_delete_eq]|].
      subst c1 stored. rewrite Hset. unfold get, get_db. cbn [memory_cache db].
      rewrite lookup_insert_eq. cbn [me_expires_at].
      rewrite gt_false by done. cbn [fst snd memory_cache].
      split; [done|apply lookup_delete_eq]. }
    intros c2. subst c2. rewrite Hget. cbn [fst snd delete_key memory_cache db].
    split; [done|]. split; [apply lookup_delete_eq|]. split; [apply lookup_delete_eq|].
    split; [done|].
    intros t2 st. unfold get_stats. cbn [memory_cache db]. by intros [= <-].
Qed.

End CacheFacts.

Lemma set_get_expiry_witness :
  let c1 := (Cache.set Some empty_string_cache "scan:example.org" "clean" 60 1000 true).2 in
  (Cache.get Some c1 "scan:example.org" 1030 true).1 = Some "clean" /\
  (Cache.get Some c1 "scan:example.org" 1060 true).1 = None /\
  (Cache.get Some c1 "scan:example.org" 1060 true).2 =
    Cache.delete_key empty_string_cache "scan:example.org" true.
Proof.
  pose proof (set_get_expiry Some Some Qplus empty_string_cache "scan:example.org" "clean"
                60 1000 1030 true true) as Hearly.
  pose proof (set_get_expiry Some Some Qplus empty_string_cache "scan:example.org" "clean"
                60 1000 1060 true true) as Hlate.
  cbv zeta in Hearly, Hlate.
  destruct Hearly as [Hearly _]. destruct Hlate as [_ Hlate].
  split; [apply Hearly; Qclosed|].
  destruct Hlate as (_ & Hnone & _ & _ & Hstate & _); [Qclosed|reflexivity|].
  by split.
Defined.

(** A serialiser that refuses one value, as [json.dumps] refuses an
    object that is not JSON-serialisable. *)
Definition picky_dumps (v : string) : option string :=
  if String.eqb v "<object>" then None else Some v.

(** The claim without the condition on [set] does not hold.  A first
    [set] at time 0 stores "old" for 1000 s.  A second [set] at time 100,
    for 10 s, writes the memory tier and then fails to serialise its
    value: it returns False and the row of the first [set] stays.  At
    time 200, 100 s after the second [set], [get] finds the memory entry
    expired, then serves the older row; the statistics still count one
    entry. *)
Lemma expired_get_serves_older_row :
  let c0 := (Cache.set picky_dumps empty_string_cache "scan:example.org" "old" 1000 0 true).2 in
  let failed := Cache.set picky_dumps c0 "scan:example.org" "<object>" 10 100 true in
  failed.1 = false /\
  (10 <= 200 - 100)%Q /\
  (Cache.get Some failed.2 "scan:example.org" 200 true).1 = Some "old" /\
  exists st,
    Cache.get_stats (Cache.get Some failed.2 "scan:example.org" 200 true).2 200 true
      = Some st /\
    Cache.total_entries st = 1 /\ Cache.valid_entries st = 1.
Proof.
  cbv zeta. split; [reflexivity|]. split; [Qclosed|]. split; [reflexivity|].
  eexists. split; [reflexivity|]. split; reflexivity.
Qed.

(** ** Cache keys *)

(** A stand-in for [json.dumps] on a list of pairs of strings. *)
Definition render_items (items : list (string * string)) : string :=
  fold_right (fun kv acc => (kv.1 ++ "=" ++ kv.2 ++ ";" ++ acc)%string) "" items.

Section KeyFacts.
Import APICallCacher.
Context {V : Type}.
Variable json_dumps : list (string * V) -> string.
Variable value_lt : V -> V -> bool.
Variable md5_hexdigest : string -> string.

(** The order on the keys of the items. *)
Definition key_lt (a b : string * V) : Prop := str_lt a.1 b.1 = true.

Lemma str_lt_iff a b : str_lt a b = true <-> String_as_OT.lt a b.
Proof.
  unfold str_lt, String_as_OT.lt.
  destruct (String_as_OT.compare a b); split; congruence.
Qed.

Lemma str_lt_trans a b c : str_lt a b = true -> str_lt b c = true -> str_lt a c = true.
Proof.
  rewrite !str_lt_iff. intros Hab Hbc.
  by apply (StrictOrder_Transitive (R := String_as_OT.lt) a b c).
Qed.

Lemma str_lt_irrefl a : str_lt a a = false.
Proof.
  destruct (str_lt a a) eqn:E; [|done].
  apply str_lt_iff in E. by apply (StrictOrder_Irreflexive (R := String_as_OT.lt)) in E.
Qed.

Lemma str_lt_total a b : a <> b -> str_lt a b = false -> str_lt b a = true.
Proof.
  intros Hne Hab. apply str_lt_iff.
  destruct (String_as_OT.compare_spec b a) as [E|Hlt|Hgt]; [congruence|done|].
  apply str_lt_iff in Hgt. congruence.
Qed.

(** On items with different keys, [<] on the pairs is [<] on the keys. *)
Lemma item_lt_keys a b : a.1 <> b.1 -> item_lt value_lt a b = str_lt a.1 b.1.
Proof.
  intros Hne. unfold item_lt.
  destruct (String.eqb_spec a.1 b.1); [done|]. simpl. by rewrite orb_false_r.
Qed.

Lemma insert_item_Permutation x l : insert_item value_lt x l ≡ₚ x :: l.
Proof.
  induction l as [|y l IH]; simpl; [done|].
  destruct (item_lt value_lt y x); [|done].
  rewrite IH. apply perm_swap.
Qed.

Lemma sorted_Permutation l : sorted value_lt l ≡ₚ l.
Proof.
  induction l as [|x l IH]; simpl; [done|].
  by rewrite insert_item_Permutation, IH.
Qed.

Lemma insert_item_sorted x l :
  x.1 ∉ l.*1 -> StronglySorted key_lt l ->
  StronglySorted key_lt (insert_item value_lt x l).
Proof.
  intros Hx Hl. induction Hl as [|y l Hl IH Hy]; simpl.
  - repeat constructor.
  - apply not_elem_of_cons in Hx as [Hxy Hx].
    rewrite item_lt_keys by congruence.
    destruct (str_lt y.1 x.1) eqn:E.
    + constructor; [by apply IH|].
      rewrite insert_item_Permutation. constructor; [done|done].
    + assert (key_lt x y) as Hlt by (by apply str_lt_total).
      constructor; [by constructor|].
      constructor; [done|].
      eapply Forall_impl; [exact Hy|]. intros z Hz. unfold key_lt in *.
      by eapply str_lt_trans.
Qed.

Lemma sorted_sorted l :
  NoDup l.*1 -> StronglySorted key_lt (sorted value_lt l).
Proof.
  induction l as [|x l IH]; simpl; intros Hnd; [constructor|].
  apply NoDup_cons in Hnd as [Hx Hnd].
  apply insert_item_sorted; [|by apply IH].
  by rewrite sorted_Permutation.
Qed.

(** [sorted] of a dict's items depends on the mapping only. *)
Lemma sorted_order_independent p1 p2 :
  NoDup p1.*1 -> NoDup p2.*1 -> p1 ≡ₚ p2 ->
  sorted value_lt p1 = sorted value_lt p2.
Proof.
  intros H1 H2 HP.
  apply (StronglySorted_unique_strong key_lt).
  - intros a b _ _ Hab Hba. unfold key_lt in *.
    pose proof (str_lt_trans _ _ _ Hab Hba) as Haa.
    rewrite str_lt_irrefl in Haa. done.
  - by apply sorted_sorted.
  - by apply sorted_sorted.
  - by rewrite !sorted_Permutation.
Qed.

(** C6. Two parameter dicts with the same key-value mapping, whatever
    their insertion orders, give the same cache key for the same URL and
    method. *)
Theorem cache_key_order_independent url method (p1 p2 : list (string * V)) :
  NoDup p1.*1 -> NoDup p2.*1 ->
  (list_to_map p1 : gmap string V) = list_to_map p2 ->
  _generate_cache_key json_dumps value_lt md5_hexdigest url (Some p1) method =
  _generate_cache_key json_dumps value_lt md5_hexdigest url (Some p2) method.
Proof.
  intros H1 H2 Hmap.
  pose proof (list_to_map_inj p1 p2 H1 H2 Hmap) as HP.
  pose proof (sorted_order_independent p1 p2 H1 H2 HP) as Hsorted.
  unfold _generate_cache_key.
  destruct p1 as [|x1 p1], p2 as [|x2 p2].
  - done.
  - by apply Permutation_nil_cons in HP.
  - symmetry in HP. by apply Permutation_nil_cons in HP.
  - by rewrite Hsorted.
Qed.

End KeyFacts.

Lemma cache_key_order_independent_witness :
  APICallCacher._generate_cache_key render_items String.ltb id
    "https://api.example.org/lookup" (Some [("a", "1"); ("b", "2")]) "GET" =
  APICallCacher._generate_cache_key render_items String.ltb id
    "https://api.example.org/lookup" (Some [("b", "2"); ("a", "1")]) "GET".
Proof.
  apply (cache_key_order_independent render_items String.ltb id).
  - apply (bool_decide_unpack _). by vm_compute.
  - apply (bool_decide_unpack _). by vm_compute.
  - apply list_to_map_proper.
    + apply (bool_decide_unpack _). by vm_compute.
    + apply perm_swap.
Defined.

(** * Further properties *)

(** ** Risk engine: the report *)

Section RiskReportFacts.
Import PyStr PyDict RiskEngine.

(** The findings list after [_extract_findings]. *)
Definition extracted (scan_results : dict value) : list tagged :=
  extract_items scan_results [].

(** The findings of category [c], in extraction order. *)
Definition in_category (c : owasp) (l : list tagged) : list tagged :=
  filter (fun f => category_of f = c) l.

(** A finding the report can quote: it has the two keys that
    [_get_owasp_mapping] subscripts. *)
Definition quotable (f : tagged) : Prop :=
  is_Some (title (raw f)) /\ is_Some (severity (raw f)).

#[local] Instance quotable_dec f : Decision (quotable f).
Proof. unfold quotable. apply _. Defined.

Lemma calculate_risk_fields sr r :
  calculate_risk sr = Some r ->
  _get_owasp_mapping (analysed sr) = Some (owasp_report r) /\
  recommendations r = _get_recommendations (analysed sr).
Proof.
  unfold calculate_risk. fold (analysed sr).
  destruct (_get_owasp_mapping (analysed sr)); simpl; [|done].
  by intros [= <-].
Qed.

Lemma findings_list_analysed sr : findings_list (analysed sr) = extracted sr.
Proof. done. Qed.

Lemma summarise_is_Some f : is_Some (summarise f) <-> quotable f.
Proof.
  unfold summarise, quotable.
  destruct (title (raw f)), (severity (raw f)); simpl; split;
    intros H; try (by destruct H as [? [=]]); try (by destruct H as [[? [=]] ?]);
    try (by destruct H as [? [? [=]]]); eauto.
Qed.

Lemma mapped_of_is_Some sr c :
  is_Some (mapped_of (analysed sr) c) <->
  Forall quotable (take 3 (in_category c (extracted sr))).
Proof.
  unfold mapped_of. rewrite owasp_mapping_analysed. cbv zeta. cbn [b_findings b_count].
  fold (extracted sr). fold (in_category c (extracted sr)).
  set (l := take 3 (in_category c (extracted sr))).
  assert (is_Some (mapM summarise l) <-> Forall quotable l) as <-.
  { rewrite mapM_is_Some. split; intros H; (eapply Forall_impl; [exact H|]);
      intros f; apply summarise_is_Some. }
  destruct (mapM summarise l); simpl; split; intros H; eauto; by destruct H.
Qed.

(** X1: the [KeyError] of [_get_owasp_mapping].  On results of the data
    model (findings are dicts whose fields, where present, are strings)
    [calculate_risk] raises exactly when one of the first three findings
    of some category lacks the "title" or the "severity" key: these are
    the only places where a key of a finding is read without a default,
    and findings further down a category are never subscripted. *)
Theorem calculate_risk_raises_iff sr :
  calculate_risk sr = None <->
  exists c f, f ∈ take 3 (in_category c (extracted sr)) /\ ~ quotable f.
Proof.
  assert (is_Some (calculate_risk sr) <->
          forall c, Forall quotable (take 3 (in_category c (extracted sr)))) as Hiff.
  { unfold calculate_risk. fold (analysed sr).
    assert (is_Some (_get_owasp_mapping (analysed sr)) <->
            forall c, Forall quotable (take 3 (in_category c (extracted sr)))) as H.
    { unfold _get_owasp_mapping. rewrite mapM_is_Some, Forall_forall. split.
      - intros H c. apply mapped_of_is_Some, H. unfold all_codes. destruct c; set_solver.
      - intros H c _. by apply mapped_of_is_Some. }
    rewrite <- H. destruct (_get_owasp_mapping (analysed sr)); simpl; split;
      intros H'; eauto; by destruct H'. }
  split.
  - intros Hnone.
    destruct (decide (Forall (fun c => Forall quotable (take 3 (in_category c (extracted sr))))
                             all_codes)) as [Hall|Hnot].
    + assert (is_Some (calculate_risk sr)) as [r Hr]; [|congruence].
      apply Hiff. intros c. rewrite Forall_forall in Hall. apply Hall.
      unfold all_codes. destruct c; set_solver.
    + apply not_Forall_Exists in Hnot; [|apply _].
      apply Exists_exists in Hnot as (c & _ & Hc). simpl in Hc.
      apply not_Forall_Exists in Hc; [|apply _].
      apply Exists_exists in Hc as (f & Hf & Hq). by exists c, f.
  - intros (c & f & Hf & Hq).
    destruct (calculate_risk sr) as [r|]; [|done].
    exfalso. apply Hq.
    pose proof (proj1 Hiff (mk_is_Some _ _ eq_refl) c) as Hall.
    rewrite Forall_forall in Hall. by apply Hall.
Qed.

Lemma Forall2_map_eq {A B C} (f : A -> C) (g : B -> C) l k :
  Forall2 (fun x y => g y = f x) l k -> map g k = map f l.
Proof. induction 1 as [|x y l k E _ IH]; simpl; [done|]. by rewrite E, IH. Qed.

Lemma mapM_length {A B} (f : A -> option B) l k :
  mapM f l = Some k -> length k = length l.
Proof. intros H. apply mapM_Some in H. symmetry. by eapply Forall2_length. Qed.

Lemma mapped_of_Some sr c y :
  mapped_of (analysed sr) c = Some y ->
  y.1 = c /\
  mc_name y.2 = OWASP_CATEGORIES c /\
  mc_count y.2 = length (in_category c (extracted sr)) /\
  mapM summarise (take 3 (in_category c (extracted sr))) = Some (mc_findings y.2).
Proof.
  unfold mapped_of. rewrite owasp_mapping_analysed. cbv zeta. cbn [b_findings b_count].
  fold (extracted sr). fold (in_category c (extracted sr)).
  destruct (mapM summarise (take 3 (in_category c (extracted sr)))) as [fs|]; simpl; [|done].
  by intros [= <-].
Qed.

(** X2: the shape of the category report.  A returned report lists the
    ten categories in their fixed order, each with its name and the number
    of findings assigned to it; it quotes the first three findings of the
    category (title, severity and module, in extraction order) and no
    more; the ten counts add up to the number of findings in the
    results. *)
Theorem owasp_report_shape sr r :
  calculate_risk sr = Some r ->
  map fst (owasp_report r) = all_codes /\
  Forall (fun cm =>
            mc_name cm.2 = OWASP_CATEGORIES cm.1 /\
            mc_count cm.2 = length (in_category cm.1 (extracted sr)) /\
            length (mc_findings cm.2) = Nat.min 3 (mc_count cm.2) /\
            map (fun q => (Some (mf_title q), Some (mf_severity q), mf_module q))
                (mc_findings cm.2) =
              map (fun f => (title (raw f), severity (raw f), module f))
                  (take 3 (in_category cm.1 (extracted sr))))
         (owasp_report r) /\
  list_sum (map (fun cm => mc_count cm.2) (owasp_report r)) =
    length (contained_findings sr).
Proof.
  intros Hr. destruct (calculate_risk_fields sr r Hr) as [Hmap _].
  unfold _get_owasp_mapping in Hmap. apply mapM_Some in Hmap.
  assert (Forall2 (fun c y => y.1 = c /\
                     mc_name y.2 = OWASP_CATEGORIES c /\
                     mc_count y.2 = length (in_category c (extracted sr)) /\
                     mapM summarise (take 3 (in_category c (extracted sr))) =
                       Some (mc_findings y.2))
                  all_codes (owasp_report r)) as H2.
  { eapply Forall2_impl; [exact Hmap|]. intros c y. apply mapped_of_Some. }
  clear Hmap. split; [|split].
  - rewrite <- (map_id all_codes). apply Forall2_map_eq.
    eapply Forall2_impl; [exact H2|]. by intros c y [-> _].
  - apply Forall_forall. intros y Hy.
    apply list_elem_of_lookup in Hy as [i Hi].
    destruct (Forall2_lookup_r _ _ _ _ _ H2 Hi) as (c & _ & <- & Hname & Hcount & Hquote).
    split; [done|]. split; [done|]. split.
    + rewrite (mapM_length _ _ _ Hquote), Hcount, length_take. lia.
    + apply mapM_Some in Hquote. apply Forall2_map_eq.
      eapply Forall2_impl; [exact Hquote|]. intros f q. unfold summarise.
      destruct (title (raw f)), (severity (raw f)); simpl; try done.
      by intros [= <-].
  - rewrite <- extract_items_raw, length_map.
    rewrite <- (category_counts_add_up (extract_items sr [])).
    f_equal. apply Forall2_map_eq.
    eapply Forall2_impl; [exact H2|]. by intros c y (_ & _ & -> & _).
Qed.

Lemma owasp_report_shape_witness :
  exists r, calculate_risk three_stubs = Some r /\
    map fst (owasp_report r) = all_codes /\
    list_sum (map (fun cm => mc_count cm.2) (owasp_report r)) = 4.
Proof.
  eexists. split; [reflexivity|].
  destruct (owasp_report_shape three_stubs _ eq_refl) as (Hcodes & _ & Hsum).
  split; [exact Hcodes | exact Hsum].
Defined.

(** *** Recommendations *)

Lemma map_const {A B} (c : B) (l : list A) : map (fun _ => c) l = replicate (length l) c.
Proof. induction l as [|x l IH]; simpl; [done|]. by rewrite IH. Qed.

Lemma severity_lower_default f s :
  s <> "" -> s <> "info" ->
  (severity_lower "" f = s <-> normalized f = s).
Proof.
  intros H1 H2. unfold normalized, severity_lower.
  destruct (severity f); cbn [default]; [done|].
  change (lower "") with "". change (lower "info") with "info".
  split; intros E; congruence.
Qed.

Lemma recommended_count s l :
  s <> "" -> s <> "info" ->
  length (filter (fun f => severity_lower "" (raw f) = s) l) =
  count_severity s (map (fun f => normalized (raw f)) l).
Proof.
  intros H1 H2. unfold count_severity.
  induction l as [|f l IH]; [done|]. cbn [map]. rewrite !filter_cons.
  destruct (decide (severity_lower "" (raw f) = s)) as [E|E].
  - rewrite decide_True by (by apply severity_lower_default). simpl. by rewrite IH.
  - rewrite decide_False; [done|]. intros E'. apply E. by apply severity_lower_default.
Qed.

(** X3: recommendations.  A returned report recommends the critical
    findings first and the high ones after them, at most five of each (so
    at most ten entries), and their numbers are those of the severity
    breakdown cut at five. *)
Theorem recommendations_follow_breakdown sr r :
  calculate_risk sr = Some r ->
  exists n_critical n_high,
    dict_get "critical" (severity_breakdown r) = Some n_critical /\
    dict_get "high" (severity_breakdown r) = Some n_high /\
    map priority (recommendations r) =
      replicate (Nat.min 5 n_critical) "CRITICAL" ++ replicate (Nat.min 5 n_high) "HIGH" /\
    length (recommendations r) <= 10.
Proof.
  intros Hr.
  destruct (calculate_risk_Some sr r Hr) as (_ & Hb & _).
  destruct (calculate_risk_fields sr r Hr) as [_ Hrec].
  rewrite breakdown_analysed in Hb. cbv zeta in Hb.
  set (sevs := map normalized (contained_findings sr)) in *.
  exists (count_severity "critical" sevs), (count_severity "high" sevs).
  assert (map priority (recommendations r) =
          replicate (Nat.min 5 (count_severity "critical" sevs)) "CRITICAL" ++
          replicate (Nat.min 5 (count_severity "high" sevs)) "HIGH") as Hprio.
  { rewrite Hrec. unfold _get_recommendations. rewrite findings_list_analysed.
    rewrite map_app, !map_map. cbn [priority]. rewrite !map_const, !length_take.
    rewrite !recommended_count by done. unfold extracted.
    by rewrite extract_items_normalized. }
  split; [by rewrite Hb|]. split; [by rewrite Hb|]. split; [done|].
  rewrite <- (length_map priority), Hprio, length_app, !length_replicate. lia.
Qed.

Lemma recommendations_follow_breakdown_witness :
  exists r, calculate_risk three_stubs = Some r /\
    map priority (recommendations r) = ["CRITICAL"; "HIGH"; "HIGH"].
Proof.
  eexists. split; [reflexivity|].
  destruct (recommendations_follow_breakdown three_stubs _ eq_refl)
    as (nc & nh & Hc & Hh & Hprio & _).
  injection Hc as <-. injection Hh as <-. exact Hprio.
Defined.

(** *** What the report depends on *)

Lemma extract_items_app_items l1 l2 acc :
  extract_items (l1 ++ l2) acc = extract_items l2 (extract_items l1 acc).
Proof.
  revert acc. induction l1 as [|[k v] l1 IH]; intros acc; simpl; [done|].
  destruct (String.eqb k "metadata"); [apply IH|].
  destruct (findings_of v); apply IH.
Qed.

Lemma calculate_risk_ext sr sr' :
  extract_items sr [] = extract_items sr' [] -> calculate_risk sr = calculate_risk sr'.
Proof.
  intros E. unfold calculate_risk, _get_owasp_mapping, mapped_of, _get_risk_level,
    _get_severity_breakdown, _get_recommendations, _calculate_overall_score,
    _categorize_by_owasp, _extract_findings, __init__.
  cbn [findings_list risk_summary owasp_mapping scan_results]. by rewrite E.
Qed.

(** X4: entries that carry no findings.  The "metadata" entry, whatever
    it holds, and every entry that is no dict, has no "findings" key or
    has an empty findings list, can be removed from the results without
    changing what [calculate_risk] returns or whether it raises. *)
Theorem entries_without_findings_ignored l1 k v l2 :
  k = "metadata" \/ findings_of v = None \/ findings_of v = Some [] ->
  calculate_risk (l1 ++ (k, v) :: l2) = calculate_risk (l1 ++ l2).
Proof.
  intros H. apply calculate_risk_ext. rewrite !extract_items_app_items.
  cbn [extract_items].
  destruct H as [->|[E|E]].
  - done.
  - rewrite E. by destruct (String.eqb k "metadata").
  - rewrite E. destruct (String.eqb k "metadata"); [done|].
    cbn [map]. by rewrite app_nil_r.
Qed.

Lemma entries_without_findings_ignored_witness :
  calculate_risk three_stubs =
  calculate_risk
    [tech_stack_entry;
     ("identity_infra", module_result [sample_finding "Default admin password" "critical"]);
     ("security_config", module_result [sample_finding "Missing headers" "high";
                                        sample_finding "Debug mode enabled" "high"]);
     ("web_app_risk", module_result [sample_finding "Open redirect" "medium"])].
Proof.
  apply (entries_without_findings_ignored
           [tech_stack_entry;
            ("identity_infra", module_result [sample_finding "Default admin password" "critical"]);
            ("security_config", module_result [sample_finding "Missing headers" "high";
                                               sample_finding "Debug mode enabled" "high"]);
            ("web_app_risk", module_result [sample_finding "Open redirect" "medium"])]
           "metadata" (Meta (Metadata "example.org" 0 1 ["tech_stack"] 0)) []).
  left. reflexivity.
Defined.

(** The findings of [three_stubs], regrouped and reordered. *)
Definition three_stubs_shuffled : dict value :=
  [("web_app_risk", module_result [sample_finding "Open redirect" "medium";
                                   sample_finding "Missing headers" "HIGH"]);
   ("identity_infra", module_result [sample_finding "Debug mode enabled" "high";
                                     sample_finding "Default admin password" "Critical"])].

Section ScoreRoundingFacts.
Import Floats.

(** One critical, eight high and five info findings, critical first and
    info first. *)
Definition critical_first : list string :=
  "critical" :: replicate 8 "high" ++ replicate 5 "info".

Definition info_first : list string :=
  replicate 5 "info" ++ "critical" :: replicate 8 "high".

(** X5: what depends on the order of the findings.  Two results whose
    findings have the same (lower-cased) severities up to order,
    whichever modules they come from, get the same severity breakdown.
    The score and the risk level are not so: the weighted sum is added
    up in binary64 in the order of the findings, and the same fourteen
    severities score exactly 4.0 (Medium) with the info findings first
    and less than 4.0 (Low) with the critical finding first. *)
Theorem breakdown_order_independent_score_not sr sr' r r' :
  map normalized (contained_findings sr) ≡ₚ map normalized (contained_findings sr') ->
  calculate_risk sr = Some r -> calculate_risk sr' = Some r' ->
  severity_breakdown r = severity_breakdown r' /\
  (critical_first ≡ₚ info_first /\
   Binary64.overall_score info_first = 4%float /\
   PrimFloat.ltb (Binary64.overall_score critical_first) 4%float = true /\
   Binary64._get_risk_level (Binary64.overall_score info_first) = "Medium" /\
   Binary64._get_risk_level (Binary64.overall_score critical_first) = "Low").
Proof.
  intros HP Hr Hr'.
  destruct (calculate_risk_Some sr r Hr) as (_ & Hb & _).
  destruct (calculate_risk_Some sr' r' Hr') as (_ & Hb' & _).
  split.
  - rewrite Hb, Hb', !breakdown_analysed. cbv zeta.
    by rewrite !(count_severity_Permutation _ _ _ HP).
  - split; [|by vm_compute].
    unfold critical_first, info_first.
    by rewrite (Permutation_app_comm (replicate 5 "info")).
Qed.

(** The severities whose weighted score is a small multiple of 0.5. *)
Definition exactly_summed : list string := ["critical"; "high"; "medium"; "low"].

Definition same_score_up_to (bound : nat) (s : string) : bool :=
  forallb (fun n => PrimFloat.Leibniz.eqb
                      (Binary64.overall_score (replicate n s))
                      (Binary64.py_min (Binary64.weighted s / 1.25) 10))
          (seq 1 bound).

Lemma same_score_checked : forallb (same_score_up_to 1000) exactly_summed = true.
Proof. vm_compute. reflexivity. Qed.

(** X6: the score is an average, up to rounding.  When all findings have
    the same severity critical, high, medium or low, the binary64 score
    is that severity's weighted score divided by 1.25 and capped at 10,
    whatever the number of findings (checked for 1 to 1000): these sums
    are exact.  For info, whose score 0.1 is no binary fraction, it is
    not: three info findings score more than one does. *)
Theorem same_severity_score_binary64 s n :
  s ∈ exactly_summed -> 1 <= n <= 1000 ->
  Binary64.overall_score (replicate n s) =
    Binary64.py_min (Binary64.weighted s / 1.25) 10 /\
  PrimFloat.ltb (Binary64.overall_score ["info"])
                (Binary64.overall_score (replicate 3 "info")) = true.
Proof.
  intros Hs Hn. split; [|by vm_compute].
  pose proof same_score_checked as Hall.
  rewrite forallb_forall in Hall.
  specialize (Hall s (proj1 (list_elem_of_In _ _) Hs)).
  unfold same_score_up_to in Hall. rewrite forallb_forall in Hall.
  apply FloatAxioms.Leibniz.eqb_spec. apply Hall. apply in_seq. lia.
Qed.

Lemma breakdown_order_independent_score_not_witness :
  exists r r', calculate_risk three_stubs = Some r /\
    calculate_risk three_stubs_shuffled = Some r' /\
    severity_breakdown r = severity_breakdown r'.
Proof.
  eexists. eexists. split; [reflexivity|]. split; [reflexivity|].
  apply (breakdown_order_independent_score_not three_stubs three_stubs_shuffled).
  - vm_compute. apply (Permutation_rev ["critical"; "high"; "high"; "medium"]).
  - reflexivity.
  - reflexivity.
Defined.

Lemma same_severity_score_binary64_witness :
  Binary64.overall_score (replicate 100 "high") =
  Binary64.py_min (Binary64.weighted "high" / 1.25) 10.
Proof.
  apply (same_severity_score_binary64 "high" 100).
  - apply (bool_decide_unpack _). by vm_compute.
  - lia.
Defined.

End ScoreRoundingFacts.

End RiskReportFacts.

(** ** Orchestrator: the views of one run *)

Section OrchestratorViewFacts.
Import PyStr PyDict Orchestrator OrchestratorFindings RiskEngine.

(** The findings of a results mapping with their module keys, in order;
    the "metadata" entry is skipped. *)
Definition listed_findings (items : dict value) : list listed :=
  flat_map (fun '(module_key, module_result) =>
              if String.eqb module_key "metadata" then []
              else map (Listed module_key) (default [] (findings_of module_result)))
           items.

(** The listed findings of severity [s]. *)
Definition of_severity (s : string) (l : list listed) : list listed :=
  filter (fun x => normalized (l_finding x) = s) l.

(** An entry on which [.get] can be called, or the skipped one. *)
Definition gettable (kv : string * value) : Prop :=
  kv.1 = "metadata" \/ kv.2 <> NotADict.

#[local] Instance value_eq_NotADict_dec (v : value) : Decision (v = NotADict).
Proof. destruct v; [left|right|right]; done. Defined.

#[local] Instance gettable_dec kv : Decision (gettable kv).
Proof. unfold gettable. apply _. Defined.

Lemma count_severity_map {A} (g : A -> string) s (l : list A) :
  length (filter (fun x => g x = s) l) = count_severity s (map g l).
Proof.
  unfold count_severity. induction l as [|x l IH]; [done|].
  cbn [map]. rewrite !filter_cons. destruct (decide (g x = s)); simpl; by rewrite IH.
Qed.

Lemma listed_findings_findings items :
  map l_finding (listed_findings items) = contained_findings items.
Proof.
  unfold listed_findings, contained_findings.
  induction items as [|[k v] items IH]; [done|]. cbn [flat_map].
  rewrite map_app, IH. f_equal. destruct (String.eqb k "metadata"); [done|].
  rewrite map_map. apply map_id.
Qed.

Lemma list_finding_five k a b c d e f :
  list_finding k [("critical", a); ("high", b); ("medium", c); ("low", d); ("info", e)] f =
  [("critical", a ++ of_severity "critical" [Listed k f]);
   ("high", b ++ of_severity "high" [Listed k f]);
   ("medium", c ++ of_severity "medium" [Listed k f]);
   ("low", d ++ of_severity "low" [Listed k f]);
   ("info", e ++ of_severity "info" [Listed k f])].
Proof.
  unfold list_finding, of_severity. rewrite !filter_cons, !filter_nil. cbn [l_finding].
  unfold normalized, severity_lower.
  generalize (lower (default "info" (severity f))) as s. intros s.
  cbn [dict_get dict_set].
  destruct (String.eqb_spec "critical" s) as [<-|?].
  { eqb_closed. rewrite decide_True by done.
    rewrite !decide_False by done. by rewrite !app_nil_r. }
  destruct (String.eqb_spec "high" s) as [<-|?].
  { cbn [dict_set]. eqb_closed. rewrite (decide_True (P := "high" = "high")) by done.
    rewrite !decide_False by done. by rewrite !app_nil_r. }
  destruct (String.eqb_spec "medium" s) as [<-|?].
  { cbn [dict_set]. eqb_closed. rewrite (decide_True (P := "medium" = "medium")) by done.
    rewrite !decide_False by done. by rewrite !app_nil_r. }
  destruct (String.eqb_spec "low" s) as [<-|?].
  { cbn [dict_set]. eqb_closed. rewrite (decide_True (P := "low" = "low")) by done.
    rewrite !decide_False by done. by rewrite !app_nil_r. }
  destruct (String.eqb_spec "info" s) as [<-|?].
  { cbn [dict_set]. eqb_closed. rewrite (decide_True (P := "info" = "info")) by done.
    rewrite !decide_False by done. by rewrite !app_nil_r. }
  rewrite !decide_False by congruence. by rewrite !app_nil_r.
Qed.

Lemma of_severity_app s l1 l2 : of_severity s (l1 ++ l2) = of_severity s l1 ++ of_severity s l2.
Proof. apply filter_app. Qed.

Lemma list_findings_five k fs a b c d e :
  fold_left (list_finding k) fs
    [("critical", a); ("high", b); ("medium", c); ("low", d); ("info", e)] =
  let l := map (Listed k) fs in
  [("critical", a ++ of_severity "critical" l);
   ("high", b ++ of_severity "high" l);
   ("medium", c ++ of_severity "medium" l);
   ("low", d ++ of_severity "low" l);
   ("info", e ++ of_severity "info" l)].
Proof.
  revert a b c d e. induction fs as [|f fs IH]; intros a b c d e.
  - simpl. unfold of_severity. rewrite !filter_nil. by rewrite !app_nil_r.
  - cbn [fold_left]. rewrite list_finding_five, IH. cbv zeta. cbn [map].
    change (Listed k f :: map (Listed k) fs) with ([Listed k f] ++ map (Listed k) fs).
    by rewrite !of_severity_app, !app_assoc.
Qed.

Lemma list_items_five items a b c d e :
  Forall gettable items ->
  list_items items [("critical", a); ("high", b); ("medium", c); ("low", d); ("info", e)] =
  let l := listed_findings items in
  Some [("critical", a ++ of_severity "critical" l);
        ("high", b ++ of_severity "high" l);
        ("medium", c ++ of_severity "medium" l);
        ("low", d ++ of_severity "low" l);
        ("info", e ++ of_severity "info" l)].
Proof.
  intros Hall. revert a b c d e.
  induction Hall as [|[k v] items Hkv _ IH]; intros a b c d e.
  - simpl. unfold of_severity. rewrite !filter_nil. by rewrite !app_nil_r.
  - cbn [list_items listed_findings flat_map]. fold (listed_findings items).
    destruct (String.eqb_spec k "metadata") as [->|Hk].
    + rewrite IH. done.
    + assert (v <> NotADict) as Hv by (by destruct Hkv).
      assert (list_items ((k, v) :: items)
                [("critical", a); ("high", b); ("medium", c); ("low", d); ("info", e)] =
              list_items items
                (fold_left (list_finding k) (default [] (findings_of v))
                   [("critical", a); ("high", b); ("medium", c); ("low", d); ("info", e)]))
        as Hstep.
      { cbn [list_items]. destruct (String.eqb_spec k "metadata"); [done|].
        by destruct v. }
      cbn [list_items] in Hstep. destruct (String.eqb_spec k "metadata"); [done|].
      rewrite Hstep, list_findings_five. cbv zeta. rewrite IH. cbv zeta.
      by rewrite !of_severity_app, !app_assoc.
Qed.

Lemma list_items_None items acc :
  list_items items acc = None <-> Exists (fun kv => ~ gettable kv) items.
Proof.
  revert acc. induction items as [|[k v] items IH]; intros acc.
  - simpl. split; [done|]. by intros H%Exists_nil.
  - rewrite Exists_cons. cbn [list_items]. unfold gettable at 1. cbn [fst snd].
    destruct (String.eqb_spec k "metadata") as [->|Hk].
    + rewrite IH. split; [by right|]. intros [H|H]; [|done]. exfalso. apply H. by left.
    + destruct v.
      * split; [|done]. intros _. left. intros [?|?]; done.
      * rewrite IH. split; [by right|]. intros [H|H]; [|done]. exfalso. apply H. by right.
      * rewrite IH. split; [by right|]. intros [H|H]; [|done]. exfalso. apply H. by right.
Qed.


(** X8: the by-severity view and the risk engine agree.  When
    [get_findings_by_severity] returns, each of its five lists holds, in
    order and with their module keys, the findings of that (lower-cased)
    severity, findings of unknown severity being in none; the lengths of
    the lists are the severity breakdown that [calculate_risk] returns
    for the same results. *)
Theorem findings_by_severity_agree_with_breakdown o d :
  get_findings_by_severity o = Some d ->
  d = map (fun s => (s, of_severity s (listed_findings (results o)))) buckets /\
  (forall r, calculate_risk (results o) = Some r ->
     map (fun sl => (sl.1, length sl.2)) d = severity_breakdown r).
Proof.
  intros Hd. unfold get_findings_by_severity in Hd.
  assert (Forall gettable (results o)) as Hall.
  { destruct (decide (Forall gettable (results o))) as [H|H]; [done|].
    apply not_Forall_Exists in H; [|apply _].
    apply (list_items_None _ empty_by_severity) in H. congruence. }
  unfold empty_by_severity in Hd. rewrite (list_items_five _ _ _ _ _ _ Hall) in Hd.
  cbv zeta in Hd. injection Hd as <-. split; [done|].
  intros r Hr. destruct (calculate_risk_Some _ r Hr) as (_ & -> & _).
  rewrite breakdown_analysed. cbv zeta. cbn [map fst snd app].
  unfold of_severity. rewrite !count_severity_map.
  by rewrite <- listed_findings_findings, map_map.
Qed.

(** A run in which the first module returns a critical finding and one of
    unknown severity, and every other module a high one. *)
Definition reporting_world : world :=
  {| tech_run := inl "unreachable";
     module_run := fun index _ =>
       Execution false []
         (inr (match index with
               | O => module_result [sample_finding "Default admin password" "Critical";
                                     sample_finding "Listed on a blocklist" "severe"]
               | _ => module_result [sample_finding "Missing headers" "high"]
               end));
     time_start := 0; time_end := 1 |}.

Definition reporting_run : orchestrator :=
  run_scan reporting_world false
    (Orchestrator.__init__ reporting_world "example.org" "identity_infra,security_config" "").

Lemma findings_by_severity_agree_with_breakdown_witness :
  exists d r, get_findings_by_severity reporting_run = Some d /\
    calculate_risk (results reporting_run) = Some r /\
    map (fun sl => (sl.1, length sl.2)) d = severity_breakdown r /\
    severity_breakdown r =
      [("critical", 1); ("high", 1); ("medium", 0); ("low", 0); ("info", 0)].
Proof.
  eexists. eexists. split; [reflexivity|]. split; [reflexivity|]. split; [|reflexivity].
  apply (proj2 (findings_by_severity_agree_with_breakdown reporting_run _ eq_refl)).
  reflexivity.
Defined.

(** *** Bookkeeping entries *)

Lemma dict_set_fresh {V} k (v : V) d : k ∉ keys d -> dict_set k v d = d ++ [(k, v)].
Proof.
  unfold keys. induction d as [|[k' v'] d IH]; simpl; intros Hk; [done|].
  apply not_elem_of_cons in Hk as [Hne Hk].
  destruct (String.eqb_spec k' k); [congruence|]. by rewrite IH.
Qed.

Lemma dict_set_keys_within {V} (P : string -> Prop) k (v : V) d :
  P k -> Forall P (keys d) -> Forall P (keys (dict_set k v d)).
Proof.
  intros Hk Hd. apply Forall_forall. intros x Hx.
  apply keys_dict_set_elem in Hx as [->|Hx]; [done|].
  rewrite Forall_forall in Hd. by apply Hd.
Qed.

Lemma run_modules_results_shape w cb sz i ms o first rest :
  Forall (fun m => m ∈ module_map) ms ->
  first.1 ∉ module_map ->
  results o = first :: rest -> Forall (fun m => m ∈ module_map) (keys rest) ->
  exists rest',
    results (run_modules w cb sz i ms o) = first :: rest' /\
    Forall (fun m => m ∈ module_map) (keys rest').
Proof.
  intros Hms Hfirst. revert i o rest.
  induction Hms as [|m ms Hm _ IH]; intros i o rest Hres Hrest; [by exists rest|].
  cbn [run_modules].
  apply (IH (S i) _ (dict_set m (stored_result (module_run w i m)) rest)).
  - unfold run_module. cbn [results]. rewrite Hres. destruct first as [k0 v0].
    cbn [dict_set]. destruct (String.eqb_spec k0 m) as [->|_]; [done|done].
  - by apply dict_set_keys_within.
Qed.

Lemma contained_findings_count items :
  "metadata" ∉ keys items ->
  length (contained_findings items) = list_sum (map findings_count (values items)).
Proof.
  unfold keys, values, contained_findings, findings_count.
  induction items as [|[k v] items IH]; simpl; intros Hk; [done|].
  apply not_elem_of_cons in Hk as [Hne Hk].
  destruct (String.eqb_spec k "metadata"); [congruence|].
  rewrite length_app, IH by done. done.
Qed.

Lemma contained_findings_app l1 l2 :
  contained_findings (l1 ++ l2) = contained_findings l1 ++ contained_findings l2.
Proof. unfold contained_findings. apply flat_map_app. Qed.

Lemma contained_findings_metadata l v :
  contained_findings (l ++ [("metadata", v)]) = contained_findings l.
Proof.
  rewrite contained_findings_app.
  assert (contained_findings [("metadata", v)] = []) as -> by done.
  apply app_nil_r.
Qed.

Lemma run_modules_target w cb sz i ms o :
  Orchestrator.target (run_modules w cb sz i ms o) = Orchestrator.target o.
Proof. revert i o. induction ms as [|m ms IH]; intros i o; simpl; [done|]. by rewrite IH. Qed.

(** X9: the two bookkeeping entries.  The mapping [run_scan] returns
    starts with "tech_stack", holding the raw result of the technology
    detection or, when that raised, {error: message, technologies: []};
    it ends with "metadata"; between them are module ids only.  The
    metadata lists the other keys in order as modules_executed, and its
    total_findings is the number of findings [calculate_risk] extracts
    from the returned mapping. *)
Theorem run_scan_bookkeeping w has_callback target selected rules :
  let o := run_scan w has_callback (Orchestrator.__init__ w target selected rules) in
  exists rest m,
    results o =
      ("tech_stack",
       match tech_run w with
       | inr r => r
       | inl msg => Dict {| status := None; error := Some msg;
                            findings := None; technologies := Some [] |}
       end) :: rest ++ [("metadata", Meta m)] /\
    Forall (fun key => key ∈ module_map) (keys rest) /\
    md_target m = target /\
    md_modules_executed m = "tech_stack" :: keys rest /\
    md_total_findings m = length (contained_findings (results o)).
Proof.
  intros o. subst o. unfold run_scan.
  cbn [selected_modules Orchestrator.__init__ results progress_log dict_set].
  set (tech := match tech_run w with inr r => r | inl msg => _ end).
  set (o1 := with_results_log _ [("tech_stack", tech)] _).
  set (sz := if (0 <? length (modules_to_run selected))%nat then _ else _).
  destruct (run_modules_results_shape w has_callback sz 0 (modules_to_run selected) o1
              ("tech_stack", tech) []) as (rest & Hres & Hrest).
  - apply modules_to_run_valid.
  - cbn [fst]. intros H. by destruct (module_map_not_reserved _ H).
  - done.
  - constructor.
  - set (o2 := run_modules w has_callback sz 0 (modules_to_run selected) o1) in *.
    assert ("metadata" ∉ keys (results o2)) as Hfresh.
    { rewrite Hres. unfold keys. cbn [map fst]. apply not_elem_of_cons. split; [done|].
      intros Hin. rewrite Forall_forall in Hrest.
      by destruct (module_map_not_reserved _ (Hrest _ Hin)). }
    eexists rest, _. cbn [with_results_log results].
    rewrite (dict_set_fresh _ _ _ Hfresh), Hres. split; [reflexivity|].
    split; [done|]. cbn [md_target md_modules_executed md_total_findings].
    split; [subst o2; by rewrite run_modules_target|]. split; [done|].
    rewrite contained_findings_metadata. symmetry. apply contained_findings_count.
    by rewrite <- Hres.
Qed.

(** *** The selection *)

(** A string without a comma. *)
Definition comma_free (m : string) : Prop := split_on "," m = [m].

Lemma split_on_cons sep c t :
  split_on sep (String c t) =
  if Ascii.eqb c sep then EmptyString :: split_on sep t
  else match split_on sep t with
       | [] => [String c EmptyString]
       | piece :: pieces => String c piece :: pieces
       end.
Proof. done. Qed.

Lemma split_on_piece m rest :
  comma_free m -> split_on "," (m ++ String "," rest) = m :: split_on "," rest.
Proof.
  unfold comma_free. induction m as [|c t IH]; intros Hm; [done|].
  change (String c t ++ String "," rest)%string with (String c (t ++ String "," rest)).
  rewrite split_on_cons in Hm. rewrite split_on_cons.
  destruct (Ascii.eqb c ","); [discriminate|].
  destruct (split_on "," t) as [|p ps] eqn:E.
  - injection Hm as <-. discriminate.
  - injection Hm as -> ->. by rewrite IH.
Qed.

Lemma split_on_concat l :
  Forall comma_free l -> l <> [] -> split_on "," (String.concat "," l) = l.
Proof.
  induction 1 as [|m l Hm Hl IH]; intros Hne; [done|].
  destruct l as [|m' l]; [exact Hm|].
  change (String.concat "," (m :: m' :: l))
    with (m ++ String "," (String.concat "," (m' :: l)))%string.
  rewrite split_on_piece by done. by rewrite IH.
Qed.

Lemma module_id_plain m :
  m ∈ module_map -> m <> "" /\ comma_free m /\ strip m = m /\ in_module_map m = true.
Proof.
  unfold module_map. intros Hm.
  repeat (apply elem_of_cons in Hm as [->|Hm]; [by vm_compute|]).
  by apply elem_of_nil in Hm.
Qed.

(** X10: the selection filter.  [run_scan] never runs a module whose id
    is not a key of [module_map]; and a selection written as known ids
    joined by commas is run as given, in order and with repetitions. *)
Theorem modules_to_run_filters selected l :
  Forall (fun m => m ∈ module_map) (modules_to_run selected) /\
  (Forall (fun m => m ∈ module_map) l -> modules_to_run (String.concat "," l) = l).
Proof.
  split; [apply modules_to_run_valid|]. intros Hl.
  destruct l as [|m l]; [done|].
  assert (Forall comma_free (m :: l)) as Hcf.
  { eapply Forall_impl; [exact Hl|]. intros x Hx. by destruct (module_id_plain x Hx) as (_ & ? & _). }
  unfold modules_to_run.
  assert (String.concat "," (m :: l) <> "") as Hne.
  { apply Forall_cons in Hl as [Hm _]. destruct (module_id_plain m Hm) as (Hm0 & _).
    destruct l; simpl; [done|]. destruct m; [done|discriminate]. }
  destruct (String.concat "," (m :: l)) eqn:E; [done|]. rewrite <- E.
  rewrite split_on_concat by done. clear E Hne Hcf.
  induction Hl as [|x xs Hx _ IH]; [done|].
  destruct (module_id_plain x Hx) as (_ & _ & Hstrip & Hin).
  cbn [List.filter]. rewrite Hstrip, Hin. cbn [map]. by rewrite Hstrip, IH.
Qed.

Lemma modules_to_run_filters_witness :
  Forall (fun m => m ∈ module_map)
         (modules_to_run " behavioral ,nmap,, threat_intel,behavioral") /\
  modules_to_run "web_app_risk,identity_infra,web_app_risk" =
    ["web_app_risk"; "identity_infra"; "web_app_risk"].
Proof.
  split.
  - apply (proj1 (modules_to_run_filters " behavioral ,nmap,, threat_intel,behavioral" [])).
  - apply (proj2 (modules_to_run_filters "" ["web_app_risk"; "identity_infra"; "web_app_risk"])).
    repeat constructor.
Defined.

(** X11: a run without modules.  When the selection names no known module
    (it is empty, or all its ids are unknown) [run_scan] still detects the
    technology and returns "tech_stack" and "metadata" only; no module is
    started, and a callback receives 0, 5, 95 and 100. *)
Theorem run_scan_without_modules w has_callback target selected rules :
  modules_to_run selected = [] ->
  let o := run_scan w has_callback (Orchestrator.__init__ w target selected rules) in
  keys (results o) = ["tech_stack"; "metadata"] /\
  executed o = [] /\
  progress_log o =
    (if has_callback
     then [(0%Z, "Detecting Tech Stack"); (5%Z, "Tech Stack Detected");
           (95%Z, "Finalizing results..."); (100%Z, "Scan Complete")]
     else []).
Proof.
  intros Hnone o. subst o. unfold run_scan.
  cbn [selected_modules Orchestrator.__init__]. rewrite Hnone.
  by destruct has_callback.
Qed.

Lemma run_scan_without_modules_witness :
  let o := run_scan failing_world true
             (Orchestrator.__init__ failing_world "example.org" "nmap, ,sqlmap" "") in
  keys (results o) = ["tech_stack"; "metadata"] /\
  executed o = [] /\
  progress_log o =
    [(0%Z, "Detecting Tech Stack"); (5%Z, "Tech Stack Detected");
     (95%Z, "Finalizing results..."); (100%Z, "Scan Complete")].
Proof.
  apply (run_scan_without_modules failing_world true "example.org" "nmap, ,sqlmap" "").
  reflexivity.
Defined.

End OrchestratorViewFacts.

(** ** Cache: the other operations *)

Section CacheOperationFacts.
Import Cache.
Context {V S : Type}.
Variable dumps : V -> option S.
Variable loads : S -> option V.

(** What [get] returns for a key, given the key's memory entry and
    database row. *)
Definition served (entry : option (mem_entry (V := V))) (r : option (row (S := S)))
    (t : Q) (db_ok : bool) : option V :=
  let from_db :=
    if db_ok then
      match r with
      | Some r => if gt (r_expires_at r) t then loads (r_data r) else None
      | None => None
      end
    else None in
  match entry with
  | Some e => if gt (me_expires_at e) t then Some (me_data e) else from_db
  | None => from_db
  end.

Lemma get_db_value memory database k t ok :
  (get_db loads memory database k t ok).1 = served None (database !! k) t ok.
Proof.
  unfold get_db, served. destruct ok; [|done].
  destruct (database !! k) as [r|]; [|done].
  destruct (gt (r_expires_at r) t); [|done]. by destruct (loads (r_data r)).
Qed.

Lemma get_served c k t ok :
  (get loads c k t ok).1 = served (memory_cache c !! k) (db c !! k) t ok.
Proof.
  unfold get. destruct (memory_cache c !! k) as [e|].
  - unfold served. destruct (gt (me_expires_at e) t); [done|]. by rewrite get_db_value.
  - by rewrite get_db_value.
Qed.

Lemma gt_spec a b : gt a b = true <-> (b < a)%Q.
Proof.
  split; [|apply gt_true]. unfold gt. intros H.
  destruct (Qlt_le_dec b a) as [|Hle]; [done|].
  apply Qle_bool_iff in Hle. rewrite Hle in H. discriminate.
Qed.

(** X12: [get] never serves an expired value.  Whatever the cache holds,
    a value returned at time [t] is the data of a memory entry, or the
    decoded text of a database row, whose expiry lies after [t]. *)
Theorem get_serves_unexpired c k t ok v :
  (get loads c k t ok).1 = Some v ->
  (exists e, memory_cache c !! k = Some e /\ me_data e = v /\ (t < me_expires_at e)%Q) \/
  (exists r, db c !! k = Some r /\ loads (r_data r) = Some v /\ (t < r_expires_at r)%Q).
Proof.
  rewrite get_served. unfold served. intros H.
  assert ((if ok then
             match db c !! k with
             | Some r => if gt (r_expires_at r) t then loads (r_data r) else None
             | None => None
             end
           else None) = Some v ->
          exists r, db c !! k = Some r /\ loads (r_data r) = Some v /\ (t < r_expires_at r)%Q)
    as Hdb.
  { destruct ok; [|done]. destruct (db c !! k) as [r|]; [|done].
    destruct (gt (r_expires_at r) t) eqn:E; [|done].
    intros Hl. exists r. split; [done|]. split; [done|]. by apply gt_spec. }
  destruct (memory_cache c !! k) as [e|]; [|right; by apply Hdb].
  destruct (gt (me_expires_at e) t) eqn:E; [|right; by apply Hdb].
  left. exists e. injection H as <-. split; [done|]. split; [done|]. by apply gt_spec.
Qed.

(** X13: keys do not interfere.  [set] and [delete] of one key leave what
    [get] returns for every other key as it was. *)
Theorem other_keys_untouched c k k' v ttl t0 t ok ok' :
  k <> k' ->
  (get loads (set dumps c k v ttl t0 ok).2 k' t ok').1 = (get loads c k' t ok').1 /\
  (get loads (delete_key c k ok) k' t ok').1 = (get loads c k' t ok').1.
Proof.
  intros Hne. rewrite !get_served. split.
  - unfold set. destruct ok; [destruct (dumps v)|]; cbn [snd memory_cache db];
      by rewrite ?lookup_insert_ne by done.
  - unfold delete_key. cbn [memory_cache db]. rewrite lookup_delete_ne by done.
    destruct ok; by rewrite ?lookup_delete_ne by done.
Qed.

(** X14: a later [set] replaces an earlier one.  When [set] returns True,
    the cache it leaves is the one it would have left had no earlier [set]
    of that key taken place: value, expiry and both hit counts are
    those of the later call. *)
Theorem set_replaces c k v1 ttl1 t1 ok1 v2 ttl2 t2 ok2 :
  (set dumps c k v2 ttl2 t2 ok2).1 = true ->
  set dumps (set dumps c k v1 ttl1 t1 ok1).2 k v2 ttl2 t2 ok2 =
  set dumps c k v2 ttl2 t2 ok2.
Proof.
  intros Hok. unfold set in *.
  destruct ok2; [|discriminate]. destruct (dumps v2) as [text2|]; [|discriminate].
  destruct ok1; [destruct (dumps v1)|]; cbn [snd memory_cache db];
    by rewrite ?insert_insert_eq.
Qed.

(** X15: a hit in memory does not reach the database.  A [get] answered
    from the memory tier leaves the database as it was, so [get_stats]
    reports the same figures before and after it: total_hits counts
    only the reads that the database answered. *)
Theorem memory_hit_leaves_stats c k t ok e :
  memory_cache c !! k = Some e -> (t < me_expires_at e)%Q ->
  (get loads c k t ok).1 = Some (me_data e) /\
  db (get loads c k t ok).2 = db c /\
  memory_cache (get loads c k t ok).2 !! k =
    Some (MemEntry (me_data e) (me_expires_at e) (me_created_at e) (me_hit_count e + 1)) /\
  (forall t' ok', get_stats (get loads c k t ok).2 t' ok' = get_stats c t' ok').
Proof.
  intros He Hlt. unfold get. rewrite He, gt_true by done. cbn [fst snd memory_cache db].
  split; [done|]. split; [done|]. split; [apply lookup_insert_eq|].
  intros t' ok'. unfold get_stats. cbn [memory_cache db].
  by rewrite map_size_insert_Some.
Qed.


(** X17: [delete].  After a [delete] that reached the database every
    [get] of the key returns None and changes nothing.  When the database
    could not be reached the row stays, [delete] reports nothing, and a
    later [get] serves the row again if it has not expired. *)
Theorem delete_then_get c k t ok :
  get loads (delete_key c k true) k t ok = (None, delete_key c k true) /\
  (forall r v, db c !! k = Some r -> (t < r_expires_at r)%Q ->
     loads (r_data r) = Some v ->
     (get loads (delete_key c k false) k t true).1 = Some v).
Proof.
  split.
  - unfold get, get_db, delete_key. cbn [memory_cache db].
    rewrite !lookup_delete_eq. by destruct ok.
  - intros r v Hr Hlt Hl. rewrite get_served. unfold delete_key. cbn [memory_cache db].
    rewrite lookup_delete_eq, Hr. unfold served. by rewrite gt_true.
Qed.

(** X18: [clear].  After a [clear] that reached the database every [get]
    returns None and the statistics are all zero. *)
Theorem clear_empties c k t t' ok :
  (get loads (clear c true) k t ok).1 = None /\
  get_stats (clear c true) t' true =
    Some {| total_entries := 0; valid_entries := 0; expired_entries := 0;
            total_hits := 0; memory_entries := 0 |}.
Proof.
  split.
  - rewrite get_served. unfold clear. cbn [memory_cache db].
    rewrite !lookup_empty. unfold served. by destruct ok.
  - unfold get_stats, clear. cbn [memory_cache db].
    by rewrite map_filter_empty, !map_size_empty, map_fold_empty.
Qed.

Lemma served_sweep_entry e r t t' ok :
  (t <= t')%Q -> gt (me_expires_at e) t = false ->
  served (Some e) r t' ok = served None r t' ok.
Proof.
  intros Hle He. unfold served.
  assert (gt (me_expires_at e) t' = false) as ->; [|done].
  destruct (gt (me_expires_at e) t') eqn:E; [|done].
  apply gt_spec in E. rewrite gt_true in He by lra. discriminate.
Qed.

Lemma served_sweep_row e r t t' ok :
  (t <= t')%Q -> gt (r_expires_at r) t = false ->
  served e (Some r) t' ok = served e None t' ok.
Proof.
  intros Hle Hr. unfold served.
  assert (gt (r_expires_at r) t' = false) as ->; [|by destruct ok].
  destruct (gt (r_expires_at r) t') eqn:E; [|done].
  apply gt_spec in E. rewrite gt_true in Hr by lra. discriminate.
Qed.

(** X19: the sweep is invisible to readers.  [cleanup_expired] run at
    time [t] removes the entries expired by then, from memory and, when
    it reaches it, from the database; no [get] at [t] or later returns
    anything else than it would have returned without the sweep.  After
    a sweep that reached the database the statistics taken at [t] show no
    expired entry. *)
Theorem cleanup_expired_invisible c t ok :
  (forall k t' ok', (t <= t')%Q ->
     (get loads (cleanup_expired c t ok) k t' ok').1 = (get loads c k t' ok').1) /\
  (forall k e, memory_cache (cleanup_expired c t ok) !! k = Some e ->
     (t < me_expires_at e)%Q) /\
  (forall st, get_stats (cleanup_expired c t true) t true = Some st ->
     expired_entries st = 0%Z /\ valid_entries st = total_entries st).
Proof.
  split; [|split].
  - intros k t' ok' Hle. rewrite !get_served. unfold cleanup_expired.
    cbn [memory_cache db].
    assert (forall database : gmap string row, forall e,
              served e
                ((if ok then filter (fun kv => gt (r_expires_at kv.2) t = true) database
                  else database) !! k) t' ok' =
              served e (database !! k) t' ok') as Hdb.
    { intros database e. destruct ok; [|done]. rewrite map_lookup_filter.
      destruct (database !! k) as [r|]; [|done]. cbn.
      destruct (gt (r_expires_at r) t) eqn:E.
      - by rewrite option_guard_True.
      - rewrite option_guard_False by (cbn; congruence). cbn.
        symmetry. by apply (served_sweep_row _ _ t). }
    rewrite Hdb. rewrite map_lookup_filter.
    destruct (memory_cache c !! k) as [e|]; [|done]. cbn.
    destruct (gt (me_expires_at e) t) eqn:E.
    + by rewrite option_guard_True.
    + rewrite option_guard_False by (cbn; congruence). cbn.
      symmetry. by apply (served_sweep_entry _ _ t).
  - intros k e He. unfold cleanup_expired in He. cbn [memory_cache] in He.
    apply map_lookup_filter_Some in He as [_ He]. by apply gt_spec.
  - intros st. unfold get_stats, cleanup_expired. cbn [memory_cache db].
    set (kept := filter _ (db c)).
    assert (filter (fun kv : string * row => gt (r_expires_at kv.2) t = true) kept = kept)
      as ->.
    { apply map_filter_id. intros i x Hx.
      by apply map_lookup_filter_Some in Hx as [_ Hx]. }
    intros [= <-]. cbn [expired_entries valid_entries total_entries].
    split; [lia|done].
Qed.

End CacheOperationFacts.

(** A cache of strings holding one entry, set at time 1000 for 60 s. *)
Definition warm_string_cache : Cache.cache (V := string) (S := string) :=
  (Cache.set Some empty_string_cache "scan:example.org" "clean" 60 1000 true).2.

Lemma get_serves_unexpired_witness :
  (exists e, Cache.memory_cache warm_string_cache !! "scan:example.org" = Some e /\
             Cache.me_data e = "clean" /\ (1030 < Cache.me_expires_at e)%Q) \/
  (exists r, Cache.db warm_string_cache !! "scan:example.org" = Some r /\
             Some (Cache.r_data r) = Some "clean" /\ (1030 < Cache.r_expires_at r)%Q).
Proof.
  apply (get_serves_unexpired Some warm_string_cache "scan:example.org" 1030 true "clean").
  reflexivity.
Defined.

Lemma other_keys_untouched_witness :
  (Cache.get Some (Cache.set Some warm_string_cache "scan:other.org" "dirty" 60 1010 true).2
     "scan:example.org" 1030 true).1 =
  (Cache.get Some warm_string_cache "scan:example.org" 1030 true).1 /\
  (Cache.get Some (Cache.delete_key warm_string_cache "scan:other.org" true)
     "scan:example.org" 1030 true).1 =
  (Cache.get Some warm_string_cache "scan:example.org" 1030 true).1.
Proof.
  apply (other_keys_untouched Some Some warm_string_cache "scan:other.org"
           "scan:example.org" "dirty" 60 1010 1030 true true).
  discriminate.
Defined.

Lemma set_replaces_witness :
  Cache.set Some warm_string_cache "scan:example.org" "dirty" 30 1010 true =
  Cache.set Some empty_string_cache "scan:example.org" "dirty" 30 1010 true.
Proof.
  apply (set_replaces Some empty_string_cache "scan:example.org" "clean" 60 1000 true
           "dirty" 30 1010 true).
  reflexivity.
Defined.

Lemma memory_hit_leaves_stats_witness :
  (Cache.get Some warm_string_cache "scan:example.org" 1030 false).1 = Some "clean" /\
  Cache.db (Cache.get Some warm_string_cache "scan:example.org" 1030 false).2 =
    Cache.db warm_string_cache.
Proof.
  destruct (memory_hit_leaves_stats Some warm_string_cache "scan:example.org" 1030 false
              (Cache.MemEntry "clean" (1000 + 60)%Q (Some 1000%Q) 0))
    as (Hv & Hdb & _).
  - apply lookup_insert_eq.
  - Qclosed.
  - split; [exact Hv | exact Hdb].
Defined.


Lemma delete_then_get_witness :
  Cache.get Some (Cache.delete_key warm_string_cache "scan:example.org" true)
    "scan:example.org" 1030 true =
    (None, Cache.delete_key warm_string_cache "scan:example.org" true) /\
  (Cache.get Some (Cache.delete_key warm_string_cache "scan:example.org" false)
     "scan:example.org" 1030 true).1 = Some "clean".
Proof.
  destruct (delete_then_get Some warm_string_cache "scan:example.org" 1030 true)
    as [Hgone Hback].
  split; [exact Hgone|].
  apply (Hback (Cache.Row "clean" 60 1000 (1000 + 60)%Q 0) "clean").
  - apply lookup_insert_eq.
  - Qclosed.
  - reflexivity.
Defined.

Lemma cleanup_expired_invisible_witness :
  (Cache.get Some (Cache.cleanup_expired warm_string_cache 1100 true)
     "scan:example.org" 1100 true).1 =
  (Cache.get Some warm_string_cache "scan:example.org" 1100 true).1.
Proof.
  apply (proj1 (cleanup_expired_invisible Some warm_string_cache 1100 true)).
  Qclosed.
Defined.

(** ** The stand-alone scanner (core/scanner.py) *)

Section WebScannerFacts.
Import PyStr PyDict WebSecurityScanner.

(** The five severity names of the report. *)
Definition severity_names : list string := ["critical"; "high"; "medium"; "low"; "info"].

(** The finding carries one of the five names, spelled as in the report. *)
Definition known_severity (f : finding) : bool :=
  existsb (fun name => has_severity name f) severity_names.

(** The findings of the stored module results, in the order of the dict. *)
Definition stored_findings (results : dict result_dict) : list finding :=
  flat_map (fun kv => default [] (findings kv.2)) results.

(** The results of the futures that returned, in completion order. *)
Definition returned (completed : list (string * option result_dict)) : dict result_dict :=
  omap (fun c => pair c.1 <$> c.2) completed.

Definition counted (fs : list finding) : nat :=
  length (with_severity "critical" fs) + length (with_severity "high" fs) +
  length (with_severity "medium" fs) + length (with_severity "low" fs) +
  length (with_severity "info" fs).

Lemma counted_cons f fs :
  counted (f :: fs) = (if known_severity f then 1 else 0) + counted fs.
Proof.
  unfold counted, with_severity, known_severity, has_severity. cbn [List.filter existsb severity_names].
  destruct (severity f) as [s|]; [|cbn; lia].
  destruct (String.eqb_spec s "critical") as [->|]; [cbn; lia|].
  destruct (String.eqb_spec s "high") as [->|]; [cbn; lia|].
  destruct (String.eqb_spec s "medium") as [->|]; [cbn; lia|].
  destruct (String.eqb_spec s "low") as [->|]; [cbn; lia|].
  destruct (String.eqb_spec s "info") as [->|]; cbn; lia.
Qed.

Lemma counted_le fs : counted fs <= length fs.
Proof.
  induction fs as [|f fs IH]; [done|]. rewrite counted_cons. cbn [length].
  destruct (known_severity f); lia.
Qed.

Lemma counted_all fs : counted fs = length fs <-> Forall (fun f => known_severity f = true) fs.
Proof.
  induction fs as [|f fs IH]; [by split|]. rewrite counted_cons. cbn [length].
  pose proof (counted_le fs). rewrite Forall_cons. destruct (known_severity f).
  - rewrite <- IH. split; [intros; split; [done|lia] | intros [_ ?]; lia].
  - split; [lia | intros [? _]; discriminate].
Qed.

Lemma consolidate_fold (rs : dict result_dict) acc :
  fold_left (fun acc kv => match findings kv.2 with
                           | Some fs => acc ++ fs
                           | None => acc
                           end) rs acc = acc ++ stored_findings rs.
Proof.
  revert acc. induction rs as [|[k r] rs IH]; intros acc; cbn [fold_left stored_findings flat_map].
  - by rewrite app_nil_r.
  - rewrite IH. unfold stored_findings. cbn [snd].
    destruct (findings r); cbn [default]; by rewrite <- ?app_assoc.
Qed.

Lemma collect_fresh completed acc :
  NoDup (map fst completed) ->
  (forall k, k ∈ map fst completed -> k ∉ keys acc) ->
  collect completed acc = acc ++ returned completed.
Proof.
  unfold collect, returned.
  revert acc. induction completed as [|[k [r|]] cs IH]; intros acc Hnd Hfresh;
    cbn [fold_left omap map fst snd] in *.
  - by rewrite app_nil_r.
  - apply NoDup_cons in Hnd as [Hk Hnd].
    rewrite IH; [|done|].
    + rewrite dict_set_fresh by (apply Hfresh; left). cbn. by rewrite <- app_assoc.
    + intros k' Hk'. rewrite dict_set_fresh by (apply Hfresh; left).
      unfold keys. rewrite map_app. cbn. rewrite elem_of_app, list_elem_of_singleton.
      intros [Hin| ->]; [|done]. by apply (Hfresh k'); [right|].
  - apply NoDup_cons in Hnd as [Hk Hnd]. cbn. apply IH; [done|].
    intros k' Hk'. apply Hfresh. by right.
Qed.

Lemma scan_fields s w :
  exists r, (scan s w).1 = Some r /\
    modules r = collect (completed w) (results s) /\
    results (scan s w).2 = collect (completed w) (results s) /\
    total_findings (scan s w).2 =
      total_findings s ++ stored_findings (collect (completed w) (results s)) /\
    ss_total_findings (summary r) = length (total_findings (scan s w).2) /\
    ss_critical (summary r) = length (with_severity "critical" (total_findings (scan s w).2)) /\
    ss_high (summary r) = length (with_severity "high" (total_findings (scan s w).2)) /\
    ss_medium (summary r) = length (with_severity "medium" (total_findings (scan s w).2)) /\
    ss_low (summary r) = length (with_severity "low" (total_findings (scan s w).2)) /\
    ss_info (summary r) = length (with_severity "info" (total_findings (scan s w).2)) /\
    ss_risk_score (summary r) =
      _calculate_risk_score (with_severity "critical" (total_findings (scan s w).2))
        (with_severity "high" (total_findings (scan s w).2))
        (with_severity "medium" (total_findings (scan s w).2)) /\
    recommendations r =
      _generate_recommendations (with_severity "critical" (total_findings (scan s w).2))
        (with_severity "high" (total_findings (scan s w).2)).
Proof.
  unfold scan, _generate_final_report, _consolidate_findings.
  cbn [fst snd end_time start_time total_findings results target].
  eexists. split; [reflexivity|]. cbn [modules summary recommendations ss_total_findings
    ss_critical ss_high ss_medium ss_low ss_info ss_risk_score].
  rewrite consolidate_fold. by repeat split.
Qed.

Lemma risk_score_le critical high medium : _calculate_risk_score critical high medium <= 100.
Proof. unfold _calculate_risk_score. lia. Qed.

Lemma recommendations_by_length c h c' h' :
  length c = length c' -> length h = length h' ->
  _generate_recommendations c h = _generate_recommendations c' h'.
Proof.
  unfold _generate_recommendations.
  destruct c, c', h, h'; cbn [length]; intros [=] [=]; congruence.
Qed.

Lemma with_severity_Permutation name fs fs' :
  Permutation fs fs' -> length (with_severity name fs) = length (with_severity name fs').
Proof.
  intros Hp. unfold with_severity.
  induction Hp; cbn [List.filter]; repeat case_match; cbn [length]; congruence.
Qed.

Lemma returned_Permutation c c' : Permutation c c' -> Permutation (returned c) (returned c').
Proof.
  unfold returned.
  induction 1 as [|[k [r|]] c c' _ IH|[k [r|]] [k' [r'|]] c|c c' c'' _ IH1 _ IH2];
    cbn; try done; try by constructor.
  by etrans.
Qed.

Lemma stored_findings_Permutation rs rs' :
  Permutation rs rs' -> Permutation (stored_findings rs) (stored_findings rs').
Proof.
  unfold stored_findings.
  induction 1 as [|x rs rs' _ IH|x y rs|rs rs' rs'' _ IH1 _ IH2]; cbn [flat_map].
  - done.
  - by apply Permutation_app_head.
  - rewrite !app_assoc. apply Permutation_app_tail, Permutation_app_comm.
  - by etrans.
Qed.

Lemma scan_fresh target w :
  NoDup (map fst (completed w)) ->
  results (scan (__init__ target) w).2 = returned (completed w) /\
  total_findings (scan (__init__ target) w).2 = stored_findings (returned (completed w)).
Proof.
  intros Hnd. destruct (scan_fields (__init__ target) w) as (r & _ & _ & -> & -> & _).
  cbn [results total_findings __init__].
  rewrite collect_fresh; [done|done|]. intros k _. cbn. apply not_elem_of_nil.
Qed.

Lemma NoDup_fst_functional {A B} (l : list (A * B)) k a b :
  NoDup (map fst l) -> (k, a) ∈ l -> (k, b) ∈ l -> a = b.
Proof.
  induction l as [|[k' x] l IH]; cbn [map fst]; intros Hnd Ha Hb.
  { by apply elem_of_nil in Ha. }
  apply NoDup_cons in Hnd as [Hk Hnd].
  apply elem_of_cons in Ha as [Ha|Ha]; apply elem_of_cons in Hb as [Hb|Hb]; simplify_eq.
  - done.
  - destruct Hk. by apply (list_elem_of_fmap_2 fst) in Hb.
  - destruct Hk. by apply (list_elem_of_fmap_2 fst) in Ha.
  - by apply IH.
Qed.

Lemma returned_get_None k cs :
  (forall r, (k, Some r) ∉ cs) -> dict_get k (returned cs) = None.
Proof.
  unfold returned. induction cs as [|[k' [r'|]] cs IH]; intros Hk; cbn; [done| |].
  - destruct (String.eqb_spec k' k) as [->|]; [by destruct (Hk r'); left|].
    apply IH. intros r Hin. apply (Hk r). by right.
  - apply IH. intros r Hin. apply (Hk r). by right.
Qed.

Lemma returned_get_Some k r cs :
  NoDup (map fst cs) -> (k, Some r) ∈ cs -> dict_get k (returned cs) = Some r.
Proof.
  unfold returned. induction cs as [|[k' o] cs IH]; cbn [map fst]; intros Hnd Hin.
  { by apply elem_of_nil in Hin. }
  apply NoDup_cons in Hnd as [Hk Hnd].
  apply elem_of_cons in Hin as [[= <- <-]|Hin]; cbn.
  { by rewrite String.eqb_refl. }
  destruct o as [x|]; cbn; [|by apply IH].
  destruct (String.eqb_spec k' k) as [->|]; [|by apply IH].
  destruct Hk. by apply (list_elem_of_fmap_2 fst) in Hin.
Qed.

(** X20: the summary of the stand-alone scanner's report.  The five
    severity counts never exceed "total_findings", and they add up to it
    exactly when every finding carries one of the five names spelled in
    lower case; a finding with a missing, differently spelled ("High") or
    unknown severity is in the total and in no count.  The risk score is
    at most 100 and is 100 as soon as there are ten critical findings. *)
Theorem final_report_counts s r :
  _generate_final_report s = Some r ->
  let sm := summary r in
  ss_total_findings sm = length (total_findings s) /\
  ss_critical sm + ss_high sm + ss_medium sm + ss_low sm + ss_info sm
    <= ss_total_findings sm /\
  (ss_critical sm + ss_high sm + ss_medium sm + ss_low sm + ss_info sm
     = ss_total_findings sm <->
   Forall (fun f => known_severity f = true) (total_findings s)) /\
  ss_risk_score sm <= 100 /\
  (10 <= ss_critical sm -> ss_risk_score sm = 100).
Proof.
  unfold _generate_final_report. destruct (end_time s), (start_time s); try discriminate.
  intros [= <-]. cbn [summary ss_total_findings ss_critical ss_high ss_medium ss_low
    ss_info ss_risk_score].
  split; [done|]. split; [apply counted_le|]. split; [apply counted_all|].
  split; [apply risk_score_le|]. unfold _calculate_risk_score. lia.
Qed.

(** X21: [scan] isolates a failing module.  When [scan] of a new
    scanner returns its report (the module results being dicts of the
    data model), the report's "modules" holds exactly the results of the
    futures that returned, in completion order; a future that raised
    leaves no entry and no finding, and "total_findings" is the number of
    findings of the stored results. *)
Theorem scan_reports_returned_modules target w r :
  NoDup (map fst (completed w)) ->
  (scan (__init__ target) w).1 = Some r ->
  modules r = returned (completed w) /\
  (forall name, (name, None) ∈ completed w -> dict_get name (modules r) = None) /\
  (forall name result, (name, Some result) ∈ completed w ->
     dict_get name (modules r) = Some result) /\
  ss_total_findings (summary r) = length (stored_findings (returned (completed w))).
Proof.
  intros Hnd Hret. destruct (scan_fresh target w Hnd) as [Hres Htot].
  destruct (scan_fields (__init__ target) w) as (r0 & Hr & Hm & Hres' & _ & Hlen & _).
  rewrite Hr in Hret. injection Hret as ->.
  rewrite Hm, <- Hres', Hres, Hlen, Htot.
  split; [done|]. split; [|split; [|done]].
  - intros name Hin. apply returned_get_None. intros result Hin'.
    by pose proof (NoDup_fst_functional _ _ _ _ Hnd Hin Hin').
  - intros name result. by apply returned_get_Some.
Qed.

(** X22: the order in which the three futures finish does not show in the
    summary.  Two passes whose futures return the same results in
    different orders store the same module results and give the same
    total, the same five counts, the same risk score and the same
    recommendations. *)
Theorem scan_completion_order_irrelevant target w w' r r' :
  NoDup (map fst (completed w)) ->
  Permutation (completed w) (completed w') ->
  (scan (__init__ target) w).1 = Some r ->
  (scan (__init__ target) w').1 = Some r' ->
  Permutation (modules r) (modules r') /\
  ss_total_findings (summary r) = ss_total_findings (summary r') /\
  ss_critical (summary r) = ss_critical (summary r') /\
  ss_high (summary r) = ss_high (summary r') /\
  ss_medium (summary r) = ss_medium (summary r') /\
  ss_low (summary r) = ss_low (summary r') /\
  ss_info (summary r) = ss_info (summary r') /\
  ss_risk_score (summary r) = ss_risk_score (summary r') /\
  recommendations r = recommendations r'.
Proof.
  intros Hnd Hp Hr Hr'.
  assert (NoDup (map fst (completed w'))) as Hnd'.
  { by rewrite <- Hp. }
  destruct (scan_fresh target w Hnd) as [Hres Htot].
  destruct (scan_fresh target w' Hnd') as [Hres' Htot'].
  destruct (scan_fields (__init__ target) w)
    as (r0 & E & Hm & Hm2 & _ & H1 & H2 & H3 & H4 & H5 & H6 & H7 & H8).
  rewrite E in Hr. injection Hr as ->.
  destruct (scan_fields (__init__ target) w')
    as (r0 & E' & Hm' & Hm2' & _ & H1' & H2' & H3' & H4' & H5' & H6' & H7' & H8').
  rewrite E' in Hr'. injection Hr' as ->.
  pose proof (returned_Permutation _ _ Hp) as Hrs.
  pose proof (stored_findings_Permutation _ _ Hrs) as Hfs.
  rewrite <- Htot, <- Htot' in Hfs.
  split; [by rewrite Hm, <- Hm2, Hres, Hm', <- Hm2', Hres'|].
  rewrite H1, H1', H2, H2', H3, H3', H4, H4', H5, H5', H6, H6', H7, H7', H8, H8'.
  pose proof (with_severity_Permutation "critical" _ _ Hfs) as Hc.
  pose proof (with_severity_Permutation "high" _ _ Hfs) as Hh.
  pose proof (with_severity_Permutation "medium" _ _ Hfs) as Hmd.
  repeat split.
  - by apply Permutation_length.
  - done.
  - done.
  - done.
  - by apply with_severity_Permutation.
  - by apply with_severity_Permutation.
  - unfold _calculate_risk_score. by rewrite Hc, Hh, Hmd.
  - by apply recommendations_by_length.
Qed.

Lemma dict_set_same {V} k (v : V) d : dict_get k d = Some v -> dict_set k v d = d.
Proof.
  induction d as [|[k' v'] d IH]; cbn; [done|].
  destruct (String.eqb_spec k' k); [by intros [= ->]|]. intros H. by rewrite IH.
Qed.

Lemma collect_same cs acc :
  (forall k r, (k, Some r) ∈ cs -> dict_get k acc = Some r) -> collect cs acc = acc.
Proof.
  unfold collect. induction cs as [|[k [r|]] cs IH]; intros H; cbn [fold_left fst snd].
  - done.
  - rewrite dict_set_same by (apply H; left). apply IH. intros k' r' Hin. apply H. by right.
  - apply IH. intros k' r' Hin. apply H. by right.
Qed.

Lemma collect_keeps_keys cs acc k : k ∈ keys acc -> k ∈ keys (collect cs acc).
Proof.
  unfold collect. revert acc. induction cs as [|[k' [r|]] cs IH]; intros acc Hk;
    cbn [fold_left fst snd]; [done| |by apply IH].
  apply IH. clear IH. unfold keys in *.
  induction acc as [|[k0 v0] acc IHacc]; cbn in *; [by apply elem_of_nil in Hk|].
  destruct (String.eqb_spec k0 k'); cbn; [done|].
  apply elem_of_cons in Hk as [->|Hk]; [left|right; by apply IHacc].
Qed.

(** X23: [scan] never resets the scanner.  Each pass keeps the findings
    gathered before and appends the findings of every stored result, the
    results of earlier passes included; no stored result is ever removed.
    A second pass on the same object with the same module results
    therefore reports twice the total of the first. *)
Theorem scan_never_resets s w :
  total_findings (scan s w).2 =
    total_findings s ++ stored_findings (results (scan s w).2) /\
  (forall name, name ∈ keys (results s) -> name ∈ keys (results (scan s w).2)) /\
  (forall target w', s = (scan (__init__ target) w').2 ->
     NoDup (map fst (completed w')) -> completed w = completed w' ->
     length (total_findings (scan s w).2) = 2 * length (total_findings s)).
Proof.
  destruct (scan_fields s w) as (r & _ & _ & Hres & Htot & _).
  split; [by rewrite Htot, Hres|]. split.
  - intros name Hin. rewrite Hres. by apply collect_keeps_keys.
  - intros target w' -> Hnd Hw. rewrite Htot. clear Htot Hres r.
    destruct (scan_fresh target w' Hnd) as [-> ->]. rewrite Hw.
    rewrite collect_same; [rewrite length_app; lia|].
    intros k r. by apply returned_get_Some.
Qed.

Lemma stored_findings_contained (rs : dict result_dict) :
  "metadata" ∉ keys rs ->
  contained_findings (map (fun kv => (kv.1, Dict kv.2)) rs) = stored_findings rs.
Proof.
  unfold contained_findings, stored_findings, keys.
  induction rs as [|[k d] rs IH]; cbn [map flat_map fst snd]; intros Hk; [done|].
  apply not_elem_of_cons in Hk as [Hne Hk].
  destruct (String.eqb_spec k "metadata"); [congruence|]. by rewrite IH.
Qed.

Lemma with_severity_le_normalized name fs :
  lower name = name ->
  length (with_severity name fs) <= count_severity name (map normalized fs) /\
  (Forall (fun f => exists s, severity f = Some s /\ lower s = s) fs ->
   length (with_severity name fs) = count_severity name (map normalized fs)).
Proof.
  intros Hname. unfold with_severity, count_severity.
  induction fs as [|f fs [IH1 IH2]]; [done|].
  cbn [List.filter map]. rewrite filter_cons.
  assert (has_severity name f = true -> normalized f = name) as Hfwd.
  { unfold has_severity, normalized, RiskEngine.severity_lower.
    destruct (severity f) as [s|]; [|done].
    intros Hs. apply String.eqb_eq in Hs. by subst. }
  split.
  - destruct (has_severity name f).
    + rewrite decide_True by auto. cbn [length]. lia.
    + destruct (decide _); cbn [length]; lia.
  - intros Hall. apply Forall_cons in Hall as [(s & Hs & Hlow) Hall].
    assert (normalized f = s) as Hn.
    { unfold normalized, RiskEngine.severity_lower. by rewrite Hs. }
    assert (has_severity name f = String.eqb s name) as ->.
    { unfold has_severity. by rewrite Hs. }
    rewrite Hn. destruct (String.eqb_spec s name).
    + rewrite decide_True by done. cbn [length]. by rewrite IH2.
    + rewrite decide_False by done. by apply IH2.
Qed.

(** X24: the stand-alone scanner and the risk engine count differently.
    Given the module results of one pass, each of the scanner's five
    counts is at most the matching bucket of the risk engine's
    severity_breakdown, because the engine lower-cases the severity (and
    reads a missing one as info) where the scanner compares the stored
    string.  The counts agree when every finding has a lower-case
    severity. *)
Theorem summary_below_engine_breakdown target w r :
  Permutation (map fst (completed w)) module_names ->
  (scan (__init__ target) w).1 = Some r ->
  let sm := summary r in
  exists c h m l i,
    RiskEngine._get_severity_breakdown
      (analysed (map (fun kv => (kv.1, Dict kv.2)) (modules r))) =
      [("critical", c); ("high", h); ("medium", m); ("low", l); ("info", i)] /\
    ss_critical sm <= c /\ ss_high sm <= h /\ ss_medium sm <= m /\
    ss_low sm <= l /\ ss_info sm <= i /\
    (Forall (fun f => exists s, severity f = Some s /\ lower s = s)
            (stored_findings (modules r)) ->
     ss_critical sm = c /\ ss_high sm = h /\ ss_medium sm = m /\
     ss_low sm = l /\ ss_info sm = i).
Proof.
  intros Hp Hr sm. subst sm.
  assert (NoDup (map fst (completed w))) as Hnd.
  { rewrite Hp. unfold module_names. apply (bool_decide_unpack _). by vm_compute. }
  destruct (scan_fresh target w Hnd) as [Hres Htot].
  destruct (scan_fields (__init__ target) w)
    as (r0 & E & Hm & Hm2 & _ & _ & H2 & H3 & H4 & H5 & H6 & _).
  rewrite E in Hr. injection Hr as ->.
  rewrite H2, H3, H4, H5, H6, Htot, Hm, <- Hm2, Hres. clear H2 H3 H4 H5 H6.
  rewrite breakdown_analysed. cbv zeta.
  rewrite stored_findings_contained.
  2:{ unfold keys, returned. intros Hin.
      apply list_elem_of_fmap in Hin as ([k d] & Hk & Hin). cbn in Hk. subst k.
      apply list_elem_of_omap in Hin as ([k o] & Hin & Ho). cbn in Ho.
      destruct o as [d'|]; [|discriminate]. cbn in Ho. injection Ho as -> ->.
      apply (list_elem_of_fmap_2 fst) in Hin. cbn in Hin.
      rewrite Hp in Hin. unfold module_names in Hin.
      repeat (apply elem_of_cons in Hin as [Hin|Hin]; [discriminate|]).
      by apply elem_of_nil in Hin. }
  set (fs := stored_findings _).
  destruct (with_severity_le_normalized "critical" fs eq_refl) as [Lc Ec].
  destruct (with_severity_le_normalized "high" fs eq_refl) as [Lh Eh].
  destruct (with_severity_le_normalized "medium" fs eq_refl) as [Lm Em].
  destruct (with_severity_le_normalized "low" fs eq_refl) as [Ll El].
  destruct (with_severity_le_normalized "info" fs eq_refl) as [Li Ei].
  do 5 eexists. split; [reflexivity|].
  repeat split; auto.
Qed.

End WebScannerFacts.

(** One pass in which the configuration module finishes first, the web
    application module raises and the analyzer finishes last. *)
Definition titled (t sev : string) : finding :=
  {| title := Some t; description := None; severity := Some sev; remediation := None |}.

Definition config_result : result_dict :=
  {| status := Some "completed"; error := None;
     findings := Some [titled "Missing HSTS header" "High";
                       titled "Directory listing enabled" "medium"];
     technologies := None |}.

Definition analyzer_result : result_dict :=
  {| status := Some "completed"; error := None;
     findings := Some [titled "SQL injection in login form" "critical"];
     technologies := None |}.

Definition sample_pass : WebSecurityScanner.run :=
  {| WebSecurityScanner.completed :=
       [("Security Config", Some config_result); ("Web App Risk", None);
        ("OWASP Coverage", Some analyzer_result)];
     WebSecurityScanner.time_start := 100;
     WebSecurityScanner.time_end := 103 |}.

Definition sample_pass_reversed : WebSecurityScanner.run :=
  {| WebSecurityScanner.completed := rev (WebSecurityScanner.completed sample_pass);
     WebSecurityScanner.time_start := 200;
     WebSecurityScanner.time_end := 204 |}.

Lemma final_report_counts_witness :
  exists r,
    (WebSecurityScanner.scan (WebSecurityScanner.__init__ "example.org") sample_pass).1
      = Some r /\
    WebSecurityScanner.ss_total_findings (WebSecurityScanner.summary r) = 3 /\
    WebSecurityScanner.ss_risk_score (WebSecurityScanner.summary r) <= 100.
Proof.
  eexists. split; [reflexivity|]. split; [reflexivity|].
  destruct (final_report_counts
              (WebSecurityScanner.scan (WebSecurityScanner.__init__ "example.org")
                 sample_pass).2 _ eq_refl) as (_ & _ & _ & H & _).
  exact H.
Defined.

Lemma scan_reports_returned_modules_witness :
  exists r,
    (WebSecurityScanner.scan (WebSecurityScanner.__init__ "example.org") sample_pass).1
      = Some r /\
    WebSecurityScanner.modules r =
      [("Security Config", config_result); ("OWASP Coverage", analyzer_result)].
Proof.
  eexists. split; [reflexivity|].
  assert (NoDup (map fst (WebSecurityScanner.completed sample_pass))) as Hnd.
  { apply (bool_decide_unpack _). by vm_compute. }
  destruct (scan_reports_returned_modules "example.org" sample_pass _ Hnd eq_refl)
    as (Hm & _).
  exact Hm.
Defined.

Lemma scan_completion_order_irrelevant_witness :
  exists r r',
    (WebSecurityScanner.scan (WebSecurityScanner.__init__ "example.org") sample_pass).1
      = Some r /\
    (WebSecurityScanner.scan (WebSecurityScanner.__init__ "example.org")
       sample_pass_reversed).1 = Some r' /\
    WebSecurityScanner.ss_risk_score (WebSecurityScanner.summary r) =
    WebSecurityScanner.ss_risk_score (WebSecurityScanner.summary r').
Proof.
  eexists; eexists. split; [reflexivity|]. split; [reflexivity|].
  assert (NoDup (map fst (WebSecurityScanner.completed sample_pass))) as Hnd.
  { apply (bool_decide_unpack _). by vm_compute. }
  destruct (scan_completion_order_irrelevant "example.org" sample_pass sample_pass_reversed
              _ _ Hnd (Permutation_rev _) eq_refl eq_refl)
    as (_ & _ & _ & _ & _ & _ & _ & H & _).
  exact H.
Defined.

Lemma summary_below_engine_breakdown_witness :
  exists r c h m l i,
    (WebSecurityScanner.scan (WebSecurityScanner.__init__ "example.org") sample_pass).1
      = Some r /\
    RiskEngine._get_severity_breakdown
      (analysed (map (fun kv => (kv.1, Dict kv.2)) (WebSecurityScanner.modules r))) =
      [("critical", c); ("high", h); ("medium", m); ("low", l); ("info", i)] /\
    WebSecurityScanner.ss_high (WebSecurityScanner.summary r) <= h.
Proof.
  destruct (summary_below_engine_breakdown "example.org" sample_pass _
              (Permutation_swap _ _ _) eq_refl)
    as (c & h & m & l & i & Hb & _ & Hh & _).
  eexists. exists c, h, m, l, i. split; [reflexivity|]. split; [exact Hb | exact Hh].
Defined.

(** ** The sequential scanner (core/scanner_integration.py) *)

Section MasterScannerFacts.
Import PyDict MasterSecurityScanner.

Lemma summary_le (s : scanner) :
  critical (_get_severity_summary s) + high (_get_severity_summary s) +
  medium (_get_severity_summary s) + low (_get_severity_summary s) +
  info (_get_severity_summary s) <= length (findings_all s).
Proof.
  exact (counted_le (findings_all s)).
Qed.

(** X25: the report of the sequential scanner.  When [execute_full_scan]
    of a new scanner returns, the report names the three modules in
    their fixed order, "total_findings" is the length of "all_findings"
    and the sum of the three "findings_count" entries, each of which is
    the length of the findings listed beside it, and the five severity
    counts together do not exceed the total. *)
Theorem execute_full_scan_totals target w r s' :
  execute_full_scan (__init__ target) w = (Some r, s') ->
  sm_modules_executed (scan_metadata_of r) =
    ["web_app_risk"; "security_config"; "owasp_coverage"] /\
  keys (findings_by_module r) = sm_modules_executed (scan_metadata_of r) /\
  sm_total_findings (scan_metadata_of r) = length (all_findings r) /\
  sm_total_findings (scan_metadata_of r) =
    list_sum (map (fun kv => om_findings_count kv.2) (findings_by_module r)) /\
  Forall (fun kv => om_findings_count kv.2 = length (om_findings kv.2))
         (findings_by_module r) /\
  critical (severity_summary_of r) + high (severity_summary_of r) +
  medium (severity_summary_of r) + low (severity_summary_of r) +
  info (severity_summary_of r) <= sm_total_findings (scan_metadata_of r).
Proof.
  unfold execute_full_scan.
  destruct (web_app_risk w) as [a|]; [|discriminate].
  destruct (security_config w) as [b|]; [|discriminate].
  destruct (owasp_coverage w) as [c|]; [|discriminate].
  intros [= <- <-].
  split; [reflexivity|]. split; [reflexivity|]. split; [reflexivity|].
  split; [|split].
  - cbn. rewrite !length_app. lia.
  - cbn. by repeat constructor.
  - apply summary_le.
Qed.


End MasterScannerFacts.

Definition sample_sequence : MasterSecurityScanner.run :=
  {| MasterSecurityScanner.web_app_risk := Some analyzer_result;
     MasterSecurityScanner.security_config := Some config_result;
     MasterSecurityScanner.owasp_coverage :=
       Some {| status := Some "completed"; error := None; findings := None;
               technologies := None |};
     MasterSecurityScanner.timestamp := "2024-01-01T00:00:00" |}.

Lemma execute_full_scan_totals_witness :
  exists r,
    (MasterSecurityScanner.execute_full_scan
       (MasterSecurityScanner.__init__ "example.org") sample_sequence).1 = Some r /\
    MasterSecurityScanner.sm_total_findings (MasterSecurityScanner.scan_metadata_of r) =
      length (MasterSecurityScanner.all_findings r).
Proof.
  eexists. split; [reflexivity|].
  destruct (execute_full_scan_totals "example.org" sample_sequence _ _ eq_refl)
    as (_ & _ & H & _).
  exact H.
Defined.

(** ** Cached requests (core/cache_manager.py, APICallCacher) *)

Section RequestFacts.
Import Cache APICallCacherRequests.
Context {B H P S : Type}.
Variable dumps : result (B := B) (H := H) -> option S.
Variable loads : S -> option (result (B := B) (H := H)).
Variable json_dumps : list (string * P) -> string.
Variable value_lt : P -> P -> bool.
Variable md5_hexdigest : string -> string.

(** The two methods, told apart by [post]. *)
Definition key_of (post : bool) (url : string) (params : option (list (string * P))) : string :=
  APICallCacher._generate_cache_key json_dumps value_lt md5_hexdigest url params
    (if post then "POST" else "GET").

Definition call (post : bool) (c : cache) (url : string)
    (params : option (list (string * P))) (ttl_seconds : Q) (w : world)
    : option result * cache :=
  if post
  then post_cached_response dumps loads json_dumps value_lt md5_hexdigest c url params ttl_seconds w
  else get_cached_response dumps loads json_dumps value_lt md5_hexdigest c url params ttl_seconds w.

(** The request did not give a result: it raised, answered with another
    status than 200, or its body could not be decoded. *)
Definition failed (h : http (B := B) (H := H)) : Prop :=
  match h with
  | Raises => True
  | Answers status body _ => status <> 200%Z \/ body = None
  end.

Lemma call_cached_call post c url params ttl w :
  call post c url params ttl w = cached_call dumps loads c (key_of post url params) ttl w.
Proof. by destruct post. Qed.

Lemma get_None_memory (c : cache (V := result) (S := S)) k t ok :
  (get loads c k t ok).1 = None -> memory_cache (get loads c k t ok).2 !! k = None.
Proof.
  unfold get, get_db.
  destruct (memory_cache c !! k) as [e|] eqn:Ek.
  - destruct (gt (me_expires_at e) t); [discriminate|].
    destruct ok; [|intros _; apply lookup_delete_eq].
    destruct (db c !! k) as [r|]; [|intros _; apply lookup_delete_eq].
    destruct (gt (r_expires_at r) t); [|intros _; apply lookup_delete_eq].
    destruct (loads (r_data r)); [discriminate|intros _; apply lookup_delete_eq].
  - destruct ok; [|done].
    destruct (db c !! k) as [r|]; [|done].
    destruct (gt (r_expires_at r) t); [|done].
    by destruct (loads (r_data r)).
Qed.

Lemma cached_call_cases c key ttl w :
  (exists v, (get loads c key (lookup_time w) (lookup_db_ok w)).1 = Some v /\
             (cached_call dumps loads c key ttl w).1 = Some (mark v)) \/
  ((get loads c key (lookup_time w) (lookup_db_ok w)).1 = None /\
   failed (request w) /\
   cached_call dumps loads c key ttl w =
     (None, (get loads c key (lookup_time w) (lookup_db_ok w)).2)) \/
  (exists body hdrs,
     (get loads c key (lookup_time w) (lookup_db_ok w)).1 = None /\
     request w = Answers 200 (Some body) hdrs /\
     cached_call dumps loads c key ttl w =
       (Some (Result 200 body hdrs false (stamp w)),
        (set dumps (get loads c key (lookup_time w) (lookup_db_ok w)).2 key
             (Result 200 body hdrs false (stamp w)) ttl (store_time w) (store_db_ok w)).2)).
Proof.
  unfold cached_call.
  destruct (get loads c key (lookup_time w) (lookup_db_ok w)) as [[v|] c'] eqn:E; cbn [fst snd].
  { left. by exists v. }
  right. destruct (request w) as [|status [body|] hdrs] eqn:Er.
  - left. split; [done|]. by split.
  - destruct (Z.eqb_spec status 200) as [->|Hne].
    + right. by exists body, hdrs.
    + left. split; [done|]. split; [by left|done].
  - left. split; [done|]. split; [by right|]. by destruct (Z.eqb status 200).
Qed.

(** X27: the "_from_cache" flag tells the truth.  A result flagged False
    was just fetched: the lookup missed, the request answered 200 and
    the result holds that answer's body and headers.  A result flagged
    True is a value the cache held unexpired, with only its flag set.
    Both methods behave so. *)
Theorem from_cache_flag_truthful post c url params ttl w r :
  (call post c url params ttl w).1 = Some r ->
  let looked_up :=
    (get loads c (key_of post url params) (lookup_time w) (lookup_db_ok w)).1 in
  (_from_cache r = false ->
     looked_up = None /\
     request w = Answers 200 (Some (data r)) (headers r) /\
     status_code r = 200%Z /\ timestamp r = stamp w) /\
  (_from_cache r = true -> exists v, looked_up = Some v /\ r = mark v).
Proof.
  rewrite call_cached_call. intros Hr looked_up. subst looked_up.
  destruct (cached_call_cases c (key_of post url params) ttl w)
    as [(v & Hv & Hc)|[(Hn & _ & Hc)|(body & hdrs & Hn & Hreq & Hc)]];
    rewrite Hc in Hr; cbn [fst] in Hr; simplify_eq.
  - split; [discriminate|]. intros _. by exists v.
  - split; [|discriminate]. by intros _.
Qed.

(** X28: a request that fails is not cached.  When a call returns None
    the lookup had missed and the request raised, answered with a status
    other than 200 or had an undecodable body; the cache is left as the
    lookup left it, with no entry for the key in memory, so the next
    call does not find the failure there. *)
Theorem failed_request_not_cached post c url params ttl w :
  (call post c url params ttl w).1 = None ->
  let key := key_of post url params in
  (get loads c key (lookup_time w) (lookup_db_ok w)).1 = None /\
  failed (request w) /\
  (call post c url params ttl w).2 = (get loads c key (lookup_time w) (lookup_db_ok w)).2 /\
  memory_cache (call post c url params ttl w).2 !! key = None.
Proof.
  rewrite call_cached_call. intros Hr key. subst key.
  destruct (cached_call_cases c (key_of post url params) ttl w)
    as [(v & Hv & Hc)|[(Hn & Hf & Hc)|(body & hdrs & Hn & Hreq & Hc)]];
    rewrite Hc in Hr; cbn [fst] in Hr; simplify_eq.
  rewrite Hc. cbn [snd]. repeat split; try done. by apply get_None_memory.
Qed.


End RequestFacts.

(** A cacher whose JSON text of a result is the result itself, on an
    empty cache, with one service that answers and one that does not. *)
Definition text_result : Type := APICallCacherRequests.result (B := string) (H := string).

Definition empty_result_cache : Cache.cache (V := text_result) (S := text_result) :=
  Cache.__init__.

Definition answering : APICallCacherRequests.world (B := string) (H := string) :=
  {| APICallCacherRequests.lookup_time := 1000;
     APICallCacherRequests.lookup_db_ok := true;
     APICallCacherRequests.request :=
       APICallCacherRequests.Answers 200 (Some "{}") "application/json";
     APICallCacherRequests.stamp := "2024-01-01T00:00:00";
     APICallCacherRequests.store_time := 1001;
     APICallCacherRequests.store_db_ok := true |}.

Definition unavailable : APICallCacherRequests.world (B := string) (H := string) :=
  {| APICallCacherRequests.lookup_time := 1030;
     APICallCacherRequests.lookup_db_ok := false;
     APICallCacherRequests.request := APICallCacherRequests.Answers 503 None "text/html";
     APICallCacherRequests.stamp := "2024-01-01T00:00:30";
     APICallCacherRequests.store_time := 1031;
     APICallCacherRequests.store_db_ok := false |}.

Definition lookup_call (c : Cache.cache (V := text_result) (S := text_result))
    (w : APICallCacherRequests.world) : option text_result * Cache.cache :=
  call Some Some render_items String.ltb id false c
    "https://api.example.org/lookup" (Some [("q", "example.org")]) 60 w.

Lemma from_cache_flag_truthful_witness :
  exists r, (lookup_call empty_result_cache answering).1 = Some r /\
            APICallCacherRequests.status_code r = 200%Z.
Proof.
  eexists. split; [reflexivity|].
  destruct (from_cache_flag_truthful Some Some render_items String.ltb id false
              empty_result_cache "https://api.example.org/lookup"
              (Some [("q", "example.org")]) 60 answering _ eq_refl) as [Hfresh _].
  destruct (Hfresh eq_refl) as (_ & _ & Hs & _). exact Hs.
Defined.

Lemma failed_request_not_cached_witness :
  (lookup_call empty_result_cache unavailable).2 =
  (Cache.get Some empty_result_cache
     (key_of render_items String.ltb id false "https://api.example.org/lookup"
        (Some [("q", "example.org")])) 1030 false).2.
Proof.
  destruct (failed_request_not_cached Some Some render_items String.ltb id false
              empty_result_cache "https://api.example.org/lookup"
              (Some [("q", "example.org")]) 60 unavailable eq_refl) as (_ & _ & H & _).
  exact H.
Defined.

